(** * Dribbling-detection pipeline: video-to-sequence converters and quality gate

    A shallow embedding of the three Python programs of the repository

      - [remove_unwanted_scenes.py]  (module [RemoveUnwantedScenes]),
      - [format_mp4_dir.py]          (module [FormatMp4Dir]),
      - [format_to_soccernet.py]     (module [FormatToSoccernet]),

    followed by the properties of the specification that concern them.

    Conventions of the embedding.
      - A Python [float] is an IEEE-754 binary64 value, [spec_float] with
        precision 53 and maximal exponent 1024; arithmetic and comparisons
        are those of [SpecFloat], so rounding is the machine's.
      - A Python [int] is a [Z].
      - A Python [str] is a [string] whose characters are the code points
        below 256.
      - A function that touches the outside world is a state transformer
        over an explicit world record that may raise: [World -> World *
        result A].  The state reached when an exception is raised is kept.
      - External collaborators (the decoding engine, the detector, the
        clock, the directory listing, [float.__repr__]) are the fields of a
        class of externals; every theorem holds for all their behaviours.
      - A call into the operating system ([open], [os.listdir],
        [os.makedirs], [shutil.move]) and the loading of the detector's
        weights may fail: the externals say whether it does, and with
        which error. *)

From Stdlib Require Import ZArith QArith Qround Qpower List String Ascii Bool Lia.
From Stdlib Require Import DecimalString DecimalZ DecimalN DecimalPos DecimalFacts.
From Stdlib Require Import Floats.SpecFloat.
From stdpp Require Import gmap strings list.

Set Warnings "-register-all".

Local Open Scope string_scope.
Local Open Scope Z_scope.

(** ** Exceptions and results *)

Inductive exn : Type :=
| ValueError (msg : string)
| ZeroDivisionError
| OverflowError
| FileNotFoundError (path : string)
| PermissionError (path : string)
| OSError (errno : Z) (path : string)
| RuntimeError (msg : string)
| CalledProcessError (returncode : Z) (cmd : list string).

(** Why a call into the operating system fails, and the [OSError] it
    raises for a path. *)
Inductive os_fault : Type :=
| NoSuchFile
| Denied
| Errno (errno : Z).

Definition os_exn (fault : os_fault) (path : string) : exn :=
  match fault with
  | NoSuchFile => FileNotFoundError path
  | Denied => PermissionError path
  | Errno errno => OSError errno path
  end.

Inductive result (A : Type) : Type :=
| Ok (a : A)
| Raise (e : exn).
Arguments Ok {A} a.
Arguments Raise {A} e.


(** ** Python floats: IEEE-754 binary64 *)

Module PyFloat.

Definition prec : Z := 53.
Definition emax : Z := 1024.

Definition float : Type := spec_float.

(** Nearest binary64 value of an integer, ties to even; an infinity when
    the integer is out of range. *)
Definition of_Z (z : Z) : float := binary_normalize prec emax z 0 false.

(** Implicit conversion of a Python [int] operand in mixed arithmetic:
    [OverflowError] when the integer is too large for a float. *)
Definition of_int (z : Z) : result float :=
  match of_Z z with
  | S754_infinity _ => Raise OverflowError
  | f => Ok f
  end.

Definition mul : float -> float -> float := SFmul prec emax.
Definition div : float -> float -> float := SFdiv prec emax.
Definition sub : float -> float -> float := SFsub prec emax.

(** [x < y], [x <= y], [x > y], [x >= y]; all false on a NaN. *)
Definition lt (x y : float) : bool := SFltb x y.
Definition le (x y : float) : bool := SFleb x y.
Definition gt (x y : float) : bool := SFltb y x.
Definition ge (x y : float) : bool := SFleb y x.

Definition is_zero (x : float) : bool :=
  match x with S754_zero _ => true | _ => false end.

Definition is_nan (x : float) : bool :=
  match x with S754_nan => true | _ => false end.

Definition is_finite (x : float) : bool :=
  match x with S754_zero _ | S754_finite _ _ _ => true | _ => false end.

(** [x / y] on floats: [ZeroDivisionError] on a zero divisor, otherwise the
    IEEE quotient (an overflow gives an infinity, not an exception). *)
Definition truediv (x y : float) : result float :=
  if is_zero y then Raise ZeroDivisionError else Ok (div x y).

(** [int(x)]: truncation toward zero. *)
Definition to_int (x : float) : result Z :=
  match x with
  | S754_nan => Raise (ValueError "cannot convert float NaN to integer")
  | S754_infinity _ => Raise OverflowError
  | S754_zero _ => Ok 0
  | S754_finite s m e =>
      let a := Z.shiftl (Zpos m) e in
      Ok (if s then - a else a)
  end.

(** A decimal literal [digits * 10^-places] of the source text.  Both
    operands are exact binary64 values for the literals of this program,
    so the IEEE quotient is the correctly rounded literal. *)
Definition decimal (digits : Z) (places : nat) : float :=
  div (of_Z digits) (of_Z (10 ^ Z.of_nat places)).

Definition zero : float := S754_zero false.

(** The rational a finite float stands for: [(-1)^s * m * 2^e]. *)
Definition to_Q (x : float) : Q :=
  match x with
  | S754_finite s m e => (inject_Z (if s then Zneg m else Zpos m) * 2 ^ e)%Q
  | _ => 0%Q
  end.

(** Zero, or positive (an infinity included): never a NaN. *)
Definition nonneg (x : float) : bool :=
  match x with
  | S754_zero _ | S754_finite false _ _ | S754_infinity false => true
  | _ => false
  end.

End PyFloat.

Abbreviation float := PyFloat.float.

(** ** Python strings *)

Module PyStr.

(** [str(n)] for an [int]. *)
Definition str_of_Z (z : Z) : string := NilEmpty.string_of_int (Z.to_int z).

Fixpoint repeat_char (c : ascii) (n : nat) : string :=
  match n with
  | O => EmptyString
  | S k => String c (repeat_char c k)
  end.

(** [format(i, '0{width}d')]: sign first, then zeros up to [width]
    characters, then the decimal digits. *)
Definition format_0d (width : nat) (i : Z) : string :=
  let sign := if i <? 0 then "-" else "" in
  let digits := str_of_Z (Z.abs i) in
  sign +:+ repeat_char "0" (width - String.length sign - String.length digits)
       +:+ digits.

(** [c in s] for a one-character [c]. *)
Fixpoint contains (c : ascii) (s : string) : bool :=
  match s with
  | EmptyString => false
  | String a r => Ascii.eqb a c || contains c r
  end.

(** [s.split(c)] for a one-character separator. *)
Fixpoint split (c : ascii) (s : string) : list string :=
  match s with
  | EmptyString => [EmptyString]
  | String a r =>
      if Ascii.eqb a c then EmptyString :: split c r
      else match split c r with
           | h :: t => String a h :: t
           | [] => [String a EmptyString]
           end
  end.

(** [c.isspace()] on the code points below 256. *)
Definition isspace (c : ascii) : bool :=
  let n := nat_of_ascii c in
  ((9 <=? n) && (n <=? 13) || (28 <=? n) && (n <=? 32)
   || (n =? 133) || (n =? 160))%nat.

Fixpoint lstrip (s : string) : string :=
  match s with
  | EmptyString => EmptyString
  | String a r => if isspace a then lstrip r else s
  end.

Fixpoint rstrip (s : string) : string :=
  match s with
  | EmptyString => EmptyString
  | String a r =>
      match rstrip r with
      | EmptyString => if isspace a then EmptyString else String a EmptyString
      | r' => String a r'
      end
  end.

(** [s.strip()] *)
Definition strip (s : string) : string := rstrip (lstrip s).

(** [c.lower()] on the code points below 256: A-Z and the Latin-1 capitals. *)
Definition lower_char (c : ascii) : ascii :=
  let n := nat_of_ascii c in
  if ((65 <=? n) && (n <=? 90)
      || (192 <=? n) && (n <=? 222) && negb (n =? 215))%nat
  then ascii_of_nat (n + 32) else c.

Fixpoint lower (s : string) : string :=
  match s with
  | EmptyString => EmptyString
  | String a r => String (lower_char a) (lower r)
  end.

(** [s.replace(old, new)] for one-character [old] and [new]. *)
Fixpoint replace (old new : ascii) (s : string) : string :=
  match s with
  | EmptyString => EmptyString
  | String a r => String (if Ascii.eqb a old then new else a) (replace old new r)
  end.

Fixpoint startswith (s pre : string) {struct pre} : bool :=
  match pre with
  | EmptyString => true
  | String a pre' =>
      match s with
      | EmptyString => false
      | String b s' => Ascii.eqb a b && startswith s' pre'
      end
  end.

Definition endswith (s suf : string) : bool :=
  let ls := String.length s in
  let lf := String.length suf in
  if (lf <=? ls)%nat then String.eqb (substring (ls - lf) lf s) suf else false.

(** [s.endswith((a, b, ...))] for a tuple of suffixes. *)
Definition endswith_any (s : string) (sufs : list string) : bool :=
  existsb (endswith s) sufs.

(** [s.rfind(c)] for a one-character [c]; [-1] when absent. *)
Fixpoint rfind_from (c : ascii) (s : string) (i : Z) (last : Z) : Z :=
  match s with
  | EmptyString => last
  | String a r => rfind_from c r (i + 1) (if Ascii.eqb a c then i else last)
  end.

Definition rfind (c : ascii) (s : string) : Z := rfind_from c s 0 (-1).

(** [s[:i]] and [s[i:]] for [0 <= i]. *)
Definition slice_to (s : string) (i : Z) : string := substring 0 (Z.to_nat i) s.
Definition slice_from (s : string) (i : Z) : string :=
  substring (Z.to_nat i) (String.length s - Z.to_nat i) s.

(** [repr(s)]: single quotes, unless the string holds a single quote and
    no double quote; the quote, the backslash and the characters that are
    not printable are escaped. *)
Definition hex_char (n : nat) : ascii :=
  match String.get n "0123456789abcdef" with
  | Some c => c
  | None => "0"%char
  end.

Definition isprintable (c : ascii) : bool :=
  let n := nat_of_ascii c in
  negb ((n <? 32) || (127 <=? n) && (n <=? 160) || (n =? 173))%nat.

Definition repr_char (quote : ascii) (c : ascii) : string :=
  let n := nat_of_ascii c in
  if Ascii.eqb c quote || Ascii.eqb c "092" then String "092" (String c EmptyString)
  else if Ascii.eqb c "009" then String "092" "t"
  else if Ascii.eqb c "010" then String "092" "n"
  else if Ascii.eqb c "013" then String "092" "r"
  else if isprintable c then String c EmptyString
  else String "092" (String "x" (String (hex_char (n / 16)%nat)
                                   (String (hex_char (n mod 16)%nat) EmptyString))).

Fixpoint repr_body (quote : ascii) (s : string) : string :=
  match s with
  | EmptyString => EmptyString
  | String a r => repr_char quote a ++ repr_body quote r
  end.

Definition repr (s : string) : string :=
  let quote :=
    if contains "039" s && negb (contains "034" s) then "034"%char else "039"%char in
  String quote (repr_body quote s ++ String quote EmptyString).

End PyStr.

(** ** [os.path] (posixpath) *)

Module OsPath.

(** [os.path.join(a, b)] *)
Definition join (a b : string) : string :=
  if PyStr.startswith b "/" then b
  else if String.eqb a "" || PyStr.endswith a "/" then a +:+ b
  else a +:+ "/" +:+ b.

(** The scan of [genericpath._splitext] over the file-name part: is there
    a character other than a dot in [p[i : i + n]]? *)
Fixpoint has_non_dot (p : string) (i : nat) (n : nat) : bool :=
  match n with
  | O => false
  | S k =>
      match String.get i p with
      | Some c => if Ascii.eqb c "." then has_non_dot p (S i) k else true
      | None => true
      end
  end.

(** [os.path.splitext(p)] *)
Definition splitext (p : string) : string * string :=
  let sepIndex := PyStr.rfind "/" p in
  let dotIndex := PyStr.rfind "." p in
  if sepIndex <? dotIndex then
    let filenameIndex := sepIndex + 1 in
    if has_non_dot p (Z.to_nat filenameIndex) (Z.to_nat (dotIndex - filenameIndex))
    then (PyStr.slice_to p dotIndex, PyStr.slice_from p dotIndex)
    else (p, "")
  else (p, "").

End OsPath.

(** ** [json.dump(obj, f, indent=4)] *)

Module Json.

(** The Python values this program serialises.  A [dict] keeps insertion
    order, so it is an association list. *)
Inductive value : Type :=
| Bool (b : bool)
| Int (z : Z)
| Float (x : float)
| Str (s : string)
| List (items : list value)
| Dict (items : list (string * value)).

Definition dquote : ascii := "034"%char.
Definition backslash : ascii := "092"%char.

Definition hex_digit (n : nat) : ascii :=
  match String.get (n mod 16) "0123456789abcdef" with
  | Some c => c
  | None => "0"%char
  end.

(** One character under [ensure_ascii=True]. *)
Definition escape_char (c : ascii) : string :=
  let n := nat_of_ascii c in
  if (n =? 34)%nat then String backslash (String dquote "")
  else if (n =? 92)%nat then String backslash (String backslash "")
  else if (n =? 8)%nat then String backslash "b"
  else if (n =? 12)%nat then String backslash "f"
  else if (n =? 10)%nat then String backslash "n"
  else if (n =? 13)%nat then String backslash "r"
  else if (n =? 9)%nat then String backslash "t"
  else if ((n <? 32) || (126 <? n))%nat then
    String backslash
      ("u00" +:+ String (hex_digit (n / 16)) (String (hex_digit n) ""))
  else String c "".

Fixpoint escape (s : string) : string :=
  match s with
  | EmptyString => EmptyString
  | String c r => escape_char c +:+ escape r
  end.

Definition encode_basestring_ascii (s : string) : string :=
  String dquote (escape s +:+ String dquote "").

Section Encoder.
(** [float.__repr__] *)
Variable float_repr : float -> string.

Definition floatstr (x : float) : string :=
  match x with
  | S754_nan => "NaN"
  | S754_infinity false => "Infinity"
  | S754_infinity true => "-Infinity"
  | _ => float_repr x
  end.

Definition newline_indent (indent level : nat) : string :=
  String "010"%char (PyStr.repeat_char " " (indent * level)).

Fixpoint join (sep : string) (parts : list string) : string :=
  match parts with
  | [] => ""
  | [p] => p
  | p :: rest => p +:+ sep +:+ join sep rest
  end.

(** The encoder at nesting depth [level]; item separator [","], key
    separator [": "]. *)
Fixpoint encode (indent level : nat) (v : value) : string :=
  match v with
  | Bool true => "true"
  | Bool false => "false"
  | Int z => PyStr.str_of_Z z
  | Float x => floatstr x
  | Str s => encode_basestring_ascii s
  | List [] => "[]"
  | List items =>
      "[" +:+ newline_indent indent (S level)
      +:+ join ("," +:+ newline_indent indent (S level))
            (map (encode indent (S level)) items)
      +:+ newline_indent indent level +:+ "]"
  | Dict [] => "{}"
  | Dict items =>
      "{" +:+ newline_indent indent (S level)
      +:+ join ("," +:+ newline_indent indent (S level))
            (map (fun kv => encode_basestring_ascii (fst kv) +:+ ": "
                            +:+ encode indent (S level) (snd kv)) items)
      +:+ newline_indent indent level +:+ "}"
  end.

Definition dumps (obj : value) (indent : nat) : string := encode indent 0 obj.
End Encoder.

(** [d[key]] on a [dict] value. *)
Fixpoint assoc (key : string) (items : list (string * value)) : option value :=
  match items with
  | [] => None
  | (k, v) :: rest => if String.eqb k key then Some v else assoc key rest
  end.

Definition get (key : string) (v : value) : option value :=
  match v with
  | Dict items => assoc key items
  | _ => None
  end.

End Json.

(** ** State and exceptions: the monad of effectful functions *)

Section Effects.
Context {W : Type}.

Definition M (A : Type) : Type := W -> W * result A.

Definition ret {A} (a : A) : M A := fun w => (w, Ok a).

Definition raise {A} (e : exn) : M A := fun w => (w, Raise e).

Definition bind {A B} (c : M A) (k : A -> M B) : M B :=
  fun w =>
    match c w with
    | (w', Ok a) => k a w'
    | (w', Raise e) => (w', Raise e)
    end.

(** A pure computation that may raise, run inside an effectful one. *)
Definition lift {A} (r : result A) : M A := fun w => (w, r).
End Effects.
Arguments M W A : clear implicits.

Notation "'let*' x ':=' c 'in' k" := (bind c (fun x => k))
  (at level 10, x name, c at level 100, k at level 200).
Notation "c ';;' k" := (bind c (fun _ => k))
  (at level 100, k at level 200, right associativity).

(** [bind] on results, for pure code that may raise. *)
Definition rbind {A B} (r : result A) (k : A -> result B) : result B :=
  match r with
  | Ok a => k a
  | Raise e => Raise e
  end.

(** * remove_unwanted_scenes.py *)

Module RemoveUnwantedScenes.

(** Configuration constants *)
Definition CONF_THRESHOLD : float := PyFloat.decimal 6 1.
Definition MIN_PLAYERS : Z := 4.
Definition MAX_BBOX_HEIGHT_RATIO : float :=
  PyFloat.div (PyFloat.of_Z 1) (PyFloat.of_Z 3).

(** A decoded frame; [frame.shape[0]] is its pixel height. *)
Record Frame : Type := { shape : Z * Z * Z; pixels : list Z }.

Definition shape0 (f : Frame) : Z := fst (fst (shape f)).

(** Row [i] of [result.boxes]: [boxes.conf[i]] and [boxes.xyxy[i]]. *)
Record Box : Type := { boxes_conf : float; boxes_xyxy : float * float * float * float }.

(** [{'bbox': (x1, y1, x2, y2), 'conf': conf}] *)
Record Detection : Type := { bbox : float * float * float * float; conf : float }.

(** What [cv2.VideoCapture(path)] answers: whether it opened, the frame
    count property, and the frame read after seeking to a position
    ([None] when [read] reports failure). *)
Record Capture : Type := {
  isOpened : bool;
  CAP_PROP_FRAME_COUNT : float;
  read_at : Z -> option Frame
}.

(** [YOLO model] is the detector loaded from the weights [model], and
    [YOLO_raises model] what loading them raises, if it does; [listdir]
    is what [os.listdir] answers, and [listdir_fault] why it fails, if it
    does. *)
Class Externals : Type := {
  VideoCapture : string -> Capture;
  YOLO : string -> Frame -> list (list Box);
  YOLO_raises : string -> option exn;
  isdir : string -> bool;
  listdir : string -> list string;
  listdir_fault : string -> option os_fault;
  float_repr : float -> string
}.

(** The files on disk and the lines printed so far. *)
Record World : Type := { disk : gset string; console : list string }.

Definition print (line : string) : M World unit :=
  fun w => ({| disk := disk w; console := console w ++ [line] |}, Ok tt).

(** [os.remove(path)] *)
Definition os_remove (path : string) : M World unit :=
  fun w =>
    if decide (path ∈ disk w)
    then ({| disk := disk w ∖ {[path]}; console := console w |}, Ok tt)
    else (w, Raise (FileNotFoundError path)).

Section Program.
Context `{Externals}.

Definition get_middle_frame (video_path : string) : result (option (Frame * Z)) :=
  let cap := VideoCapture video_path in
  if negb (isOpened cap) then Ok None
  else
    rbind (PyFloat.to_int (CAP_PROP_FRAME_COUNT cap)) (fun total_frames =>
    let mid_frame_index := total_frames / 2 in
    match read_at cap mid_frame_index with
    | None => Ok None
    | Some frame => Ok (Some (frame, shape0 frame))
    end).

(** The inner loop of [run_detection], over the rows of one result. *)
Fixpoint run_detection_boxes (boxes : list Box) (detections : list Detection)
  : list Detection :=
  match boxes with
  | [] => detections
  | b :: rest =>
      let conf := boxes_conf b in
      if PyFloat.lt conf CONF_THRESHOLD then run_detection_boxes rest detections
      else run_detection_boxes rest
             (detections ++ [{| bbox := boxes_xyxy b; conf := conf |}])
  end.

Fixpoint run_detection_results (results : list (list Box))
  (detections : list Detection) : list Detection :=
  match results with
  | [] => detections
  | boxes :: rest =>
      run_detection_results rest (run_detection_boxes boxes detections)
  end.

Definition run_detection (model : Frame -> list (list Box)) (frame : Frame)
  : list Detection :=
  let results := model frame in
  run_detection_results results [].

(** The [for det in detections] loop of [check_criteria]. *)
Fixpoint check_bboxes (detections : list Detection) (frame_height : Z)
  : M World bool :=
  match detections with
  | [] => ret true
  | det :: rest =>
      let '(x1, y1, x2, y2) := bbox det in
      let* h := lift (PyFloat.of_int frame_height) in
      if PyFloat.ge (PyFloat.sub y2 y1) (PyFloat.mul h MAX_BBOX_HEIGHT_RATIO)
      then
        print ("[INFO] Bounding box too large: "
               +:+ float_repr (PyFloat.sub y2 y1) +:+ " >= "
               +:+ float_repr (PyFloat.mul h MAX_BBOX_HEIGHT_RATIO)
               +:+ " (frame height is " +:+ PyStr.str_of_Z frame_height
               +:+ "). Video will be deleted");;
        ret false
      else check_bboxes rest frame_height
  end.

Definition check_criteria (detections : list Detection) (frame_height : Z)
  : M World bool :=
  if Z.of_nat (length detections) <? MIN_PLAYERS then
    print ("[INFO] Not enough players detected ( "
           +:+ PyStr.str_of_Z (Z.of_nat (length detections))
           +:+ " of minimum " +:+ PyStr.str_of_Z MIN_PLAYERS +:+ ").");;
    ret false
  else check_bboxes detections frame_height.

Definition process_video (model : Frame -> list (list Box)) (video_path : string)
  : M World bool :=
  let* got := lift (get_middle_frame video_path) in
  match got with
  | None =>
      print ("[WARN] Unable to read frame from: " +:+ video_path);;
      ret false
  | Some (frame, frame_height) =>
      let detections := run_detection model frame in
      let* ok := check_criteria detections frame_height in
      if negb ok then
        os_remove video_path;;
        ret false
      else
        print ("[INFO] Kept: " +:+ video_path);;
        ret true
  end.

Definition video_suffixes : list string :=
  [".mp4"; ".avi"; ".mov"; ".mkv"; ".webm"].

(** The [for filename in os.listdir(folder_path)] loop of [main], with
    its two counters. *)
Fixpoint main_loop (model : Frame -> list (list Box)) (folder_path : string)
  (filenames : list string) (num_processed num_deleted : Z) : M World (Z * Z) :=
  match filenames with
  | [] => ret (num_processed, num_deleted)
  | filename :: rest =>
      if negb (PyStr.endswith_any (PyStr.lower filename) video_suffixes)
      then main_loop model folder_path rest num_processed num_deleted
      else
        let num_processed := num_processed + 1 in
        let video_path := OsPath.join folder_path filename in
        let* result := process_video model video_path in
        let num_deleted := if result then num_deleted + 1 else num_deleted in
        main_loop model folder_path rest num_processed num_deleted
  end.

Definition summary (num_processed num_deleted : Z) : string :=
  "[INFO] Processed " +:+ PyStr.str_of_Z num_processed
  +:+ " videos, deleted " +:+ PyStr.str_of_Z num_deleted +:+ ".".

(** [YOLO(model)] *)
Definition load_model (model : string) : result (Frame -> list (list Box)) :=
  match YOLO_raises model with
  | Some e => Raise e
  | None => Ok (YOLO model)
  end.

(** [os.listdir(folder_path)] *)
Definition os_listdir (folder_path : string) : result (list string) :=
  match listdir_fault folder_path with
  | Some fault => Raise (os_exn fault folder_path)
  | None => Ok (listdir folder_path)
  end.

Definition main (folder_path : string) (model : string) : M World unit :=
  if negb (isdir folder_path) then
    print ("[ERROR] " +:+ folder_path +:+ " is not a valid directory.")
  else
    let* model := lift (load_model model) in
    let* filenames := lift (os_listdir folder_path) in
    let* counters := main_loop model folder_path filenames 0 0 in
    let '(num_processed, num_deleted) := counters in
    print (summary num_processed num_deleted);;
    if num_processed =? 0 then
      print ("[WARN] No video files found in: " +:+ folder_path
             +:+ ", make sure they are in a supported format (.webm, .mp4, .avi, .mov, .mkv).")
    else ret tt.

End Program.

End RemoveUnwantedScenes.

(** * The host of the two converters *)

Module Host.

(** What the converters can observe and change: regular files with their
    text, the directories asked for with [os.makedirs], the child
    processes run with their exit status, the relocations asked for with [shutil.move], the
    console, and the number of clock readings taken. *)
Record World : Type := {
  files : gmap string string;
  dirs : gset string;
  spawned : list (list string * Z);
  moved : list (string * string);
  console : list string;
  clock : nat
}.

(** The calls into the operating system that may fail. *)
Inductive syscall : Type :=
| Open_w (path : string)
| Listdir (path : string)
| Makedirs (path : string)
| Move (src dst : string).

(** The path an [OSError] of a call names. *)
Definition syscall_path (call : syscall) : string :=
  match call with
  | Open_w path | Listdir path | Makedirs path => path
  | Move src _ => src
  end.

(** The external collaborators.  [run_process cmd] is the child process
    started by [subprocess.run]: it may change the files and answers with
    its exit status and its standard output.  [glob_glob] and [listdir]
    read the files.  [float_literal] is the builtin [float] on the
    literals that are not plain runs of decimal digits ([None]:
    [ValueError]).  The clock answers its [n]-th reading.  [os_fault call
    files dirs] is why the operating system refuses [call] in the state
    [files], [dirs], if it does, and [move_files src dst files] what a
    successful [shutil.move(src, dst)] makes of the files. *)
Class Externals : Type := {
  run_process : list string -> gmap string string -> gmap string string * (Z * string);
  glob_glob : string -> gmap string string -> list string;
  listdir : string -> gmap string string -> list string;
  float_repr : float -> string;
  float_literal : string -> option float;
  strftime : nat -> string -> string;
  isoformat : nat -> string;
  time_time : nat -> float;
  round2 : float -> float;
  os_fault_of : syscall -> gmap string string -> gset string -> option os_fault;
  move_files : string -> string -> gmap string string -> gmap string string
}.

Definition newline : string := String "010"%char "".

Definition print (line : string) : M World unit :=
  fun w => ({| files := files w; dirs := dirs w; spawned := spawned w; moved := moved w;
               console := console w ++ [line]; clock := clock w |}, Ok tt).

(** The worlds a call into the operating system leaves when it
    succeeds. *)
Definition made (path : string) (w : World) : World :=
  {| files := files w; dirs := dirs w ∪ {[path]}; spawned := spawned w;
     moved := moved w; console := console w; clock := clock w |}.

Definition written (path text : string) (w : World) : World :=
  {| files := <[path := text]> (files w); dirs := dirs w;
     spawned := spawned w; moved := moved w; console := console w;
     clock := clock w |}.

(** One reading of the clock. *)
Definition tick : M World nat :=
  fun w => ({| files := files w; dirs := dirs w; spawned := spawned w; moved := moved w;
               console := console w; clock := S (clock w) |}, Ok (clock w)).

(** The value of a non-empty run of decimal digits. *)
Definition digits_value (s : string) : option Z :=
  match s with
  | EmptyString => None
  | _ => option_map Z.of_uint (NilEmpty.uint_of_string s)
  end.

(** [range(a, b)] *)
Definition range (a b : Z) : list Z :=
  map (fun k => a + Z.of_nat k) (seq 0 (Z.to_nat (b - a))).

Section Builtins.
Context `{Externals}.

(** A call into the operating system: it raises its [OSError] and
    changes nothing, or goes on with [effect]. *)
Definition os_call {A} (call : syscall) (effect : M World A) : M World A :=
  fun w =>
    match os_fault_of call (files w) (dirs w) with
    | Some fault => (w, Raise (os_exn fault (syscall_path call)))
    | None => effect w
    end.

(** [os.makedirs(path, exist_ok=True)] *)
Definition makedirs (path : string) : M World unit :=
  os_call (Makedirs path) (fun w => (made path w, Ok tt)).

(** [with open(path, 'w', encoding='utf-8') as f: f.write(text)] *)
Definition write_text (path text : string) : M World unit :=
  os_call (Open_w path) (fun w => (written path text w, Ok tt)).

(** [shutil.move(src, dst)]: the files are what the move makes of them,
    and the relocation is logged. *)
Definition relocated (src dst : string) (w : World) : World :=
  {| files := move_files src dst (files w); dirs := dirs w; spawned := spawned w;
     moved := moved w ++ [(src, dst)]; console := console w; clock := clock w |}.

Definition shutil_move (src dst : string) : M World unit :=
  os_call (Move src dst) (fun w => (relocated src dst w, Ok tt)).

(** [os.listdir(path)] *)
Definition os_listdir (path : string) : M World (list string) :=
  os_call (Listdir path) (fun w => (w, Ok (listdir path (files w)))).

(** [subprocess.run(cmd, stdout=PIPE, stderr=PIPE, check=True)]:
    the standard output of the child, [CalledProcessError] on a
    non-zero exit status. *)
Definition subprocess_run_check (cmd : list string) : M World string :=
  fun w =>
    let '(files', (returncode, stdout)) := run_process cmd (files w) in
    let w' := {| files := files'; dirs := dirs w;
                 spawned := spawned w ++ [(cmd, returncode)];
                 moved := moved w; console := console w; clock := clock w |} in
    if returncode =? 0 then (w', Ok stdout)
    else (w', Raise (CalledProcessError returncode cmd)).

(** [float(s)] for a string. *)
Definition builtin_float (s : string) : result float :=
  let t := PyStr.strip s in
  match digits_value t with
  | Some n => Ok (PyFloat.of_Z n)
  | None =>
      match float_literal t with
      | Some x => Ok x
      | None =>
          Raise (ValueError ("could not convert string to float: " +:+ PyStr.repr s))
      end
  end.

(** [str(x)] for a float, as an f-string prints it. *)
Definition str_of_float (x : float) : string := float_repr x.
End Builtins.

End Host.

(** * format_mp4_dir.py *)

Module FormatMp4Dir.
Import Host.

Section Program.
Context `{Externals}.

Definition get_video_fps (video_path : string) : M World float :=
  let cmd :=
    ["ffprobe"; "-v"; "error"; "-select_streams"; "v:0";
     "-show_entries"; "stream=r_frame_rate";
     "-of"; "default=noprint_wrappers=1:nokey=1"; video_path] in
  let* stdout := subprocess_run_check cmd in
  let raw_rate := PyStr.strip stdout in
  if PyStr.contains "/" raw_rate then
    match PyStr.split "/" raw_rate with
    | [top; bottom] =>
        let* t := lift (builtin_float top) in
        let* b := lift (builtin_float bottom) in
        lift (PyFloat.truediv t b)
    | _ => raise (ValueError "too many values to unpack (expected 2)")
    end
  else lift (builtin_float raw_rate).

Definition extract_frames (video_path output_folder : string) : M World unit :=
  makedirs output_folder;;
  let cmd :=
    ["ffmpeg"; "-i"; video_path; "-vf"; "scale=1920:1080";
     "-qscale:v"; "2"; "-start_number"; "1"; "-vsync"; "0";
     OsPath.join output_folder "%06d.jpg"] in
  let* _ := subprocess_run_check cmd in
  ret tt.

Definition get_frame_count (folder_path : string) : M World Z :=
  fun w =>
    (w, Ok (Z.of_nat (length (glob_glob (OsPath.join folder_path "*.jpg") (files w))))).

(** [int((total_frames / frame_rate) * 1000) if frame_rate > 0 else 0] *)
Definition duration_ms (frame_rate : float) (total_frames : Z) : result Z :=
  if PyFloat.gt frame_rate (PyFloat.of_Z 0) then
    rbind (PyFloat.of_int total_frames) (fun n =>
    rbind (PyFloat.truediv n frame_rate) (fun q =>
    PyFloat.to_int (PyFloat.mul q (PyFloat.of_Z 1000))))
  else Ok 0.

(** One element of [images_list]. *)
Definition image (i : Z) : Json.value :=
  let file_name := PyStr.format_0d 6 i +:+ ".jpg" in
  let image_id_str := PyStr.format_0d 9 i in
  Json.Dict
    [("is_labeled", Json.Bool false);
     ("image_id", Json.Str image_id_str);
     ("file_name", Json.Str file_name);
     ("height", Json.Int 1080);
     ("width", Json.Int 1920)].

(** The dictionary [data], once [duration_ms] is known. *)
Definition labels_data (video_name : string) (frame_rate : float)
  (total_frames : Z) (duration_ms : Z) : Json.value :=
  let info_block :=
    Json.Dict
      [("version", Json.Str "1.3");
       ("name", Json.Str video_name);
       ("im_dir", Json.Str "img1");
       ("frame_rate", Json.Float frame_rate);
       ("seq_length", Json.Int total_frames);
       ("im_ext", Json.Str ".jpg");
       ("clip_start", Json.Str "0");
       ("clip_stop", Json.Str (PyStr.str_of_Z duration_ms))] in
  let images_list :=
    fold_left (fun (images_list : list Json.value) i => (images_list ++ [image i])%list)
      (range 1 (total_frames + 1)) [] in
  let annotations_list := [] in
  let categories_list := [] in
  Json.Dict
    [("info", info_block);
     ("images", Json.List images_list);
     ("annotations", Json.List annotations_list);
     ("categories", Json.List categories_list)].

Definition create_labels_json (video_name : string) (frame_rate : float)
  (total_frames : Z) (output_file : string) : M World unit :=
  let* duration_ms := lift (duration_ms frame_rate total_frames) in
  let data := labels_data video_name frame_rate total_frames duration_ms in
  write_text output_file (Json.dumps float_repr data 4).

(** The body of the [for file_name in os.listdir(input_dir)] loop. *)
Definition main_body (input_dir output_dir file_name : string) : M World unit :=
  if PyStr.endswith_any (PyStr.lower file_name) [".mp4"; ".webm"] then
    let base_name := fst (OsPath.splitext file_name) in
    let base_name_sanitized := PyStr.lower (PyStr.replace " " "-" base_name) in
    let* now := tick in
    let timestamp := strftime now "%Y%m%d-%H%M%S" in
    let new_folder_name := base_name_sanitized +:+ "-" +:+ timestamp in
    let new_folder_path := OsPath.join output_dir new_folder_name in
    let train_dir := OsPath.join new_folder_path "train" in
    let video_dir := OsPath.join train_dir "video1" in
    let img_dir := OsPath.join video_dir "img1" in
    makedirs new_folder_path;;
    makedirs train_dir;;
    makedirs img_dir;;
    let video_path := OsPath.join input_dir file_name in
    print ("Processing video: " +:+ video_path +:+ "...");;
    let* fps := get_video_fps video_path in
    print ("  - Detected FPS: " +:+ str_of_float fps);;
    extract_frames video_path img_dir;;
    print (newline +:+ "Frames extracted to: " +:+ img_dir);;
    let* total_frames := get_frame_count img_dir in
    print ("  - Total frames extracted: " +:+ PyStr.str_of_Z total_frames);;
    print (newline +:+ "Creating Labels-GameState.json...");;
    let json_path := OsPath.join video_dir "Labels-GameState.json" in
    create_labels_json base_name_sanitized fps total_frames json_path;;
    print ("  - " +:+ json_path +:+ " created.")
  else ret tt.

Fixpoint main_loop (input_dir output_dir : string) (file_names : list string)
  : M World unit :=
  match file_names with
  | [] => ret tt
  | file_name :: rest =>
      main_body input_dir output_dir file_name;;
      main_loop input_dir output_dir rest
  end.

Definition main (input_dir output_dir : string) : M World unit :=
  makedirs output_dir;;
  let* file_names := os_listdir input_dir in
  main_loop input_dir output_dir file_names;;
  print ("Processing completed." +:+ newline).

End Program.

End FormatMp4Dir.

(** * format_to_soccernet.py *)

Module FormatToSoccernet.
Import Host.

Section Program.
Context `{Externals}.

Definition get_video_fps (video_path : string) : M World float :=
  let cmd :=
    ["ffprobe"; "-v"; "error"; "-select_streams"; "v:0";
     "-show_entries"; "stream=r_frame_rate";
     "-of"; "default=noprint_wrappers=1:nokey=1"; video_path] in
  let* stdout := subprocess_run_check cmd in
  let raw_rate := PyStr.strip stdout in
  if PyStr.contains "/" raw_rate then
    match PyStr.split "/" raw_rate with
    | [numerator; denominator] =>
        let* n := lift (builtin_float numerator) in
        let* d := lift (builtin_float denominator) in
        lift (PyFloat.truediv n d)
    | _ => raise (ValueError "too many values to unpack (expected 2)")
    end
  else lift (builtin_float raw_rate).

Definition extract_frames (video_path output_folder : string) : M World unit :=
  makedirs output_folder;;
  let cmd :=
    ["ffmpeg"; "-i"; video_path; "-vf"; "scale=1920:1080";
     "-qscale:v"; "2"; "-start_number"; "1"; "-vsync"; "0";
     OsPath.join output_folder "%06d.jpg"] in
  let* _ := subprocess_run_check cmd in
  ret tt.

Definition get_frame_count (folder_path : string) : M World Z :=
  fun w =>
    (w, Ok (Z.of_nat (length (glob_glob (OsPath.join folder_path "*.jpg") (files w))))).

Definition duration_ms (frame_rate : float) (total_frames : Z) : result Z :=
  if PyFloat.gt frame_rate (PyFloat.of_Z 0) then
    rbind (PyFloat.of_int total_frames) (fun n =>
    rbind (PyFloat.truediv n frame_rate) (fun q =>
    PyFloat.to_int (PyFloat.mul q (PyFloat.of_Z 1000))))
  else Ok 0.

Definition image (i : Z) : Json.value :=
  let file_name := PyStr.format_0d 6 i +:+ ".jpg" in
  let image_id_str := PyStr.format_0d 9 i in
  Json.Dict
    [("is_labeled", Json.Bool false);
     ("image_id", Json.Str image_id_str);
     ("file_name", Json.Str file_name);
     ("height", Json.Int 1080);
     ("width", Json.Int 1920)].

Definition labels_data (video_name : string) (frame_rate : float)
  (total_frames : Z) (duration_ms : Z) : Json.value :=
  let info_block :=
    Json.Dict
      [("version", Json.Str "1.3");
       ("name", Json.Str video_name);
       ("im_dir", Json.Str "img1");
       ("frame_rate", Json.Float frame_rate);
       ("seq_length", Json.Int total_frames);
       ("im_ext", Json.Str ".jpg");
       ("clip_start", Json.Str "0");
       ("clip_stop", Json.Str (PyStr.str_of_Z duration_ms))] in
  let images_list :=
    fold_left (fun (images_list : list Json.value) i => (images_list ++ [image i])%list)
      (range 1 (total_frames + 1)) [] in
  let annotations_list := [] in
  let categories_list := [] in
  Json.Dict
    [("info", info_block);
     ("images", Json.List images_list);
     ("annotations", Json.List annotations_list);
     ("categories", Json.List categories_list)].

Definition create_labels_json (video_name : string) (frame_rate : float)
  (total_frames : Z) (output_file : string) : M World unit :=
  let* duration_ms := lift (duration_ms frame_rate total_frames) in
  let data := labels_data video_name frame_rate total_frames duration_ms in
  write_text output_file (Json.dumps float_repr data 4).

(** One entry of [video_details]. *)
Definition video_detail (file_name video_name : string) (fps : float)
  (total_frames : Z) : Json.value :=
  Json.Dict
    [("original_file_name", Json.Str file_name);
     ("video_name", Json.Str video_name);
     ("fps", Json.Float fps);
     ("frames_extracted", Json.Int total_frames)].

(** The body of the [for file_name in os.listdir(input_dir)] loop; it
    answers the new values of the two variables it updates,
    [video_details] and [video_counter]. *)
Definition main_body (input_dir train_dir processed_run_folder file_name : string)
  (video_details : list Json.value) (video_counter : Z)
  : M World (list Json.value * Z) :=
  if PyStr.endswith_any (PyStr.lower file_name) [".mp4"; ".webm"] then
    let video_subfolder_name := "video" +:+ PyStr.str_of_Z video_counter in
    let video_dir := OsPath.join train_dir video_subfolder_name in
    let img_dir := OsPath.join video_dir "img1" in
    makedirs video_dir;;
    makedirs img_dir;;
    let video_path := OsPath.join input_dir file_name in
    let base_name := fst (OsPath.splitext file_name) in
    let base_name_sanitized := PyStr.lower (PyStr.replace " " "-" base_name) in
    print ("Processing video: " +:+ video_path +:+ "...");;
    let* fps := get_video_fps video_path in
    print ("  - Detected FPS: " +:+ str_of_float fps);;
    extract_frames video_path img_dir;;
    print ("  - Frames extracted to: " +:+ img_dir);;
    let* total_frames := get_frame_count img_dir in
    print ("  - Total frames extracted: " +:+ PyStr.str_of_Z total_frames);;
    let json_path := OsPath.join video_dir "Labels-GameState.json" in
    create_labels_json base_name_sanitized fps total_frames json_path;;
    print ("  - " +:+ json_path +:+ " created.");;
    shutil_move video_path processed_run_folder;;
    print ("  - Moved video to: " +:+ processed_run_folder +:+ newline);;
    let video_details :=
      (video_details
         ++ [video_detail file_name base_name_sanitized fps total_frames])%list in
    let video_counter := video_counter + 1 in
    ret (video_details, video_counter)
  else ret (video_details, video_counter).

Fixpoint main_loop (input_dir train_dir processed_run_folder : string)
  (file_names : list string) (video_details : list Json.value)
  (video_counter : Z) : M World (list Json.value) :=
  match file_names with
  | [] => ret video_details
  | file_name :: rest =>
      let* vars := main_body input_dir train_dir processed_run_folder file_name
                     video_details video_counter in
      main_loop input_dir train_dir processed_run_folder rest (fst vars) (snd vars)
  end.

Definition main (input_dir output_dir : string) : M World unit :=
  let* start_time := tick in
  let* start_dt := tick in
  makedirs output_dir;;
  let timestamp := strftime start_dt "%Y-%m-%d-%H_%M_%S" in
  let run_folder := OsPath.join output_dir ("run_" +:+ timestamp) in
  let train_dir := OsPath.join run_folder "train" in
  makedirs train_dir;;
  let processed_run_folder := OsPath.join "processed" ("run_" +:+ timestamp) in
  makedirs processed_run_folder;;
  let* file_names := os_listdir input_dir in
  let* video_details :=
    main_loop input_dir train_dir processed_run_folder file_names [] 1 in
  let* end_time := tick in
  let* end_dt := tick in
  let duration := PyFloat.sub (time_time end_time) (time_time start_time) in
  let data_info :=
    Json.Dict
      [("start_time", Json.Str (isoformat start_dt));
       ("end_time", Json.Str (isoformat end_dt));
       ("duration_seconds", Json.Float (round2 duration));
       ("videos_processed", Json.Int (Z.of_nat (length video_details)));
       ("details", Json.List video_details)] in
  let data_info_path := OsPath.join run_folder "data_info.json" in
  write_text data_info_path (Json.dumps float_repr data_info 4);;
  print "All videos have been processed and moved.";;
  print ("Run information written to " +:+ data_info_path +:+ newline).

End Program.

End FormatToSoccernet.

(** * Vocabulary of the specification *)

(** ** Quality gate *)

Section GateVocabulary.
Import RemoveUnwantedScenes.

(** A qualifying detection: confidence at least 0.6. *)
Definition qualifying (b : Box) : bool :=
  PyFloat.ge (boxes_conf b) (PyFloat.decimal 6 1).

(** Bounding-box height, [y2 - y1]. *)
Definition bbox_height (b : Box) : float :=
  let '(x1, y1, x2, y2) := boxes_xyxy b in PyFloat.sub y2 y1.

(** Height at least one third of the frame height. *)
Definition oversized (frame_height : float) (b : Box) : bool :=
  PyFloat.ge (bbox_height b)
    (PyFloat.mul frame_height (PyFloat.div (PyFloat.of_Z 1) (PyFloat.of_Z 3))).

(** The data model's range of a confidence score: [0 <= c <= 1]. *)
Definition valid_confidence (c : float) : bool :=
  PyFloat.le (PyFloat.of_Z 0) c && PyFloat.le c (PyFloat.of_Z 1).

Definition to_detection (b : Box) : Detection :=
  {| bbox := boxes_xyxy b; conf := boxes_conf b |}.

Definition det_oversized (frame_height : float) (d : Detection) : bool :=
  let '(x1, y1, x2, y2) := bbox d in
  PyFloat.ge (PyFloat.sub y2 y1)
    (PyFloat.mul frame_height (PyFloat.div (PyFloat.of_Z 1) (PyFloat.of_Z 3))).

(** The console line that reports a kept clip, and how many of them a
    run printed. *)
Definition is_kept_line (line : string) : bool :=
  PyStr.startswith line "[INFO] Kept: ".

Definition kept_count (lines : list string) : nat :=
  length (List.filter is_kept_line lines).

(** The file names the batch loop of the gate processes: those that end,
    whatever their case, in one of the five video suffixes. *)
Definition is_video (filename : string) : bool :=
  PyStr.endswith_any (PyStr.lower filename) [".mp4"; ".avi"; ".mov"; ".mkv"; ".webm"].
End GateVocabulary.

(** ** Sequence metadata *)

(** [data["info"]["clip_stop"]] *)
Definition clip_stop_of (data : Json.value) : option string :=
  match Json.get "info" data with
  | Some info =>
      match Json.get "clip_stop" info with
      | Some (Json.Str s) => Some s
      | _ => None
      end
  | None => None
  end.

(** [data["info"]["seq_length"]] *)
Definition seq_length_of (data : Json.value) : option Z :=
  match Json.get "info" data with
  | Some info =>
      match Json.get "seq_length" info with
      | Some (Json.Int n) => Some n
      | _ => None
      end
  | None => None
  end.

(** [data["images"]] *)
Definition images_of (data : Json.value) : option (list Json.value) :=
  match Json.get "images" data with
  | Some (Json.List images) => Some images
  | _ => None
  end.

(** Characters of a string, for the facts about decimal numerals. *)
Fixpoint all_chars (P : ascii -> bool) (s : string) : bool :=
  match s with
  | EmptyString => true
  | String a r => P a && all_chars P r
  end.

Definition is_digit (c : ascii) : bool :=
  let n := nat_of_ascii c in ((48 <=? n) && (n <=? 57))%nat.

(** A numeral that starts with a digit other than 0. *)
Definition leading_digit (d : Decimal.uint) : Prop :=
  match d with
  | Decimal.Nil | Decimal.D0 _ => False
  | _ => True
  end.

(** The decimal numeral of [i >= 0] padded with zeros to [width]
    digits, as the data model writes frame names and image ids: decimal
    digits only, that read back as [i]; exactly [width] of them while [i]
    has no more than [width] digits, and otherwise the plain numeral,
    which starts with no zero. *)
Definition zero_padded (width : nat) (i : Z) (s : string) : Prop :=
  all_chars is_digit s = true
  /\ Host.digits_value s = Some i
  /\ (width <= String.length s)%nat
  /\ (i < 10 ^ Z.of_nat width -> String.length s = width)
  /\ ((width < String.length s)%nat -> PyStr.startswith s "0" = false).

(** The frame descriptor of the data model for the 1-based index [i]:
    not labelled, 1920 by 1080, with the nine-digit image id and the
    six-digit file name of [i]. *)
Definition frame_descriptor (i : Z) (v : Json.value) : Prop :=
  exists image_id name,
    zero_padded 9 i image_id
    /\ zero_padded 6 i name
    /\ v = Json.Dict
             [("is_labeled", Json.Bool false);
              ("image_id", Json.Str image_id);
              ("file_name", Json.Str (name +:+ ".jpg"));
              ("height", Json.Int 1080);
              ("width", Json.Int 1920)].

(** Nearest integer of a rational, ties to the even one: Python's [round]. *)
Definition round_half_even (q : Q) : Z :=
  let f := Qfloor q in
  match Qcompare (q - inject_Z f) (1 # 2) with
  | Lt => f
  | Gt => f + 1
  | Eq => if Z.even f then f else f + 1
  end.

(** The duration as the specification words it:
    [round(frameCount / frameRate * 1000)], and [0] for a zero rate. *)
Definition spec_duration_ms (frame_count : Z) (frame_rate : float) : Z :=
  if PyFloat.is_zero frame_rate then 0
  else round_half_even (inject_Z frame_count / PyFloat.to_Q frame_rate * 1000).

(** ** Converters *)

(** The file names both converters process. *)
Definition is_clip (file_name : string) : bool :=
  PyStr.endswith_any (PyStr.lower file_name) [".mp4"; ".webm"].

(** [base_name.replace(' ', '-').lower()] of a file name. *)
Definition sanitized_base_name (file_name : string) : string :=
  PyStr.lower (PyStr.replace " " "-" (fst (OsPath.splitext file_name))).

Definition ffprobe_cmd (video_path : string) : list string :=
  ["ffprobe"; "-v"; "error"; "-select_streams"; "v:0";
   "-show_entries"; "stream=r_frame_rate";
   "-of"; "default=noprint_wrappers=1:nokey=1"; video_path].

Definition ffmpeg_cmd (video_path output_folder : string) : list string :=
  ["ffmpeg"; "-i"; video_path; "-vf"; "scale=1920:1080";
   "-qscale:v"; "2"; "-start_number"; "1"; "-vsync"; "0";
   OsPath.join output_folder "%06d.jpg"].

(** The world after a child process [cmd] that exited with [returncode]
    and left the files [files']. *)
Definition after_process (cmd : list string) (returncode : Z)
  (files' : gmap string string) (w : Host.World) : Host.World :=
  {| Host.files := files'; Host.dirs := Host.dirs w;
     Host.spawned := Host.spawned w ++ [(cmd, returncode)];
     Host.moved := Host.moved w; Host.console := Host.console w;
     Host.clock := Host.clock w |}.

(** No child process has failed so far. *)
Definition clean (w : Host.World) : Prop :=
  Forall (fun p : list string * Z => snd p = 0) (Host.spawned w).

(** How an effectful step may end, from a clean world: either no child
    process failed and the result is not a [CalledProcessError], or the
    last child process run is the one and only that failed, and its
    [CalledProcessError] is the result. *)
Definition aborted_or_clean {A} (w' : Host.World) (r : result A) : Prop :=
  (clean w' /\ forall rc cmd, r <> Raise (CalledProcessError rc cmd))
  \/ (exists cmd rc earlier,
        rc <> 0
        /\ Host.spawned w' = (earlier ++ [(cmd, rc)])%list
        /\ Forall (fun p : list string * Z => snd p = 0) earlier
        /\ r = Raise (CalledProcessError rc cmd)).

Definition fails_fast {A} (c : M Host.World A) : Prop :=
  forall w w' r, clean w -> c w = (w', r) -> aborted_or_clean w' r.

(** Directories asked for and processes run are only ever added. *)
Definition grows (w w' : Host.World) : Prop :=
  Host.dirs w ⊆ Host.dirs w'
  /\ exists later, Host.spawned w' = (Host.spawned w ++ later)%list.

Definition monotone {A} (c : M Host.World A) : Prop :=
  forall w w' r, c w = (w', r) -> grows w w'.

(** The layout [run-root -> train -> slot -> img1] with the label file in
    the slot, read on the components of the two paths. *)
Definition slot_under_train (slot img_dir label_path : string) : Prop :=
  exists run_root : list string,
    PyStr.split "/" img_dir = (run_root ++ ["train"; slot; "img1"])%list
    /\ PyStr.split "/" label_path
       = (run_root ++ ["train"; slot; "Labels-GameState.json"])%list.

(** ** Batches *)

(** [s.count(c)] for a one-character [c]. *)
Fixpoint count_char (c : ascii) (s : string) : nat :=
  match s with
  | EmptyString => O
  | String a r => ((if Ascii.eqb a c then 1 else 0) + count_char c r)%nat
  end.

(** A step that leaves the relocation log alone, and a step that can only
    raise before it relocates anything. *)
Definition keeps_moved {A} (c : M Host.World A) : Prop :=
  forall w w' r, c w = (w', r) -> Host.moved w' = Host.moved w.


(** The child processes of a batch of [format_to_soccernet.py] in which
    every clip converts: the probe, then the rasterizer into the slot
    [video{video_counter}], one slot per clip. *)
Fixpoint slot_commands (input_dir train_dir : string) (clips : list string)
  (video_counter : Z) : list (list string * Z) :=
  match clips with
  | [] => []
  | file_name :: rest =>
      let video_path := OsPath.join input_dir file_name in
      let video_dir := OsPath.join train_dir ("video" +:+ PyStr.str_of_Z video_counter) in
      (ffprobe_cmd video_path, 0)
      :: (ffmpeg_cmd video_path (OsPath.join video_dir "img1"), 0)
      :: slot_commands input_dir train_dir rest (video_counter + 1)
  end.

(** The same for [format_mp4_dir.py]: the slot is always [video1], under a
    directory named after the clip and the clock reading [now] taken for
    it. *)
Fixpoint stamped_commands `{Host.Externals} (input_dir output_dir : string)
  (clips : list string) (now : nat) : list (list string * Z) :=
  match clips with
  | [] => []
  | file_name :: rest =>
      let video_path := OsPath.join input_dir file_name in
      let new_folder_name :=
        sanitized_base_name file_name +:+ "-" +:+ Host.strftime now "%Y%m%d-%H%M%S" in
      let video_dir :=
        OsPath.join (OsPath.join (OsPath.join output_dir new_folder_name) "train") "video1" in
      (ffprobe_cmd video_path, 0)
      :: (ffmpeg_cmd video_path (OsPath.join video_dir "img1"), 0)
      :: stamped_commands input_dir output_dir rest (S now)
  end.

(** * Sample runs *)

(** A stand-in for [float.__repr__], exact on the integral floats that the
    sample runs print. *)
Definition sample_float_repr (x : float) : string :=
  if SFeqb x (PyFloat.div (PyFloat.of_Z 30000) (PyFloat.of_Z 1001))
  then "29.97002997002997"
  else match PyFloat.to_int x with
       | Ok z => PyStr.str_of_Z z +:+ ".0"
       | Raise _ => "nan"
       end.

Module GateSample.
Import RemoveUnwantedScenes.

Definition box (confidence_percent : Z) (y1 y2 : Z) : Box :=
  {| boxes_conf := PyFloat.decimal confidence_percent 2;
     boxes_xyxy := (PyFloat.of_Z 100, PyFloat.of_Z y1, PyFloat.of_Z 160, PyFloat.of_Z y2) |}.

(** Four players in a wide shot, and a fifth box below the threshold. *)
Definition wide_shot : list Box :=
  [box 90 200 300; box 85 210 330; box 59 0 900; box 75 400 520; box 60 100 200].

(** Five players, one of them 432 pixels tall in a 1080-pixel frame. *)
Definition close_up : list Box :=
  [box 90 200 300; box 85 210 330; box 80 100 532; box 75 400 520; box 70 100 200].

Definition frame_of (scene : Z) : Frame :=
  {| shape := (1080, 1920, 3); pixels := [scene] |}.

Definition capture_of (scene : Z) : Capture :=
  {| isOpened := true;
     CAP_PROP_FRAME_COUNT := PyFloat.of_Z 250;
     read_at := fun i => if i =? 125 then Some (frame_of scene) else None |}.

Definition unopened : Capture :=
  {| isOpened := false; CAP_PROP_FRAME_COUNT := PyFloat.of_Z 0;
     read_at := fun _ => None |}.

#[local] Instance externals : Externals := {|
  VideoCapture := fun path =>
    if String.eqb path "clips/wide.mp4" then capture_of 1
    else if String.eqb path "clips/Final.MP4" then capture_of 1
    else if String.eqb path "clips/close.mp4" then capture_of 2
    else unopened;
  YOLO := fun _ frame =>
    match pixels frame with
    | [1] => [wide_shot]
    | [2] => [close_up]
    | _ => []
    end;
  YOLO_raises := fun model =>
    if String.eqb model "yolo11s.pt" then None else Some (FileNotFoundError model);
  isdir := fun path => String.eqb path "clips";
  listdir := fun _ => ["wide.mp4"; "broken.mp4"; "notes.txt"; "close.mp4"; "Final.MP4"];
  listdir_fault := fun path => if String.eqb path "clips" then None else Some NoSuchFile;
  float_repr := sample_float_repr
|}.

Definition world : World :=
  {| disk := {["clips/wide.mp4"; "clips/broken.mp4"; "clips/notes.txt";
               "clips/close.mp4"; "clips/Final.MP4"]};
     console := [] |}.
End GateSample.

Module HostSample.
Import Host.

Definition last_arg (cmd : list string) : string := List.last cmd "".

(** The directory of a path, and whether a directory exists: it was
    asked for, or a directory below it was, or it is the current one. *)
Definition dirname (path : string) : string :=
  PyStr.slice_to path (PyStr.rfind "/" path).

Definition exists_dir (dirs : gset string) (dir : string) : bool :=
  String.eqb dir ""
  || existsb (fun d => String.eqb d dir || PyStr.startswith d (dir +:+ "/"))
       (elements dirs).

(** The operating system of the sample runs: a file is opened for
    writing only in a directory that exists, and only the directories
    [in], [clips] and [mixed] can be listed. *)
Definition sample_fault (call : syscall) (files : gmap string string)
  (dirs : gset string) : option os_fault :=
  match call with
  | Open_w path => if exists_dir dirs (dirname path) then None else Some NoSuchFile
  | Listdir path =>
      if String.eqb path "in" || String.eqb path "clips" || String.eqb path "mixed"
      then None else Some NoSuchFile
  | Makedirs _ | Move _ _ => None
  end.

(** The probe exits with status 1 on [in/a.mp4] and reports 30000/1001
    on every other clip; the rasterizer always succeeds. *)
#[local] Instance externals : Externals := {|
  run_process := fun cmd fs =>
    match cmd with
    | "ffprobe" :: _ =>
        if String.eqb (last_arg cmd) "in/a.mp4" then (fs, (1, ""))
        else (fs, (0, "30000/1001" +:+ newline))
    | _ => (fs, (0, ""))
    end;
  glob_glob := fun _ _ => ["000001.jpg"; "000002.jpg"; "000003.jpg"];
  listdir := fun dir _ =>
    if String.eqb dir "in" then ["a.mp4"; "b.mp4"]
    else if String.eqb dir "clips" then ["My Clip.MP4"; "notes.txt"]
    else [];
  float_repr := sample_float_repr;
  float_literal := fun _ => None;
  strftime := fun _ fmt =>
    if String.eqb fmt "%Y%m%d-%H%M%S" then "20250101-120000"
    else "2025-01-01-12_00_00";
  isoformat := fun _ => "2025-01-01T12:00:00";
  time_time := fun n => PyFloat.of_Z (Z.of_nat n);
  round2 := fun x => x;
  os_fault_of := sample_fault;
  move_files := fun _ _ fs => fs
|}.

Definition world : World :=
  {| files := ∅; dirs := ∅; spawned := []; moved := []; console := []; clock := 0 |}.

(** The same world once the directory [out] exists. *)
Definition prepared : World :=
  {| files := ∅; dirs := {["out"]}; spawned := []; moved := []; console := [];
     clock := 0 |}.
End HostSample.

(** A folder that holds no video. *)
Module EmptyFolderSample.
Import RemoveUnwantedScenes.

#[local] Instance externals : Externals := {|
  VideoCapture := fun _ => GateSample.unopened;
  YOLO := fun _ _ => [];
  YOLO_raises := fun model =>
    if String.eqb model "yolo11s.pt" then None else Some (FileNotFoundError model);
  isdir := fun _ => true;
  listdir := fun _ => ["notes.txt"; "README.md"];
  listdir_fault := fun _ => None;
  float_repr := sample_float_repr
|}.
End EmptyFolderSample.

(** A probe that reports a zero denominator on [in/still.mp4] and a rate
    with two slashes on [in/odd.mp4]. *)
Module ProbeSample.
Import Host.

#[local] Instance externals : Externals := {|
  run_process := fun cmd fs =>
    match cmd with
    | "ffprobe" :: _ =>
        if String.eqb (HostSample.last_arg cmd) "in/still.mp4"
        then (fs, (0, "25/0" +:+ newline))
        else if String.eqb (HostSample.last_arg cmd) "in/odd.mp4"
        then (fs, (0, "1/2/3" +:+ newline))
        else (fs, (0, "25/1" +:+ newline))
    | _ => (fs, (0, ""))
    end;
  glob_glob := fun _ _ => [];
  listdir := fun _ _ => ["still.mp4"; "odd.mp4"];
  float_repr := sample_float_repr;
  float_literal := fun _ => None;
  strftime := fun _ _ => "20250101-120000";
  isoformat := fun _ => "2025-01-01T12:00:00";
  time_time := fun n => PyFloat.of_Z (Z.of_nat n);
  round2 := fun x => x;
  os_fault_of := fun _ _ _ => None;
  move_files := fun _ _ fs => fs
|}.
End ProbeSample.

(** A batch of three clips and a text file, in which the probe of the
    second clip exits with status 1. *)
Module MixedBatchSample.
Import Host.

#[local] Instance externals : Externals := {|
  run_process := fun cmd fs =>
    match cmd with
    | "ffprobe" :: _ =>
        if String.eqb (HostSample.last_arg cmd) "mixed/second.webm" then (fs, (1, ""))
        else (fs, (0, "25/1" +:+ newline))
    | _ => (fs, (0, ""))
    end;
  glob_glob := fun _ _ => ["000001.jpg"; "000002.jpg"];
  listdir := fun _ _ => ["first.mp4"; "notes.txt"; "second.webm"; "third.mp4"];
  float_repr := sample_float_repr;
  float_literal := fun _ => None;
  strftime := fun _ _ => "2025-01-01-12_00_00";
  isoformat := fun _ => "2025-01-01T12:00:00";
  time_time := fun n => PyFloat.of_Z (Z.of_nat n);
  round2 := fun x => x;
  os_fault_of := HostSample.sample_fault;
  move_files := fun _ _ fs => fs
|}.
End MixedBatchSample.

(** * Properties *)

(** ** Floats: comparison, rounding, truncation *)

Lemma compare_cont_flip (p q : positive) :
  PosDef.Pos.compare_cont Eq q p = CompOpp (PosDef.Pos.compare_cont Eq p q).
Proof. exact (eq_sym (Pos.compare_cont_antisym p q Eq)). Qed.

Lemma SFcompare_antisym (x y : float) :
  SFcompare y x = option_map CompOpp (SFcompare x y).
Proof.
  destruct x as [sx|sx| |sx mx ex], y as [sy|sy| |sy my ey]; simpl;
    try reflexivity; try (destruct sx; reflexivity); try (destruct sy; reflexivity);
    try (destruct sx, sy; reflexivity).
  destruct sx, sy; simpl; try reflexivity;
    rewrite (Z.compare_antisym ey ex);
    destruct (ey ?= ex) eqn:E; simpl; try reflexivity;
    rewrite (compare_cont_flip mx my); reflexivity.
Qed.

Lemma not_lt_ge (x y : float) :
  PyFloat.is_nan x = false -> PyFloat.is_nan y = false ->
  negb (PyFloat.lt x y) = PyFloat.ge x y.
Proof.
  intros Hx Hy. unfold PyFloat.lt, PyFloat.ge, SFltb, SFleb.
  rewrite (SFcompare_antisym x y).
  destruct (SFcompare x y) as [[]|] eqn:E; simpl; try reflexivity.
  destruct x, y; try discriminate.
Qed.

Section Rounding.
Import PyFloat.

Lemma shr_1_m mrs : 0 <= shr_m mrs -> shr_m (shr_1 mrs) = Z.shiftr (shr_m mrs) 1.
Proof.
  destruct mrs as [m r s]; simpl. intros Hm.
  destruct m as [|p|p]; [reflexivity| |lia].
  destruct p as [p|p|]; reflexivity.
Qed.

Lemma iter_pos_shr_1 k : forall mrs,
  0 <= shr_m mrs -> shr_m (SpecFloat.iter_pos shr_1 k mrs) = Z.shiftr (shr_m mrs) (Zpos k).
Proof.
  induction k as [k IH|k IH|]; intros mrs Hm; simpl SpecFloat.iter_pos.
  - assert (H1 : 0 <= shr_m (shr_1 mrs)).
    { rewrite shr_1_m by assumption. now apply Z.shiftr_nonneg. }
    assert (H2 : 0 <= shr_m (SpecFloat.iter_pos shr_1 k (shr_1 mrs))).
    { rewrite IH by assumption. now apply Z.shiftr_nonneg. }
    rewrite IH, IH, shr_1_m by assumption.
    rewrite !Z.shiftr_shiftr by lia. f_equal. lia.
  - assert (H2 : 0 <= shr_m (SpecFloat.iter_pos shr_1 k mrs)).
    { rewrite IH by assumption. now apply Z.shiftr_nonneg. }
    rewrite IH, IH by assumption.
    rewrite !Z.shiftr_shiftr by lia. f_equal. lia.
  - now apply shr_1_m.
Qed.

Lemma shr_spec mrs e n :
  0 <= shr_m mrs ->
  shr_m (fst (shr mrs e n)) = shr_m mrs / 2 ^ Z.max 0 n
  /\ snd (shr mrs e n) = e + Z.max 0 n.
Proof.
  intros Hm. destruct n as [|k|k]; simpl.
  - rewrite Z.div_1_r. split; [reflexivity | lia].
  - rewrite iter_pos_shr_1 by assumption.
    rewrite Z.shiftr_div_pow2 by lia. split; reflexivity.
  - rewrite Z.div_1_r. split; [reflexivity | lia].
Qed.

Lemma digits2_pos_lower p : 2 ^ (Zpos (digits2_pos p) - 1) <= Zpos p.
Proof.
  induction p as [p IH|p IH|]; simpl digits2_pos.
  - rewrite Pos2Z.inj_succ. replace (Z.succ (Z.pos (digits2_pos p)) - 1)
      with (Z.succ (Z.pos (digits2_pos p) - 1)) by lia.
    rewrite Z.pow_succ_r by lia. lia.
  - rewrite Pos2Z.inj_succ. replace (Z.succ (Z.pos (digits2_pos p)) - 1)
      with (Z.succ (Z.pos (digits2_pos p) - 1)) by lia.
    rewrite Z.pow_succ_r by lia. lia.
  - simpl. lia.
Qed.

Lemma shr_record_of_loc_m m l : shr_m (shr_record_of_loc m l) = m.
Proof. destruct l as [|[]]; reflexivity. Qed.

(** A positive mantissa stays positive through the alignment on the
    format's exponent, and the exponent does not decrease. *)
Lemma shr_fexp_pos m e l :
  0 < m -> emin prec emax <= e ->
  0 < shr_m (fst (shr_fexp prec emax m e l))
  /\ emin prec emax <= snd (shr_fexp prec emax m e l).
Proof.
  intros Hm He. unfold shr_fexp.
  set (n := fexp prec emax (Zdigits2 m + e) - e).
  destruct (shr_spec (shr_record_of_loc m l) e n) as [Hsm Hse].
  { rewrite shr_record_of_loc_m. lia. }
  rewrite Hsm, Hse, shr_record_of_loc_m. split; [|lia].
  destruct m as [|p|p]; try lia. simpl Zdigits2 in n.
  pose proof (digits2_pos_lower p) as Hd.
  assert (Hn : Z.max 0 n <= Zpos (digits2_pos p) - 1).
  { unfold n, fexp, emin, prec, emax in *. lia. }
  assert (Hpow : 2 ^ Z.max 0 n <= 2 ^ (Zpos (digits2_pos p) - 1)).
  { apply Z.pow_le_mono_r; lia. }
  assert (0 < 2 ^ Z.max 0 n) by (apply Z.pow_pos_nonneg; lia).
  apply Z.div_str_pos. lia.
Qed.

Lemma round_nearest_even_ge m l : m <= round_nearest_even m l.
Proof. destruct l as [|[]]; simpl; try lia. destruct (Z.even m); lia. Qed.

(** Rounding a positive mantissa never yields a zero or a NaN, and keeps
    the sign. *)
Lemma binary_round_aux_pos s m e l :
  0 < m -> emin prec emax <= e ->
  (exists m' e', binary_round_aux prec emax s m e l = S754_finite s m' e')
  \/ binary_round_aux prec emax s m e l = S754_infinity s.
Proof.
  intros Hm He. unfold binary_round_aux.
  destruct (shr_fexp_pos m e l Hm He) as [H1 H1e].
  destruct (shr_fexp prec emax m e l) as [mrs' e'] eqn:E1. simpl in H1, H1e.
  pose proof (round_nearest_even_ge (shr_m mrs') (loc_of_shr_record mrs')) as Hr.
  set (m1 := round_nearest_even (shr_m mrs') (loc_of_shr_record mrs')) in *.
  destruct (shr_fexp_pos m1 e' loc_Exact ltac:(lia) H1e) as [H2 _].
  destruct (shr_fexp prec emax m1 e' loc_Exact) as [mrs'' e''] eqn:E2. simpl in H2.
  destruct (shr_m mrs'') as [|p|p]; try lia.
  destruct (e'' <=? emax - prec); [left; eauto | right; reflexivity].
Qed.

Lemma shr_fexp_nonneg m e l :
  0 <= m -> 0 <= shr_m (fst (shr_fexp prec emax m e l)).
Proof.
  intros Hm. unfold shr_fexp.
  set (n := fexp prec emax (Zdigits2 m + e) - e).
  destruct (shr_spec (shr_record_of_loc m l) e n) as [Hsm _].
  { rewrite shr_record_of_loc_m. lia. }
  rewrite Hsm, shr_record_of_loc_m.
  apply Z.div_pos; [assumption|]. apply Z.pow_pos_nonneg; lia.
Qed.

(** Rounding a non-negative mantissa keeps the sign and never yields a NaN. *)
Lemma binary_round_aux_sign s m e l :
  0 <= m ->
  match binary_round_aux prec emax s m e l with
  | S754_zero s' | S754_infinity s' | S754_finite s' _ _ => s' = s
  | S754_nan => False
  end.
Proof.
  intros Hm. unfold binary_round_aux.
  pose proof (shr_fexp_nonneg m e l Hm) as H1.
  destruct (shr_fexp prec emax m e l) as [mrs' e'] eqn:E1. simpl in H1.
  pose proof (round_nearest_even_ge (shr_m mrs') (loc_of_shr_record mrs')) as Hr.
  set (m1 := round_nearest_even (shr_m mrs') (loc_of_shr_record mrs')) in *.
  pose proof (shr_fexp_nonneg m1 e' loc_Exact ltac:(lia)) as H2.
  destruct (shr_fexp prec emax m1 e' loc_Exact) as [mrs'' e''] eqn:E2. simpl in H2.
  destruct (shr_m mrs'') as [|p|p]; try lia; [reflexivity|].
  destruct (e'' <=? emax - prec); reflexivity.
Qed.

Lemma shl_align_emin p e :
  emin prec emax <= snd (shl_align p 0 (fexp prec emax e)).
Proof.
  unfold shl_align.
  assert (emin prec emax <= fexp prec emax e) by (unfold fexp; lia).
  assert (emin prec emax <= 0) by (unfold emin, prec, emax; lia).
  destruct (fexp prec emax e - 0); simpl; lia.
Qed.

(** The float of a positive integer is positive, possibly infinite. *)
Lemma of_Z_pos p :
  (exists m e, of_Z (Zpos p) = S754_finite false m e)
  \/ of_Z (Zpos p) = S754_infinity false.
Proof.
  unfold of_Z, binary_normalize, binary_round.
  pose proof (shl_align_emin p (Z.pos (digits2_pos p) + 0)) as He.
  destruct (shl_align p 0 (fexp prec emax (Z.pos (digits2_pos p) + 0))) as [mz ez].
  simpl in He. apply binary_round_aux_pos; [lia | exact He].
Qed.

Lemma of_Z_pos_not_zero z : 0 < z -> is_zero (of_Z z) = false.
Proof.
  intros Hz. destruct z as [|p|p]; try lia.
  destruct (of_Z_pos p) as [(m & e & ->) | ->]; reflexivity.
Qed.

Lemma of_Z_nonneg z : 0 <= z -> nonneg (of_Z z) = true.
Proof.
  intros Hz. destruct z as [|p|p]; try lia; [reflexivity|].
  destruct (of_Z_pos p) as [(m & e & ->) | ->]; reflexivity.
Qed.

Lemma nonneg_round s m e l :
  0 <= m -> s = false -> nonneg (binary_round_aux prec emax s m e l) = true.
Proof.
  intros Hm ->. pose proof (binary_round_aux_sign false m e l Hm) as Hs.
  destruct (binary_round_aux prec emax false m e l); try contradiction; subst; reflexivity.
Qed.

Lemma SFdiv_core_binary_nonneg m1 e1 m2 e2 :
  0 <= fst (fst (SFdiv_core_binary prec emax (Zpos m1) e1 (Zpos m2) e2)).
Proof.
  unfold SFdiv_core_binary.
  set (s := _ - _ - _).
  set (m' := match s with Z0 => Zpos m1 | Zpos _ => Z.shiftl (Zpos m1) s | Zneg _ => 0 end).
  assert (Hm' : 0 <= m').
  { unfold m'. destruct s; try lia. apply Z.shiftl_nonneg. lia. }
  pose proof (Z_div_mod m' (Zpos m2) ltac:(lia)) as Hdm.
  destruct (Z.div_eucl m' (Zpos m2)) as [q r]. simpl. nia.
Qed.

(** A quotient of a non-negative float by a positive one is non-negative. *)
Lemma div_nonneg x y :
  nonneg x = true -> is_finite x = true -> gt y (of_Z 0) = true ->
  nonneg (div x y) = true.
Proof.
  intros Hx Hf Hy.
  destruct y as [sy|sy| |sy my ey]; try discriminate;
    destruct sy; try discriminate;
    destruct x as [sx|sx| |sx mx ex]; try discriminate;
    try (destruct sx; try discriminate); try reflexivity.
  unfold div, SFdiv.
  pose proof (SFdiv_core_binary_nonneg mx ex my ey) as Hq.
  destruct (SFdiv_core_binary prec emax (Zpos mx) ex (Zpos my) ey) as [[mz ez] lz].
  simpl in Hq. now apply nonneg_round.
Qed.

Lemma mul_nonneg x y :
  nonneg x = true -> nonneg y = true -> is_zero y = false -> is_finite y = true ->
  nonneg (mul x y) = true.
Proof.
  intros Hx Hy Hz Hf.
  destruct y as [sy|sy| |sy my ey]; try discriminate;
    destruct sy; try discriminate;
    destruct x as [sx|sx| |sx mx ex]; try discriminate;
    try (destruct sx; try discriminate); try reflexivity.
  unfold mul, SFmul. apply nonneg_round; [lia | reflexivity].
Qed.

(** [int(x)] of a non-negative finite float is the floor of its value. *)
Lemma to_int_floor x :
  nonneg x = true -> is_finite x = true -> to_int x = Ok (Qfloor (to_Q x)).
Proof.
  intros Hx Hf. destruct x as [s|s| |s m e]; try discriminate; [reflexivity|].
  destruct s; try discriminate. unfold to_int, to_Q. f_equal.
  destruct e as [|k|k].
  - change (Z.shiftl (Z.pos m) 0) with (Z.pos m).
    rewrite <- (Qfloor_Z (Z.pos m)) at 1. apply Qfloor_comp.
    change (2 ^ 0)%Q with 1%Q. now rewrite Qmult_1_r.
  - rewrite Z.shiftl_mul_pow2 by lia.
    rewrite <- (Qfloor_Z (Z.pos m * 2 ^ Z.pos k)). apply Qfloor_comp.
    rewrite inject_Z_mult. rewrite (Zpower_Qpower 2 (Zpos k)) by lia. reflexivity.
  - change (Z.neg k) with (- Z.pos k)%Z.
    rewrite Z.shiftl_div_pow2 by lia. rewrite Z.opp_involutive.
    rewrite Zdiv_Qdiv. apply Qfloor_comp.
    rewrite Qpower_opp. rewrite (Zpower_Qpower 2 (Zpos k)) by lia. reflexivity.
Qed.
End Rounding.

(** ** Quality gate *)

Section QualityGate.
Import RemoveUnwantedScenes.
Context `{Externals}.

Lemma valid_confidence_not_nan c : valid_confidence c = true -> PyFloat.is_nan c = false.
Proof. destruct c; simpl; try reflexivity. discriminate. Qed.

Lemma keep_is_qualifying b :
  valid_confidence (boxes_conf b) = true ->
  negb (PyFloat.lt (boxes_conf b) CONF_THRESHOLD) = qualifying b.
Proof.
  intros Hv. unfold qualifying. apply not_lt_ge.
  - now apply valid_confidence_not_nan.
  - reflexivity.
Qed.

Lemma run_detection_boxes_spec boxes acc :
  run_detection_boxes boxes acc =
  (acc ++ map to_detection
     (List.filter (fun b => negb (PyFloat.lt (boxes_conf b) CONF_THRESHOLD)) boxes))%list.
Proof.
  revert acc. induction boxes as [|b rest IH]; intros acc; simpl.
  - now rewrite app_nil_r.
  - destruct (PyFloat.lt (boxes_conf b) CONF_THRESHOLD); simpl.
    + apply IH.
    + rewrite IH. now rewrite <- app_assoc.
Qed.

Lemma run_detection_results_spec results acc :
  run_detection_results results acc =
  (acc ++ map to_detection
     (List.filter (fun b => negb (PyFloat.lt (boxes_conf b) CONF_THRESHOLD))
        (concat results)))%list.
Proof.
  revert acc. induction results as [|boxes rest IH]; intros acc; simpl.
  - now rewrite app_nil_r.
  - rewrite IH, run_detection_boxes_spec, List.filter_app, map_app.
    now rewrite <- app_assoc.
Qed.

Lemma filter_ext_Forall {A} (f g : A -> bool) (l : list A) :
  Forall (fun a => f a = g a) l -> List.filter f l = List.filter g l.
Proof.
  induction 1 as [|a l Ha _ IH]; simpl; [reflexivity|].
  rewrite Ha, IH. reflexivity.
Qed.

Lemma run_detection_qualifying model frame :
  Forall (fun b => valid_confidence (boxes_conf b) = true) (concat (model frame)) ->
  run_detection model frame =
  map to_detection (List.filter qualifying (concat (model frame))).
Proof.
  intros Hv. unfold run_detection. rewrite run_detection_results_spec. simpl.
  f_equal. apply filter_ext_Forall.
  eapply Forall_impl; [exact Hv|]. intros b Hb. now apply keep_is_qualifying.
Qed.

Lemma check_bboxes_spec detections frame_height fh w :
  PyFloat.of_int frame_height = Ok fh ->
  exists w',
    check_bboxes detections frame_height w
    = (w', Ok (forallb (fun d => negb (det_oversized fh d)) detections))
    /\ disk w' = disk w.
Proof.
  intros Hh. revert w.
  induction detections as [|d rest IH]; intros w; cbn [check_bboxes forallb].
  - exists w. split; reflexivity.
  - unfold det_oversized at 1. destruct (bbox d) as [[[x1 y1] x2] y2].
    unfold bind at 1, lift. rewrite Hh.
    change MAX_BBOX_HEIGHT_RATIO with (PyFloat.div (PyFloat.of_Z 1) (PyFloat.of_Z 3)).
    destruct (PyFloat.ge (PyFloat.sub y2 y1) _); cbn [negb andb].
    + eexists. split; reflexivity.
    + apply IH.
Qed.

Lemma det_oversized_to_detection fh b :
  det_oversized fh (to_detection b) = oversized fh b.
Proof.
  unfold det_oversized, oversized, bbox_height, to_detection; simpl.
  destruct (boxes_xyxy b) as [[[x1 y1] x2] y2]. reflexivity.
Qed.

Lemma forallb_not_oversized fh boxes :
  forallb (fun d => negb (det_oversized fh d)) (map to_detection boxes) = true
  <-> Forall (fun b => oversized fh b = false) boxes.
Proof.
  induction boxes as [|b rest IH]; simpl.
  - split; [constructor | reflexivity].
  - rewrite det_oversized_to_detection, andb_true_iff, IH, negb_true_iff.
    split.
    + intros [Hb Hr]. now constructor.
    + intros Hall. inversion Hall; subst. now split.
Qed.

Lemma below_threshold_not_qualifying b :
  boxes_conf b = PyFloat.decimal 59 2 -> qualifying b = false.
Proof. intros Hc. unfold qualifying. rewrite Hc. reflexivity. Qed.

Lemma check_criteria_accepts model frame fh w :
  Forall (fun b => valid_confidence (boxes_conf b) = true) (concat (model frame)) ->
  PyFloat.of_int (shape0 frame) = Ok fh ->
  let qualified := List.filter qualifying (concat (model frame)) in
  exists w' accepted,
    check_criteria (run_detection model frame) (shape0 frame) w = (w', Ok accepted)
    /\ (accepted = true <->
        (4 <= length qualified)%nat
        /\ Forall (fun b => oversized fh b = false) qualified)
    /\ (forall b, boxes_conf b = PyFloat.decimal 59 2 ->
                  qualifying b = false /\ ~ In b qualified).
Proof.
  intros Hv Hh qualified.
  rewrite (run_detection_qualifying model frame Hv). fold qualified.
  assert (Hexcl : forall b, boxes_conf b = PyFloat.decimal 59 2 ->
                            qualifying b = false /\ ~ In b qualified).
  { intros b Hc. pose proof (below_threshold_not_qualifying b Hc) as Hq.
    split; [exact Hq|]. unfold qualified. rewrite filter_In.
    intros [_ Hq']. congruence. }
  unfold check_criteria. rewrite length_map.
  destruct (Z.of_nat (length qualified) <? MIN_PLAYERS) eqn:Hlen.
  - eexists _, false. split; [reflexivity|]. split; [|exact Hexcl].
    apply Z.ltb_lt in Hlen. unfold MIN_PLAYERS in Hlen.
    split; [discriminate|]. intros [Hn _]. lia.
  - destruct (check_bboxes_spec (map to_detection qualified) (shape0 frame) fh w Hh)
      as (w' & Hrun & _).
    eexists w', _. split; [exact Hrun|]. split; [|exact Hexcl].
    apply Z.ltb_ge in Hlen. unfold MIN_PLAYERS in Hlen.
    rewrite forallb_not_oversized. split.
    + intros Hall. split; [lia | exact Hall].
    + intros [_ Hall]. exact Hall.
Qed.

(** C1.  For every frame the quality gate evaluates, with the detections
    whose confidence is at least 0.6 as the qualifying ones, the frame is
    accepted if and only if there are at least 4 qualifying detections and
    no qualifying detection has a bounding-box height [y2 - y1] at least
    one third of the frame's pixel height.  A detection of confidence 0.59
    is not qualifying and is not among the detections counted.
    Confidences range over [0, 1], as in the data model, and the frame
    height is one that converts to a float.  The two bounds are the
    binary64 values of the literals [0.6] and [1/3], and the product of a
    frame height by the second is rounded once: for a frame of 1080 pixels
    it is exactly 360. *)
Theorem quality_gate_accept_iff model frame fh w :
  Forall (fun b => valid_confidence (boxes_conf b) = true) (concat (model frame)) ->
  PyFloat.of_int (shape0 frame) = Ok fh ->
  let threshold := PyFloat.decimal 6 1 in
  let third := PyFloat.div (PyFloat.of_Z 1) (PyFloat.of_Z 3) in
  let qualified :=
    List.filter (fun b => PyFloat.ge (boxes_conf b) threshold) (concat (model frame)) in
  exists w' accepted,
    check_criteria (run_detection model frame) (shape0 frame) w = (w', Ok accepted)
    /\ (accepted = true <->
        (4 <= length qualified)%nat
        /\ Forall (fun b => PyFloat.ge (bbox_height b) (PyFloat.mul fh third) = false)
             qualified)
    /\ (forall b, boxes_conf b = PyFloat.decimal 59 2 ->
                  PyFloat.ge (boxes_conf b) threshold = false /\ ~ In b qualified)
    /\ threshold = S754_finite false 5404319552844595 (-53)
    /\ third = S754_finite false 6004799503160661 (-54)
    /\ PyFloat.mul (PyFloat.of_Z 1080) third = PyFloat.of_Z 360.
Proof.
  intros Hv Hh threshold third qualified.
  destruct (check_criteria_accepts model frame fh w Hv Hh)
    as (w' & accepted & Hrun & Hiff & Hexcl).
  exists w', accepted. split; [exact Hrun|]. split; [exact Hiff|].
  split; [exact Hexcl|]. repeat split; vm_compute; reflexivity.
Qed.

Lemma get_middle_frame_unreadable video_path :
  let cap := VideoCapture video_path in
  (isOpened cap = false
   \/ exists total_frames,
        PyFloat.to_int (CAP_PROP_FRAME_COUNT cap) = Ok total_frames
        /\ read_at cap (total_frames / 2) = None) ->
  get_middle_frame video_path = Ok None.
Proof.
  intros cap [Hclosed | (total & Hcount & Hread)]; unfold get_middle_frame; fold cap.
  - rewrite Hclosed. reflexivity.
  - destruct (isOpened cap); [|reflexivity]. cbn [negb].
    rewrite Hcount. cbn [rbind]. rewrite Hread. reflexivity.
Qed.

(** C4.  A clip that cannot be opened, or whose middle frame cannot be
    read, is reported unreadable (the warning is printed and
    [process_video] answers [False]) and is never deleted: the files on
    disk are unchanged, so a file that was present is still present. *)
Theorem unreadable_clip_never_deleted model video_path w :
  let cap := VideoCapture video_path in
  (isOpened cap = false
   \/ exists total_frames,
        PyFloat.to_int (CAP_PROP_FRAME_COUNT cap) = Ok total_frames
        /\ read_at cap (total_frames / 2) = None) ->
  exists w',
    process_video model video_path w = (w', Ok false)
    /\ console w' = (console w ++ ["[WARN] Unable to read frame from: " +:+ video_path])%list
    /\ disk w' = disk w
    /\ (video_path ∈ disk w -> video_path ∈ disk w').
Proof.
  intros cap Hbad. unfold process_video, bind at 1, lift.
  rewrite (get_middle_frame_unreadable video_path Hbad).
  eexists. split; [reflexivity|]. cbn [console disk print].
  split; [reflexivity|]. split; [reflexivity|]. trivial.
Qed.



Lemma check_bboxes_lines detections frame_height w w' r :
  check_bboxes detections frame_height w = (w', r) ->
  disk w' = disk w /\ exists out, console w' = (console w ++ out)%list /\ kept_count out = 0%nat.
Proof.
  revert w. induction detections as [|d rest IH]; intros w; simpl.
  - intros [= <- <-]. split; [reflexivity|]. exists []. now rewrite app_nil_r.
  - destruct (bbox d) as [[[x1 y1] x2] y2]. unfold bind at 1, lift.
    destruct (PyFloat.of_int frame_height) as [fh|e].
    + destruct (PyFloat.ge _ _).
      * intros [= <- <-]. split; [reflexivity|]. eexists [_]. split; reflexivity.
      * apply IH.
    + intros [= <- <-]. split; [reflexivity|]. exists []. now rewrite app_nil_r.
Qed.

Lemma check_criteria_lines detections frame_height w w' r :
  check_criteria detections frame_height w = (w', r) ->
  disk w' = disk w /\ exists out, console w' = (console w ++ out)%list /\ kept_count out = 0%nat.
Proof.
  unfold check_criteria. destruct (_ <? _).
  - intros [= <- <-]. split; [reflexivity|]. eexists [_]. split; reflexivity.
  - apply check_bboxes_lines.
Qed.


Lemma main_loop_cons model folder_path filename rest np nd :
  main_loop model folder_path (filename :: rest) np nd =
  if negb (is_video filename) then main_loop model folder_path rest np nd
  else
    let* result := process_video model (OsPath.join folder_path filename) in
    main_loop model folder_path rest (np + 1) (if result then nd + 1 else nd).
Proof. reflexivity. Qed.


Lemma load_model_Ok model m : load_model model = Ok m -> m = YOLO model.
Proof. unfold load_model. destruct (YOLO_raises model); [discriminate|]. now intros [= <-]. Qed.

Lemma gate_listdir_Ok folder_path filenames :
  os_listdir folder_path = Ok filenames -> filenames = listdir folder_path.
Proof.
  unfold os_listdir. destruct (listdir_fault folder_path); [discriminate|].
  now intros [= <-].
Qed.

End QualityGate.

(** ** Decimal numerals and the string functions *)

Section Strings.

Lemma is_digit_cases c :
  is_digit c = true ->
  PyStr.isspace c = false /\ Ascii.eqb c "/" = false.
Proof.
  destruct c as [[] [] [] [] [] [] [] []]; intros Hd; try discriminate Hd;
    split; reflexivity.
Qed.

Lemma string_of_uint_digits d : all_chars is_digit (NilEmpty.string_of_uint d) = true.
Proof. induction d; simpl; try reflexivity; exact IHd. Qed.

Lemma str_of_Z_digits z : 0 <= z -> all_chars is_digit (PyStr.str_of_Z z) = true.
Proof.
  intros Hz. unfold PyStr.str_of_Z. destruct z as [|p|p]; try lia; simpl.
  - reflexivity.
  - apply string_of_uint_digits.
Qed.

Lemma digits_no_slash s : all_chars is_digit s = true -> PyStr.contains "/" s = false.
Proof.
  induction s as [|a r IH]; simpl; [reflexivity|].
  intros [Ha Hr]%andb_true_iff. destruct (is_digit_cases a Ha) as [_ ->].
  now apply IH.
Qed.

Lemma digits_lstrip s : all_chars is_digit s = true -> PyStr.lstrip s = s.
Proof.
  destruct s as [|a r]; simpl; [reflexivity|].
  intros [Ha _]%andb_true_iff. now destruct (is_digit_cases a Ha) as [-> _].
Qed.

Lemma digits_rstrip s : all_chars is_digit s = true -> PyStr.rstrip s = s.
Proof.
  induction s as [|a r IH]; simpl; [reflexivity|].
  intros [Ha Hr]%andb_true_iff. rewrite (IH Hr).
  destruct (is_digit_cases a Ha) as [-> _]. now destruct r.
Qed.

Lemma digits_strip s : all_chars is_digit s = true -> PyStr.strip s = s.
Proof.
  intros Hs. unfold PyStr.strip. rewrite (digits_lstrip s Hs). now apply digits_rstrip.
Qed.

Lemma split_no_sep c s : PyStr.contains c s = false -> PyStr.split c s = [s].
Proof.
  induction s as [|a r IH]; simpl; [reflexivity|].
  intros [Ha Hr]%orb_false_iff. rewrite Ha, (IH Hr). reflexivity.
Qed.

Lemma split_app c a b :
  PyStr.contains c a = false ->
  PyStr.split c (a +:+ String c b) = a :: PyStr.split c b.
Proof.
  induction a as [|x r IH]; simpl.
  - intros _. now rewrite Ascii.eqb_refl.
  - intros [Hx Hr]%orb_false_iff. rewrite Hx, (IH Hr). reflexivity.
Qed.

Lemma contains_app c a b : PyStr.contains c (a +:+ String c b) = true.
Proof.
  induction a as [|x r IH]; simpl.
  - now rewrite Ascii.eqb_refl.
  - rewrite IH. apply orb_true_r.
Qed.

Lemma digits_value_str_of_Z z : 0 <= z -> Host.digits_value (PyStr.str_of_Z z) = Some z.
Proof.
  intros Hz. unfold PyStr.str_of_Z. destruct z as [|p|p]; try lia; [reflexivity|].
  simpl. unfold Host.digits_value.
  destruct (NilEmpty.string_of_uint (Pos.to_uint p)) eqn:E.
  - exfalso. apply (Unsigned.to_uint_nonnil p).
    destruct (Pos.to_uint p); simpl in E; try discriminate. reflexivity.
  - rewrite <- E, NilEmpty.usu. simpl. unfold Z.of_uint.
    now rewrite Unsigned.of_to.
Qed.

Lemma digits_value_zeros k s v :
  Host.digits_value s = Some v ->
  Host.digits_value (PyStr.repeat_char "0" k +:+ s) = Some v.
Proof.
  intros Hs. induction k as [|k IH]; simpl; [exact Hs|].
  unfold Host.digits_value in *.
  destruct (PyStr.repeat_char "0" k +:+ s) eqn:E.
  - discriminate IH.
  - rewrite <- E in *. simpl.
    destruct (NilEmpty.uint_of_string (PyStr.repeat_char "0" k +:+ s)); [|discriminate].
    simpl in *. exact IH.
Qed.

Lemma digits_value_format_0d width i :
  0 <= i -> Host.digits_value (PyStr.format_0d width i) = Some i.
Proof.
  intros Hi. unfold PyStr.format_0d.
  destruct (i <? 0) eqn:E; [apply Z.ltb_lt in E; lia|].
  rewrite Z.abs_eq by lia. simpl.
  apply digits_value_zeros. now apply digits_value_str_of_Z.
Qed.
Lemma uint_of_string_digits s : forall d,
  NilEmpty.uint_of_string s = Some d -> all_chars is_digit s = true.
Proof.
  induction s as [|a r IH]; intros d; simpl; [reflexivity|].
  destruct (NilEmpty.uint_of_string r) as [d'|]; [|discriminate].
  rewrite (IH d' eq_refl), andb_true_r.
  destruct a as [[] [] [] [] [] [] [] []]; simpl; intros Ha;
    try discriminate Ha; reflexivity.
Qed.

Lemma digits_value_digits s n :
  Host.digits_value s = Some n -> all_chars is_digit s = true.
Proof.
  unfold Host.digits_value. destruct s as [|a r]; [discriminate|].
  destruct (NilEmpty.uint_of_string (String a r)) as [d|] eqn:E; [|discriminate].
  intros _. exact (uint_of_string_digits _ d E).
Qed.

Lemma repeat_char_length c n : String.length (PyStr.repeat_char c n) = n.
Proof. induction n as [|n IH]; simpl; [reflexivity | now rewrite IH]. Qed.

Lemma string_app_length a b :
  String.length (a +:+ b) = (String.length a + String.length b)%nat.
Proof.
  induction a as [|c r IH]; [reflexivity|].
  change (String c r +:+ b) with (String c (r +:+ b)). simpl. now rewrite IH.
Qed.

Lemma string_of_uint_length d :
  String.length (NilEmpty.string_of_uint d) = Decimal.nb_digits d.
Proof. induction d; simpl; congruence. Qed.

Lemma of_uint_acc_lower d : forall acc,
  (Npos acc * 10 ^ N.of_nat (Decimal.nb_digits d) <= Npos (Pos.of_uint_acc d acc))%N.
Proof.
  induction d; intros acc; cbn [Decimal.nb_digits Pos.of_uint_acc];
    try (rewrite Nat2N.inj_succ, N.pow_succ_r'; etransitivity; [|apply IHd]; nia).
  rewrite N.pow_0_r. lia.
Qed.

Lemma to_uint_leading p : leading_digit (Pos.to_uint p).
Proof.
  pose proof (Unsigned.to_of (Pos.to_uint p)) as Hn.
  rewrite Unsigned.of_to in Hn. cbn [N.to_uint] in Hn.
  pose proof (Unsigned.to_uint_nonzero p) as Hz.
  pose proof (Unsigned.to_uint_nonnil p) as Hnil.
  revert Hn Hz Hnil.
  destruct (Pos.to_uint p) as [|d'| | | | | | | | |]; intros Hn Hz Hnil; try exact I.
  - now apply Hnil.
  - rewrite unorm_D0 in Hn. unfold Decimal.unorm in Hn.
    destruct (Decimal.nzhead d') eqn:En; try discriminate Hn.
    + apply Hz. rewrite <- Hn. reflexivity.
    + exact (nzhead_nonzero d' u En).
Qed.

Lemma leading_lower d :
  leading_digit d ->
  (10 ^ N.of_nat (Decimal.nb_digits d - 1) <= Pos.of_uint d)%N.
Proof.
  destruct d as [|d|d|d|d|d|d|d|d|d|d]; cbn [leading_digit]; intros Hd; try contradiction;
    cbn [Pos.of_uint Decimal.nb_digits]; rewrite Nat.sub_succ, Nat.sub_0_r;
    (etransitivity; [|apply of_uint_acc_lower]); lia.
Qed.

Lemma str_of_Z_length_bound i (w : nat) :
  0 <= i < 10 ^ Z.of_nat w -> (1 <= w)%nat ->
  (String.length (PyStr.str_of_Z i) <= w)%nat.
Proof.
  intros [Hi Hlt] Hw. unfold PyStr.str_of_Z. destruct i as [|p|p]; try lia.
  - simpl. exact Hw.
  - cbn [Z.to_int NilEmpty.string_of_int]. rewrite string_of_uint_length.
    pose proof (leading_lower _ (to_uint_leading p)) as Hlow.
    rewrite Unsigned.of_to in Hlow.
    destruct (le_lt_dec (Decimal.nb_digits (Pos.to_uint p)) w) as [Hle|Hgt]; [exact Hle|].
    exfalso.
    assert (Hpow : (10 ^ N.of_nat w <= 10 ^ N.of_nat (Decimal.nb_digits (Pos.to_uint p) - 1))%N).
    { apply N.pow_le_mono_r; lia. }
    assert (Hz : 10 ^ Z.of_nat w <= Zpos p).
    { change (Zpos p) with (Z.of_N (Npos p)).
      replace (10 ^ Z.of_nat w) with (Z.of_N (10 ^ N.of_nat w)); [lia|].
      rewrite N2Z.inj_pow. now rewrite nat_N_Z. }
    lia.
Qed.

Lemma str_of_Z_no_leading_zero i :
  0 < i -> PyStr.startswith (PyStr.str_of_Z i) "0" = false.
Proof.
  intros Hi. unfold PyStr.str_of_Z. destruct i as [|p|p]; try lia.
  cbn [Z.to_int NilEmpty.string_of_int].
  pose proof (to_uint_leading p) as Hl.
  destruct (Pos.to_uint p); cbn [leading_digit] in Hl; try contradiction; reflexivity.
Qed.

Lemma all_chars_app P a b :
  all_chars P (a +:+ b) = all_chars P a && all_chars P b.
Proof.
  induction a as [|c r IH]; [reflexivity|].
  change (String c r +:+ b) with (String c (r +:+ b)). simpl. now rewrite IH, andb_assoc.
Qed.

Lemma all_chars_zeros k : all_chars is_digit (PyStr.repeat_char "0" k) = true.
Proof. induction k as [|k IH]; [reflexivity|]. simpl. exact IH. Qed.

Lemma zero_padded_format_0d (width : nat) i :
  (1 <= width)%nat -> 0 <= i -> zero_padded width i (PyStr.format_0d width i).
Proof.
  intros Hw Hi.
  assert (Hfmt : PyStr.format_0d width i
                 = PyStr.repeat_char "0" (width - String.length (PyStr.str_of_Z i))
                   +:+ PyStr.str_of_Z i).
  { unfold PyStr.format_0d. destruct (i <? 0) eqn:E; [apply Z.ltb_lt in E; lia|].
    rewrite Z.abs_eq by lia. cbn [String.length]. rewrite Nat.sub_0_r. reflexivity. }
  assert (Hlen : String.length (PyStr.format_0d width i)
                 = (width - String.length (PyStr.str_of_Z i)
                    + String.length (PyStr.str_of_Z i))%nat).
  { now rewrite Hfmt, string_app_length, repeat_char_length. }
  split; [|split; [|split; [|split]]].
  - rewrite Hfmt, all_chars_app, all_chars_zeros. now apply str_of_Z_digits.
  - now apply digits_value_format_0d.
  - rewrite Hlen. lia.
  - intros Hlt. rewrite Hlen.
    pose proof (str_of_Z_length_bound i width (conj Hi Hlt) Hw). lia.
  - rewrite Hlen. intros Hlong.
    assert (Hpad : (width - String.length (PyStr.str_of_Z i) = 0)%nat) by lia.
    rewrite Hfmt, Hpad. change (PyStr.repeat_char "0" 0 +:+ ?x) with x.
    apply str_of_Z_no_leading_zero.
    destruct (Z.eq_dec i 0) as [-> | Hne]; [|lia].
    change (String.length (PyStr.str_of_Z 0)) with 1%nat in *. lia.
Qed.
End Strings.

(** ** Calls into the operating system *)

Section OsCalls.
Import Host.
Context `{Externals}.

Lemma bind_Ok {A B} (c : M World A) (k : A -> M World B) w w' b :
  bind c k w = (w', Ok b) ->
  exists w1 a, c w = (w1, Ok a) /\ k a w1 = (w', Ok b).
Proof.
  unfold bind. destruct (c w) as [w1 [a|e]]; [|discriminate]. eauto.
Qed.

Lemma os_exn_no_process_error fault path rc cmd :
  os_exn fault path <> CalledProcessError rc cmd.
Proof. destruct fault; discriminate. Qed.

Lemma os_call_run {A} call (effect : M World A) w w' r :
  os_call call effect w = (w', r) ->
  (exists fault, w' = w /\ r = Raise (os_exn fault (syscall_path call)))
  \/ effect w = (w', r).
Proof.
  unfold os_call. destruct (os_fault_of _ _ _) as [fault|]; [|now right].
  intros [= <- <-]. left. now exists fault.
Qed.

Lemma os_call_Ok {A} call (effect : M World A) w w' a :
  os_call call effect w = (w', Ok a) -> effect w = (w', Ok a).
Proof.
  intros Hrun. destruct (os_call_run _ _ _ _ _ Hrun) as [(fault & _ & Hr) | Heff];
    [discriminate Hr | exact Heff].
Qed.

Lemma makedirs_Ok path w w' : makedirs path w = (w', Ok tt) -> w' = made path w.
Proof. intros Hrun. apply os_call_Ok in Hrun. now injection Hrun as <-. Qed.

Lemma write_text_Ok path text w w' :
  write_text path text w = (w', Ok tt) -> w' = written path text w.
Proof. intros Hrun. apply os_call_Ok in Hrun. now injection Hrun as <-. Qed.

Lemma shutil_move_Ok src dst w w' :
  shutil_move src dst w = (w', Ok tt) -> w' = relocated src dst w.
Proof. intros Hrun. apply os_call_Ok in Hrun. now injection Hrun as <-. Qed.

Lemma os_listdir_Ok path w w' file_names :
  os_listdir path w = (w', Ok file_names) ->
  w' = w /\ file_names = listdir path (files w).
Proof. intros Hrun. apply os_call_Ok in Hrun. now injection Hrun as <- <-. Qed.

(** A call that does not end well has changed nothing. *)
Lemma write_text_run path text w w' r :
  write_text path text w = (w', r) ->
  (r = Ok tt /\ w' = written path text w) \/ (r <> Ok tt /\ w' = w).
Proof.
  intros Hrun. destruct (os_call_run _ _ _ _ _ Hrun) as [(fault & -> & ->) | Heff].
  - right. split; [discriminate | reflexivity].
  - injection Heff as <- <-. now left.
Qed.
End OsCalls.

(** ** Sequence metadata *)

Section Metadata.
Import Host FormatMp4Dir.
Context `{Externals}.

Lemma of_int_Ok F n :
  0 <= F -> PyFloat.of_int F = Ok n ->
  PyFloat.nonneg n = true /\ PyFloat.is_finite n = true.
Proof.
  intros HF. unfold PyFloat.of_int. pose proof (of_Z_nonneg F HF) as Hn.
  destruct (PyFloat.of_Z F) as [s|s| |s m e]; try discriminate;
    intros [= <-]; split; try assumption; reflexivity.
Qed.

Lemma gt_zero_not_zero R :
  PyFloat.gt R (PyFloat.of_Z 0) = true -> PyFloat.is_zero R = false.
Proof. destruct R as [s|s| |s m e]; try reflexivity. discriminate. Qed.

Lemma nonneg_not_finite x :
  PyFloat.nonneg x = true -> PyFloat.is_finite x = false -> x = S754_infinity false.
Proof. destruct x as [s|[]| |s m e]; try discriminate. reflexivity. Qed.

Lemma duration_ms_truncates F R n :
  0 <= F -> PyFloat.gt R (PyFloat.of_Z 0) = true -> PyFloat.of_int F = Ok n ->
  let x := PyFloat.mul (PyFloat.div n R) (PyFloat.of_Z 1000) in
  duration_ms R F =
  if PyFloat.is_finite x then Ok (Qfloor (PyFloat.to_Q x)) else Raise OverflowError.
Proof.
  intros HF HR Hn x. unfold duration_ms. rewrite HR, Hn. cbn [rbind].
  unfold PyFloat.truediv. rewrite (gt_zero_not_zero R HR). cbn [rbind]. fold x.
  destruct (of_int_Ok F n HF Hn) as [Hnn Hnf].
  assert (Hx : PyFloat.nonneg x = true).
  { unfold x. apply mul_nonneg; try reflexivity. now apply div_nonneg. }
  destruct (PyFloat.is_finite x) eqn:Hfin.
  - now apply to_int_floor.
  - rewrite (nonneg_not_finite x Hx Hfin). reflexivity.
Qed.

Lemma duration_ms_zero_rate F R : PyFloat.is_zero R = true -> duration_ms R F = Ok 0.
Proof. destruct R as [s|s| |s m e]; try discriminate. reflexivity. Qed.

Lemma create_labels_json_Ok video_name R F output_file w w' :
  create_labels_json video_name R F output_file w = (w', Ok tt) ->
  exists d,
    duration_ms R F = Ok d
    /\ w' = written output_file
              (Json.dumps float_repr (labels_data video_name R F d) 4) w.
Proof.
  unfold create_labels_json, bind at 1, lift.
  destruct (duration_ms R F) as [d|e]; [|discriminate].
  intros Hrun. apply write_text_Ok in Hrun. now exists d.
Qed.

Lemma create_labels_json_Raise video_name R F e output_file w :
  duration_ms R F = Raise e ->
  create_labels_json video_name R F output_file w = (w, Raise e).
Proof. intros Hd. unfold create_labels_json, bind, lift. now rewrite Hd. Qed.

Lemma clip_stop_of_labels_data video_name R F d :
  clip_stop_of (labels_data video_name R F d) = Some (PyStr.str_of_Z d).
Proof. reflexivity. Qed.

(** C2 (amended).  For every frame count [F >= 0] and rate [R > 0] for
    which the float product [x = F / R * 1000] is finite, the duration is
    [int(x)], the product truncated toward zero (its floor), not rounded
    to the nearest integer, and every call of the metadata builder whose
    write succeeds stores its decimal string as [clip_stop]; and for a
    zero rate it stores ["0"] whatever the frame count. *)
Theorem clip_stop_is_truncated_duration video_name F R n :
  0 <= F -> PyFloat.gt R (PyFloat.of_Z 0) = true -> PyFloat.of_int F = Ok n ->
  let x := PyFloat.mul (PyFloat.div n R) (PyFloat.of_Z 1000) in
  PyFloat.is_finite x = true ->
  duration_ms R F = Ok (Qfloor (PyFloat.to_Q x))
  /\ (forall output_file w w',
        create_labels_json video_name R F output_file w = (w', Ok tt) ->
        exists data,
          files w' !! output_file = Some (Json.dumps float_repr data 4)
          /\ clip_stop_of data = Some (PyStr.str_of_Z (Qfloor (PyFloat.to_Q x))))
  /\ (forall F0 R0 output_file w w',
        PyFloat.is_zero R0 = true ->
        create_labels_json video_name R0 F0 output_file w = (w', Ok tt) ->
        exists data,
          files w' !! output_file = Some (Json.dumps float_repr data 4)
          /\ clip_stop_of data = Some "0").
Proof.
  intros HF HR Hn x Hfin.
  pose proof (duration_ms_truncates F R n HF HR Hn) as Hd. cbv zeta in Hd.
  fold x in Hd. rewrite Hfin in Hd.
  split; [exact Hd|]. split.
  - intros output_file w w' Hrun.
    apply create_labels_json_Ok in Hrun as (d & Hd' & ->).
    rewrite Hd in Hd'. injection Hd' as <-.
    exists (labels_data video_name R F (Qfloor (PyFloat.to_Q x))).
    split; [apply lookup_insert_eq | reflexivity].
  - intros F0 R0 output_file w w' HR0 Hrun.
    apply create_labels_json_Ok in Hrun as (d & Hd' & ->).
    rewrite (duration_ms_zero_rate F0 R0 HR0) in Hd'. injection Hd' as <-.
    exists (labels_data video_name R0 F0 0).
    split; [apply lookup_insert_eq | reflexivity].
Qed.
End Metadata.

Section MetadataRecord.
Import Host FormatMp4Dir.
Context `{Externals}.

Lemma images_fold xs : forall acc,
  fold_left (fun (images_list : list Json.value) i => (images_list ++ [image i])%list) xs acc
  = (acc ++ map image xs)%list.
Proof.
  induction xs as [|x xs IH]; intros acc; simpl.
  - now rewrite app_nil_r.
  - rewrite IH, <- app_assoc. reflexivity.
Qed.

Lemma images_of_labels_data video_name R N d :
  images_of (labels_data video_name R N d) = Some (map image (range 1 (N + 1))).
Proof. unfold labels_data, images_of. simpl. now rewrite images_fold. Qed.

Lemma range_length a b : length (range a b) = Z.to_nat (b - a).
Proof. unfold range. now rewrite length_map, length_seq. Qed.

Lemma range_lookup a b (k : nat) :
  (k < Z.to_nat (b - a))%nat -> range a b !! k = Some (a + Z.of_nat k).
Proof.
  intros Hk. unfold range. rewrite list_lookup_fmap.
  rewrite lookup_seq_lt by assumption. reflexivity.
Qed.

Lemma image_is_frame_descriptor i : 0 <= i -> frame_descriptor i (image i).
Proof.
  intros Hi. exists (PyStr.format_0d 9 i), (PyStr.format_0d 6 i).
  split; [apply zero_padded_format_0d; lia|].
  split; [apply zero_padded_format_0d; lia|]. reflexivity.
Qed.

Lemma labels_data_images video_name R N d :
  0 <= N ->
  exists images,
    images_of (labels_data video_name R N d) = Some images
    /\ Z.of_nat (length images) = N
    /\ forall k : nat, (Z.of_nat k < N) ->
         exists v, images !! k = Some v /\ frame_descriptor (Z.of_nat k + 1) v.
Proof.
  intros HN. exists (map image (range 1 (N + 1))).
  split; [apply images_of_labels_data|]. split.
  - rewrite length_map, range_length. lia.
  - intros k Hk. exists (image (Z.of_nat k + 1)). split.
    + rewrite list_lookup_fmap. rewrite range_lookup by lia.
      replace (1 + Z.of_nat k) with (Z.of_nat k + 1) by lia. reflexivity.
    + apply image_is_frame_descriptor. lia.
Qed.

(** C5.  Every call of the metadata builder with [N >= 0] frames whose
    write succeeds leaves in its output file a record whose [images] list
    has exactly [N] entries, [N] being also [info.seq_length]; entry [k]
    (from 0) is the descriptor of frame [k + 1]: its file name is the
    six-digit zero-padded numeral of [k + 1] followed by [.jpg] and its
    image id the nine-digit one, numerals that read back as [k + 1], so
    both run in strictly increasing order from 1 to [N]; [annotations] and
    [categories] are empty. *)
Theorem images_list_matches_frame_count video_name R N output_file w w' :
  0 <= N ->
  create_labels_json video_name R N output_file w = (w', Ok tt) ->
  exists data images,
    files w' !! output_file = Some (Json.dumps float_repr data 4)
    /\ images_of data = Some images
    /\ Z.of_nat (length images) = N
    /\ seq_length_of data = Some N
    /\ (forall k : nat, Z.of_nat k < N ->
          exists v, images !! k = Some v /\ frame_descriptor (Z.of_nat k + 1) v)
    /\ Json.get "annotations" data = Some (Json.List [])
    /\ Json.get "categories" data = Some (Json.List []).
Proof.
  intros HN Hrun. apply create_labels_json_Ok in Hrun as (d & Hd & ->).
  destruct (labels_data_images video_name R N d HN) as (images & Himg & Hlen & Hnth).
  exists (labels_data video_name R N d), images.
  split; [apply lookup_insert_eq|].
  split; [exact Himg|]. split; [exact Hlen|]. split; [reflexivity|].
  split; [exact Hnth|]. split; reflexivity.
Qed.

(** C6.  The text the metadata builder writes is a function of the name,
    the rate and the count alone: whatever the world and the output file,
    an invocation that succeeds has written that one text to its output
    file and changed nothing else, and an invocation that raises has
    changed nothing at all.  Two invocations with identical inputs
    therefore produce byte-identical files. *)
Theorem create_labels_json_deterministic video_name R N :
  exists text,
    forall output_file w w' r,
      create_labels_json video_name R N output_file w = (w', r) ->
      (r = Ok tt -> w' = written output_file text w)
      /\ (r <> Ok tt -> w' = w).
Proof.
  destruct (duration_ms R N) as [d|e] eqn:Hd.
  - exists (Json.dumps float_repr (labels_data video_name R N d) 4).
    intros output_file w w' r. unfold create_labels_json, bind at 1, lift. rewrite Hd.
    intros Hrun. apply write_text_run in Hrun as [[-> ->] | [Hr ->]].
    + split; [reflexivity | congruence].
    + split; [contradiction | reflexivity].
  - exists "". intros output_file w w' r.
    rewrite (create_labels_json_Raise video_name R N e output_file w Hd).
    intros [= <- <-]. split; [discriminate | reflexivity].
Qed.
End MetadataRecord.

(** ** Rate prober *)

Section RateProber.
Import Host FormatMp4Dir.
Context `{Externals}.

Lemma builtin_float_digits s n :
  digits_value s = Some n -> builtin_float s = Ok (PyFloat.of_Z n).
Proof.
  intros Hs. unfold builtin_float.
  rewrite (digits_strip _ (digits_value_digits s n Hs)).
  now rewrite Hs.
Qed.

Lemma get_video_fps_probe video_path w files' stdout :
  run_process (ffprobe_cmd video_path) (files w) = (files', (0, stdout)) ->
  get_video_fps video_path w =
  (let raw_rate := PyStr.strip stdout in
   if PyStr.contains "/" raw_rate then
     match PyStr.split "/" raw_rate with
     | [top; bottom] =>
         let* t := lift (builtin_float top) in
         let* b := lift (builtin_float bottom) in
         lift (PyFloat.truediv t b)
     | _ => raise (ValueError "too many values to unpack (expected 2)")
     end
   else lift (builtin_float raw_rate)) (after_process (ffprobe_cmd video_path) 0 files' w).
Proof.
  intros Hrun. unfold get_video_fps. unfold bind at 1.
  unfold subprocess_run_check. fold (ffprobe_cmd video_path). rewrite Hrun.
  reflexivity.
Qed.

(** C8.  When the probe succeeds, for every rate string ["N/D"], [N] and
    [D] decimal numerals with [D > 0] (the numerals Python prints among
    them), the rate prober answers the binary64 quotient of the float of
    [N] by the float of [D], with no further rounding; a bare numeral
    answers its float directly, and any other bare string answers what
    [float] makes of it.  ["30000/1001"] gives
    [8435813487831848 * 2^-48], between 29.970029970 and 29.970029971. *)
Theorem rate_prober_float_division video_path w files' stdout :
  run_process (ffprobe_cmd video_path) (files w) = (files', (0, stdout)) ->
  let w' := after_process (ffprobe_cmd video_path) 0 files' w in
  (forall top bottom N D,
     digits_value top = Some N -> digits_value bottom = Some D -> 0 < D ->
     PyStr.strip stdout = top +:+ "/" +:+ bottom ->
     get_video_fps video_path w
     = (w', Ok (PyFloat.div (PyFloat.of_Z N) (PyFloat.of_Z D))))
  /\ (forall N D, 0 <= N -> 0 < D ->
        digits_value (PyStr.str_of_Z N) = Some N
        /\ digits_value (PyStr.str_of_Z D) = Some D)
  /\ (forall number N,
        digits_value number = Some N ->
        PyStr.strip stdout = number ->
        get_video_fps video_path w = (w', Ok (PyFloat.of_Z N)))
  /\ (PyStr.contains "/" (PyStr.strip stdout) = false ->
        get_video_fps video_path w = (w', builtin_float (PyStr.strip stdout)))
  /\ (let r := PyFloat.div (PyFloat.of_Z 30000) (PyFloat.of_Z 1001) in
      r = S754_finite false 8435813487831848 (-48)
      /\ (2997002997 # 100000000 <= PyFloat.to_Q r)%Q
      /\ (PyFloat.to_Q r < 2997002998 # 100000000)%Q).
Proof.
  intros Hrun w'. rewrite (get_video_fps_probe video_path w files' stdout Hrun).
  fold w'. cbv zeta. split; [|split; [|split; [|split]]].
  - intros top bottom N D Htop Hbottom HD ->.
    change (top +:+ "/" +:+ bottom) with (top +:+ String "/" bottom).
    pose proof (digits_no_slash _ (digits_value_digits top N Htop)) as Hst.
    pose proof (digits_no_slash _ (digits_value_digits bottom D Hbottom)) as Hsb.
    rewrite contains_app, (split_app _ _ _ Hst), (split_no_sep _ _ Hsb).
    unfold bind, lift. rewrite (builtin_float_digits top N Htop).
    rewrite (builtin_float_digits bottom D Hbottom).
    unfold PyFloat.truediv. now rewrite (of_Z_pos_not_zero D HD).
  - intros N D HN HD. split; apply digits_value_str_of_Z; lia.
  - intros number N Hnumber ->.
    rewrite (digits_no_slash _ (digits_value_digits number N Hnumber)).
    unfold lift. now rewrite (builtin_float_digits number N Hnumber).
  - intros ->. reflexivity.
  - repeat split. vm_compute. discriminate.
Qed.
End RateProber.

(** ** A failing child process aborts the batch *)

Create HintDb fails_fast.

Section FailFast.
Import Host.
Context `{Externals}.

Lemma aborted_or_clean_retype {A B} w' e :
  aborted_or_clean w' (@Raise A e) -> aborted_or_clean w' (@Raise B e).
Proof.
  intros [[Hc Hne] | (cmd & rc & earlier & Hrc & Hsp & Hall & Hr)].
  - left. split; [exact Hc|]. intros rc cmd [= ->]. now apply (Hne rc cmd).
  - right. exists cmd, rc, earlier. repeat split; try assumption.
    injection Hr as ->. reflexivity.
Qed.

Lemma fails_fast_bind {A B} (c : M World A) (k : A -> M World B) :
  fails_fast c -> (forall a, fails_fast (k a)) -> fails_fast (bind c k).
Proof.
  intros Hc Hk w w' r Hw. unfold bind.
  destruct (c w) as [w1 [a|e]] eqn:Ec.
  - intros Hrun. apply (Hk a w1 w' r); [|exact Hrun].
    destruct (Hc w w1 (Ok a) Hw Ec) as [[Hclean _] | (cmd & rc & earlier & _ & _ & _ & Hr)];
      [exact Hclean | discriminate Hr].
  - intros [= <- <-]. apply (@aborted_or_clean_retype A B).
    now apply (Hc w w1 (Raise e) Hw Ec).
Qed.

(** A step that spawns nothing and does not raise a process error. *)
Lemma fails_fast_quiet {A} (c : M World A) :
  (forall w, spawned (fst (c w)) = spawned w
             /\ forall rc cmd, snd (c w) <> Raise (CalledProcessError rc cmd)) ->
  fails_fast c.
Proof.
  intros Hq w w' r Hw Hrun. destruct (Hq w) as [Hsp Hne].
  rewrite Hrun in Hsp, Hne. simpl in Hsp, Hne.
  left. split; [|exact Hne]. unfold clean. now rewrite Hsp.
Qed.

Lemma fails_fast_ret {A} (a : A) : fails_fast (ret a : M World A).
Proof. apply fails_fast_quiet. intros w. split; [reflexivity | discriminate]. Qed.

Lemma fails_fast_print line : fails_fast (print line).
Proof. apply fails_fast_quiet. intros w. split; [reflexivity | discriminate]. Qed.

(** A call into the operating system raises no process error. *)
Lemma fails_fast_os_call {A} call (effect : M World A) :
  fails_fast effect -> fails_fast (os_call call effect).
Proof.
  intros He w w' r Hw Hrun.
  destruct (os_call_run _ _ _ _ _ Hrun) as [(fault & -> & ->) | Heff].
  - left. split; [exact Hw|]. intros rc cmd [= Hbad].
    exact (os_exn_no_process_error _ _ _ _ Hbad).
  - exact (He _ _ _ Hw Heff).
Qed.

Lemma fails_fast_makedirs path : fails_fast (makedirs path).
Proof.
  apply fails_fast_os_call, fails_fast_quiet. intros w. split; [reflexivity | discriminate].
Qed.

Lemma fails_fast_write_text path text : fails_fast (write_text path text).
Proof.
  apply fails_fast_os_call, fails_fast_quiet. intros w. split; [reflexivity | discriminate].
Qed.

Lemma fails_fast_shutil_move src dst : fails_fast (shutil_move src dst).
Proof.
  apply fails_fast_os_call, fails_fast_quiet. intros w. split; [reflexivity | discriminate].
Qed.

Lemma fails_fast_os_listdir path : fails_fast (os_listdir path).
Proof.
  apply fails_fast_os_call, fails_fast_quiet. intros w. split; [reflexivity | discriminate].
Qed.

Lemma fails_fast_tick : fails_fast tick.
Proof. apply fails_fast_quiet. intros w. split; [reflexivity | discriminate]. Qed.

Lemma fails_fast_read {A} (f : World -> A) : fails_fast (fun w => (w, Ok (f w))).
Proof. apply fails_fast_quiet. intros w. split; [reflexivity | discriminate]. Qed.

Lemma fails_fast_value_error {A} msg : fails_fast (raise (ValueError msg) : M World A).
Proof. apply fails_fast_quiet. intros w. split; [reflexivity | discriminate]. Qed.

Lemma fails_fast_lift {A} (r : result A) :
  (forall rc cmd, r <> Raise (CalledProcessError rc cmd)) -> fails_fast (lift r).
Proof. intros Hr. apply fails_fast_quiet. intros w. split; [reflexivity | exact Hr]. Qed.

Lemma fails_fast_subprocess cmd : fails_fast (subprocess_run_check cmd).
Proof.
  intros w w' r Hw. unfold subprocess_run_check.
  destruct (run_process cmd (files w)) as [fs [rc out]].
  destruct (rc =? 0) eqn:Erc; intros [= <- <-].
  - left. split; [|discriminate]. unfold clean in *. simpl.
    apply Forall_app. split; [exact Hw|]. constructor; [|constructor].
    simpl. now apply Z.eqb_eq.
  - right. exists cmd, rc, (spawned w). repeat split; try assumption.
    now apply Z.eqb_neq.
Qed.

Lemma builtin_float_no_process_error s rc cmd :
  builtin_float s <> Raise (CalledProcessError rc cmd).
Proof.
  unfold builtin_float. destruct (digits_value _); [discriminate|].
  destruct (float_literal _); discriminate.
Qed.

Lemma truediv_no_process_error x y rc cmd :
  PyFloat.truediv x y <> Raise (CalledProcessError rc cmd).
Proof. unfold PyFloat.truediv. destruct (PyFloat.is_zero y); discriminate. Qed.

Lemma to_int_no_process_error x rc cmd :
  PyFloat.to_int x <> Raise (CalledProcessError rc cmd).
Proof. destruct x; discriminate. Qed.

Lemma duration_ms_no_process_error R F rc cmd :
  FormatMp4Dir.duration_ms R F <> Raise (CalledProcessError rc cmd).
Proof.
  unfold FormatMp4Dir.duration_ms. destruct (PyFloat.gt _ _); [|discriminate].
  unfold PyFloat.of_int. destruct (PyFloat.of_Z F); try discriminate; cbn [rbind];
    (unfold PyFloat.truediv; destruct (PyFloat.is_zero R); [discriminate|]; cbn [rbind];
     apply to_int_no_process_error).
Qed.
End FailFast.

#[export] Hint Resolve fails_fast_ret fails_fast_print fails_fast_makedirs
  fails_fast_write_text fails_fast_shutil_move fails_fast_os_listdir fails_fast_tick
  fails_fast_read fails_fast_value_error fails_fast_subprocess : fails_fast.

Ltac fails_fast_steps :=
  repeat first
    [ solve [auto with fails_fast]
    | apply fails_fast_bind; [|intros ?]
    | apply fails_fast_lift; intros ? ?;
      first [ apply builtin_float_no_process_error
            | apply truediv_no_process_error
            | apply duration_ms_no_process_error ] ].

Section FailFastPrograms.
Import Host.
Context `{Externals}.

Lemma fails_fast_get_video_fps video_path :
  fails_fast (FormatMp4Dir.get_video_fps video_path).
Proof.
  unfold FormatMp4Dir.get_video_fps. apply fails_fast_bind; [auto with fails_fast|].
  intros stdout. cbv zeta. destruct (PyStr.contains _ _).
  - destruct (PyStr.split _ _) as [|top [|bottom [|x rest]]]; fails_fast_steps.
  - fails_fast_steps.
Qed.

Lemma fails_fast_extract_frames video_path output_folder :
  fails_fast (FormatMp4Dir.extract_frames video_path output_folder).
Proof. unfold FormatMp4Dir.extract_frames. fails_fast_steps. Qed.

Lemma fails_fast_get_frame_count folder_path :
  fails_fast (FormatMp4Dir.get_frame_count folder_path).
Proof. unfold FormatMp4Dir.get_frame_count. apply fails_fast_read. Qed.

Lemma fails_fast_create_labels_json video_name R N output_file :
  fails_fast (FormatMp4Dir.create_labels_json video_name R N output_file).
Proof. unfold FormatMp4Dir.create_labels_json. fails_fast_steps. Qed.
End FailFastPrograms.

#[export] Hint Resolve fails_fast_get_video_fps fails_fast_extract_frames
  fails_fast_get_frame_count fails_fast_create_labels_json : fails_fast.

Section FailFastMain.
Import Host.
Context `{Externals}.

Lemma fails_fast_mp4dir_body input_dir output_dir file_name :
  fails_fast (FormatMp4Dir.main_body input_dir output_dir file_name).
Proof.
  unfold FormatMp4Dir.main_body. destruct (PyStr.endswith_any _ _); fails_fast_steps.
Qed.

Lemma fails_fast_mp4dir_loop input_dir output_dir file_names :
  fails_fast (FormatMp4Dir.main_loop input_dir output_dir file_names).
Proof.
  induction file_names as [|f rest IH]; cbn [FormatMp4Dir.main_loop].
  - auto with fails_fast.
  - apply fails_fast_bind; [apply fails_fast_mp4dir_body | intros _; exact IH].
Qed.

Lemma fails_fast_mp4dir_main input_dir output_dir :
  fails_fast (FormatMp4Dir.main input_dir output_dir).
Proof.
  unfold FormatMp4Dir.main.
  apply fails_fast_bind; [auto with fails_fast | intros _].
  apply fails_fast_bind; [apply fails_fast_os_listdir | intros file_names].
  apply fails_fast_bind; [apply fails_fast_mp4dir_loop | intros _].
  auto with fails_fast.
Qed.

Lemma fails_fast_soccernet_body input_dir train_dir processed file_name details counter :
  fails_fast (FormatToSoccernet.main_body input_dir train_dir processed file_name
                details counter).
Proof.
  unfold FormatToSoccernet.main_body. destruct (PyStr.endswith_any _ _); fails_fast_steps.
Qed.

Lemma fails_fast_soccernet_loop input_dir train_dir processed file_names :
  forall details counter,
    fails_fast (FormatToSoccernet.main_loop input_dir train_dir processed file_names
                  details counter).
Proof.
  induction file_names as [|f rest IH]; intros details counter;
    cbn [FormatToSoccernet.main_loop].
  - auto with fails_fast.
  - apply fails_fast_bind; [apply fails_fast_soccernet_body | intros vars; apply IH].
Qed.

Lemma fails_fast_soccernet_main input_dir output_dir :
  fails_fast (FormatToSoccernet.main input_dir output_dir).
Proof.
  unfold FormatToSoccernet.main.
  repeat first
    [ apply fails_fast_soccernet_loop
    | solve [auto with fails_fast]
    | apply fails_fast_read
    | apply fails_fast_bind; [|intros ?] ].
Qed.
(** C3 (amended).  In either converter, a child process that exits with a
    non-zero status, the rate probe or the rasterizer of some clip, ends
    the batch: [main] raises its [CalledProcessError], and that process is
    the last one ever run, every process before it having succeeded.  No
    clip after the failing one is probed or rasterized. *)
Theorem batch_aborts_at_first_failure input_dir output_dir w w' r :
  clean w ->
  FormatMp4Dir.main input_dir output_dir w = (w', r)
  \/ FormatToSoccernet.main input_dir output_dir w = (w', r) ->
  forall cmd rc,
    In (cmd, rc) (spawned w') -> rc <> 0 ->
    r = Raise (CalledProcessError rc cmd)
    /\ exists earlier,
         spawned w' = (earlier ++ [(cmd, rc)])%list
         /\ Forall (fun p : list string * Z => snd p = 0) earlier.
Proof.
  intros Hw Hrun cmd rc Hin Hrc.
  assert (Hend : aborted_or_clean w' r).
  { destruct Hrun as [Hrun | Hrun].
    - exact (fails_fast_mp4dir_main input_dir output_dir w w' r Hw Hrun).
    - exact (fails_fast_soccernet_main input_dir output_dir w w' r Hw Hrun). }
  destruct Hend as [[Hclean _] | (cmd0 & rc0 & earlier & Hrc0 & Hsp & Hall & Hr)].
  - exfalso. unfold clean in Hclean. rewrite List.Forall_forall in Hclean.
    apply Hrc. exact (Hclean (cmd, rc) Hin).
  - rewrite Hsp in Hin. apply in_app_or in Hin as [Hin | [Heq | []]].
    + exfalso. rewrite List.Forall_forall in Hall.
      apply Hrc. exact (Hall (cmd, rc) Hin).
    + injection Heq as <- <-. split; [exact Hr|]. exists earlier. now split.
Qed.
End FailFastMain.

(** ** Output layout of the single-clip converter *)

Create HintDb monotone.

Section Monotone.
Import Host.
Context `{Externals}.

Lemma grows_refl w : grows w w.
Proof. split; [reflexivity|]. exists []. now rewrite app_nil_r. Qed.

Lemma grows_trans w1 w2 w3 : grows w1 w2 -> grows w2 w3 -> grows w1 w3.
Proof.
  intros [Hd1 [l1 Hs1]] [Hd2 [l2 Hs2]]. split; [set_solver|].
  exists (l1 ++ l2)%list. now rewrite Hs2, Hs1, <- app_assoc.
Qed.

Lemma monotone_bind {A B} (c : M World A) (k : A -> M World B) :
  monotone c -> (forall a, monotone (k a)) -> monotone (bind c k).
Proof.
  intros Hc Hk w w' r. unfold bind. destruct (c w) as [w1 [a|e]] eqn:Ec.
  - intros Hrun. eapply grows_trans; [exact (Hc _ _ _ Ec) | exact (Hk _ _ _ _ Hrun)].
  - intros [= <- <-]. exact (Hc _ _ _ Ec).
Qed.

Lemma monotone_pure {A} (r : result A) : monotone (fun w => (w, r)).
Proof. intros w w' r' [= <- <-]. apply grows_refl. Qed.

Lemma monotone_ret {A} (a : A) : monotone (ret a : M World A).
Proof. apply monotone_pure. Qed.

Lemma monotone_lift {A} (r : result A) : monotone (lift r).
Proof. apply monotone_pure. Qed.

Lemma monotone_raise {A} e : monotone (raise e : M World A).
Proof. apply monotone_pure. Qed.

Lemma monotone_read {A} (f : World -> A) : monotone (fun w => (w, Ok (f w))).
Proof. intros w w' r' [= <- <-]. apply grows_refl. Qed.

Lemma monotone_print line : monotone (print line).
Proof. intros w w' r [= <- <-]. split; [reflexivity|]. exists []. simpl. now rewrite app_nil_r. Qed.

Lemma monotone_tick : monotone tick.
Proof. intros w w' r [= <- <-]. split; [reflexivity|]. exists []. simpl. now rewrite app_nil_r. Qed.

Lemma monotone_os_call {A} call (effect : M World A) :
  monotone effect -> monotone (os_call call effect).
Proof.
  intros He w w' r Hrun.
  destruct (os_call_run _ _ _ _ _ Hrun) as [(fault & -> & _) | Heff].
  - apply grows_refl.
  - exact (He _ _ _ Heff).
Qed.

Lemma monotone_write_text path text : monotone (write_text path text).
Proof.
  apply monotone_os_call. intros w w' r [= <- <-]. split; [reflexivity|].
  exists []. simpl. now rewrite app_nil_r.
Qed.

Lemma monotone_makedirs path : monotone (makedirs path).
Proof.
  apply monotone_os_call. intros w w' r [= <- <-]. split; [simpl; set_solver|].
  exists []. simpl. now rewrite app_nil_r.
Qed.

Lemma monotone_subprocess cmd : monotone (subprocess_run_check cmd).
Proof.
  intros w w' r. unfold subprocess_run_check.
  destruct (run_process cmd (files w)) as [fs [rc out]].
  destruct (rc =? 0); intros [= <- <-]; (split; [reflexivity | eexists; reflexivity]).
Qed.
End Monotone.

#[export] Hint Resolve monotone_ret monotone_lift monotone_raise monotone_read
  monotone_print monotone_tick monotone_write_text monotone_makedirs
  monotone_subprocess : monotone.

Ltac monotone_steps :=
  repeat first
    [ solve [auto with monotone]
    | apply monotone_bind; [|intros ?] ].

Section Layout.
Import Host.
Context `{Externals}.

Lemma monotone_get_video_fps video_path : monotone (FormatMp4Dir.get_video_fps video_path).
Proof.
  unfold FormatMp4Dir.get_video_fps. apply monotone_bind; [auto with monotone|].
  intros stdout. cbv zeta. destruct (PyStr.contains _ _).
  - destruct (PyStr.split _ _) as [|top [|bottom [|x rest]]]; monotone_steps.
  - monotone_steps.
Qed.

Lemma monotone_extract_frames video_path output_folder :
  monotone (FormatMp4Dir.extract_frames video_path output_folder).
Proof. unfold FormatMp4Dir.extract_frames. monotone_steps. Qed.

Lemma monotone_get_frame_count folder_path :
  monotone (FormatMp4Dir.get_frame_count folder_path).
Proof. unfold FormatMp4Dir.get_frame_count. apply monotone_read. Qed.

Lemma monotone_create_labels_json video_name R N output_file :
  monotone (FormatMp4Dir.create_labels_json video_name R N output_file).
Proof. unfold FormatMp4Dir.create_labels_json. monotone_steps. Qed.

Lemma extract_frames_Ok video_path output_folder w w' :
  FormatMp4Dir.extract_frames video_path output_folder w = (w', Ok tt) ->
  output_folder ∈ dirs w'
  /\ In (ffmpeg_cmd video_path output_folder, 0) (spawned w').
Proof.
  unfold FormatMp4Dir.extract_frames. intros Hrun.
  apply bind_Ok in Hrun as (w1 & [] & ->%makedirs_Ok & Hrun).
  apply bind_Ok in Hrun as (w2 & out & Hsub & Hrun). injection Hrun as <-.
  unfold subprocess_run_check in Hsub. fold (ffmpeg_cmd video_path output_folder) in Hsub.
  destruct (run_process _ _) as [fs [rc out']].
  destruct (rc =? 0) eqn:Erc; [|discriminate]. apply Z.eqb_eq in Erc. subst rc.
  injection Hsub as <- _. cbn. split; [set_solver|]. apply in_or_app. right. now left.
Qed.
End Layout.

#[export] Hint Resolve monotone_get_video_fps monotone_extract_frames
  monotone_get_frame_count monotone_create_labels_json : monotone.

Section LayoutA.
Import Host.
Context `{Externals}.

(** C7 (amended).  In single-clip mode, each clip converted with success
    is laid out as output directory, then the directory named
    [{sanitized-base-name}-{timestamp}], then [train], then [video1], then
    [img1]: the three directories are asked for, the frames are rasterized
    into [img1], and the label file is written inside [video1], next to
    [img1]. *)
Theorem policy_a_layout input_dir output_dir file_name w w' :
  is_clip file_name = true ->
  FormatMp4Dir.main_body input_dir output_dir file_name w = (w', Ok tt) ->
  let slot := sanitized_base_name file_name +:+ "-"
              +:+ strftime (clock w) "%Y%m%d-%H%M%S" in
  let slot_dir := OsPath.join output_dir slot in
  let train_dir := OsPath.join slot_dir "train" in
  let video_dir := OsPath.join train_dir "video1" in
  let img_dir := OsPath.join video_dir "img1" in
  slot_dir ∈ dirs w' /\ train_dir ∈ dirs w' /\ img_dir ∈ dirs w'
  /\ In (ffmpeg_cmd (OsPath.join input_dir file_name) img_dir, 0) (spawned w')
  /\ is_Some (files w' !! OsPath.join video_dir "Labels-GameState.json").
Proof.
  intros Hclip Hrun slot slot_dir train_dir video_dir img_dir.
  unfold FormatMp4Dir.main_body in Hrun. fold (is_clip file_name) in Hrun.
  rewrite Hclip in Hrun. fold (sanitized_base_name file_name) in Hrun.
  apply bind_Ok in Hrun as (w1 & now & Htick & Hrun).
  injection Htick as <- <-. cbn [clock] in Hrun. cbv zeta in Hrun.
  fold slot slot_dir train_dir video_dir img_dir in Hrun.
  apply bind_Ok in Hrun as (w2 & [] & ->%makedirs_Ok & Hrun).
  apply bind_Ok in Hrun as (w3 & [] & ->%makedirs_Ok & Hrun).
  apply bind_Ok in Hrun as (w4 & [] & ->%makedirs_Ok & Hrun).
  apply bind_Ok in Hrun as (w5 & [] & [= <-] & Hrun).
  apply bind_Ok in Hrun as (w6 & fps & Hfps & Hrun).
  apply bind_Ok in Hrun as (w7 & [] & [= <-] & Hrun).
  apply bind_Ok in Hrun as (w8 & [] & Hext & Hrun).
  apply bind_Ok in Hrun as (w9 & [] & [= <-] & Hrun).
  apply bind_Ok in Hrun as (w10 & total_frames & Hcount & Hrun).
  injection Hcount as <- Hcount.
  apply bind_Ok in Hrun as (w11 & [] & [= <-] & Hrun).
  apply bind_Ok in Hrun as (w12 & [] & [= <-] & Hrun).
  apply bind_Ok in Hrun as (w13 & [] & Hjson & Hrun).
  injection Hrun as <-.
  pose proof (monotone_get_video_fps _ _ _ _ Hfps) as [Hd6 _].
  pose proof (monotone_extract_frames _ _ _ _ _ Hext) as [Hd8 _].
  destruct (extract_frames_Ok _ _ _ _ Hext) as [Himg Hspawn].
  pose proof (monotone_create_labels_json _ _ _ _ _ _ _ Hjson) as [Hd13 [later Hs13]].
  cbn [dirs spawned files print made] in *.
  assert (Hfile : is_Some (files w13 !! OsPath.join video_dir "Labels-GameState.json")).
  { clear Hcount. apply create_labels_json_Ok in Hjson as (d & _ & ->).
    cbn [files written]. rewrite lookup_insert_eq. eauto. }
  repeat split; try exact Hfile.
  - apply Hd13, Hd8, Hd6. set_solver.
  - apply Hd13, Hd8, Hd6. set_solver.
  - apply Hd13. exact Himg.
  - rewrite Hs13. apply in_or_app. left. exact Hspawn.
Qed.
End LayoutA.

(** * Sample runs, checked *)

(** ** The quality gate on the sample clips *)

(** The wide shot is accepted; the close-up, whose third box is 432
    pixels tall in a frame of 1080, is not. *)
Lemma quality_gate_accept_iff_witness :
  (exists w',
     @RemoveUnwantedScenes.check_criteria GateSample.externals
       (RemoveUnwantedScenes.run_detection
          (@RemoveUnwantedScenes.YOLO GateSample.externals "yolo11s.pt")
          (GateSample.frame_of 1))
       1080 GateSample.world
     = (w', Ok true))
  /\ (exists w',
        @RemoveUnwantedScenes.check_criteria GateSample.externals
          (RemoveUnwantedScenes.run_detection
             (@RemoveUnwantedScenes.YOLO GateSample.externals "yolo11s.pt")
             (GateSample.frame_of 2))
          1080 GateSample.world
        = (w', Ok false)).
Proof.
  split.
  - destruct (@quality_gate_accept_iff GateSample.externals
                (@RemoveUnwantedScenes.YOLO GateSample.externals "yolo11s.pt")
                (GateSample.frame_of 1) (PyFloat.of_Z 1080) GateSample.world)
      as (w' & accepted & Hrun & Hiff & _).
    + repeat constructor.
    + reflexivity.
    + exists w'.
      change (RemoveUnwantedScenes.shape0 (GateSample.frame_of 1)) with 1080 in Hrun.
      rewrite Hrun. f_equal. f_equal. apply Hiff. split.
      * vm_compute. lia.
      * repeat constructor.
  - destruct (@quality_gate_accept_iff GateSample.externals
                (@RemoveUnwantedScenes.YOLO GateSample.externals "yolo11s.pt")
                (GateSample.frame_of 2) (PyFloat.of_Z 1080) GateSample.world)
      as (w' & accepted & Hrun & Hiff & _).
    + repeat constructor.
    + reflexivity.
    + exists w'.
      change (RemoveUnwantedScenes.shape0 (GateSample.frame_of 2)) with 1080 in Hrun.
      rewrite Hrun. f_equal. f_equal. destruct accepted; [|reflexivity].
      destruct Hiff as [Hall _]. destruct (Hall eq_refl) as [_ Hsmall].
      apply List.Forall_forall with (x := GateSample.box 80 100 532) in Hsmall.
      * vm_compute in Hsmall. discriminate Hsmall.
      * vm_compute. tauto.
Defined.

Lemma unreadable_clip_never_deleted_witness :
  exists w',
    @RemoveUnwantedScenes.process_video GateSample.externals
      (@RemoveUnwantedScenes.YOLO GateSample.externals "yolo11s.pt")
      "clips/broken.mp4" GateSample.world
    = (w', Ok false)
    /\ "clips/broken.mp4" ∈ RemoveUnwantedScenes.disk w'.
Proof.
  destruct (@unreadable_clip_never_deleted GateSample.externals
              (@RemoveUnwantedScenes.YOLO GateSample.externals "yolo11s.pt")
              "clips/broken.mp4" GateSample.world)
    as (w' & Hrun & _ & _ & Hkept).
  - left. reflexivity.
  - exists w'. split; [exact Hrun|]. apply Hkept.
    unfold GateSample.world. cbn [RemoveUnwantedScenes.disk]. set_solver.
Defined.


(** The sample run keeps two clips, deletes one and cannot read one: its
    summary says "deleted 2". *)
Example gate_sample_summary :
  RemoveUnwantedScenes.console
    (fst (@RemoveUnwantedScenes.main GateSample.externals "clips" "yolo11s.pt"
            GateSample.world))
  = ["[INFO] Kept: clips/wide.mp4";
     "[WARN] Unable to read frame from: clips/broken.mp4";
     "[INFO] Bounding box too large: 432.0 >= 360.0 (frame height is 1080). Video will be deleted";
     "[INFO] Kept: clips/Final.MP4";
     "[INFO] Processed 4 videos, deleted 2."]
  /\ elements (RemoveUnwantedScenes.disk
       (fst (@RemoveUnwantedScenes.main GateSample.externals "clips" "yolo11s.pt"
               GateSample.world)))
     = ["clips/wide.mp4"; "clips/notes.txt"; "clips/Final.MP4"; "clips/broken.mp4"].
Proof. split; vm_compute; reflexivity. Qed.

(** ** The metadata builder on sample inputs *)

(** C2, counterexample.  Three frames at 32 frames per second last 93.75
    ms: the builder stores ["93"], the nearest integer is 94. *)
Lemma clip_stop_rounding_counterexample :
  FormatMp4Dir.duration_ms (PyFloat.of_Z 32) 3 = Ok 93
  /\ clip_stop_of (FormatMp4Dir.labels_data "clip" (PyFloat.of_Z 32) 3 93) = Some "93"
  /\ (inject_Z 3 / PyFloat.to_Q (PyFloat.of_Z 32) * 1000 == 375 # 4)%Q
  /\ PyStr.str_of_Z (spec_duration_ms 3 (PyFloat.of_Z 32)) = "94"
  /\ Some "93" <> Some (PyStr.str_of_Z (spec_duration_ms 3 (PyFloat.of_Z 32)))
  /\ FormatToSoccernet.duration_ms (PyFloat.of_Z 32) 3 = Ok 93.
Proof. repeat split. discriminate. Qed.

Lemma clip_stop_is_truncated_duration_witness :
  let run :=
    @FormatMp4Dir.create_labels_json HostSample.externals "clip" (PyFloat.of_Z 32) 3
      "out/Labels-GameState.json" HostSample.prepared in
  FormatMp4Dir.duration_ms (PyFloat.of_Z 32) 3 = Ok 93
  /\ snd run = Ok tt
  /\ exists data,
       Host.files (fst run) !! "out/Labels-GameState.json"
       = Some (Json.dumps sample_float_repr data 4)
       /\ clip_stop_of data = Some "93".
Proof.
  cbv zeta.
  destruct (@clip_stop_is_truncated_duration HostSample.externals "clip" 3
              (PyFloat.of_Z 32) (PyFloat.of_Z 3)) as (Hd & Hpos & _).
  - lia.
  - reflexivity.
  - reflexivity.
  - reflexivity.
  - split; [exact Hd|]. split; [reflexivity|].
    apply Hpos with (w := HostSample.prepared). vm_compute. reflexivity.
Defined.

(** Without the directory [out], the same call raises and writes
    nothing. *)
Example create_labels_json_needs_directory :
  @FormatMp4Dir.create_labels_json HostSample.externals "clip" (PyFloat.of_Z 32) 3
    "out/Labels-GameState.json" HostSample.world
  = (HostSample.world, Raise (FileNotFoundError "out/Labels-GameState.json")).
Proof. vm_compute. reflexivity. Qed.

Lemma images_list_matches_frame_count_witness :
  let run :=
    @FormatMp4Dir.create_labels_json HostSample.externals "clip" (PyFloat.of_Z 30) 3
      "out/Labels-GameState.json" HostSample.prepared in
  snd run = Ok tt
  /\ (exists data images,
        Host.files (fst run) !! "out/Labels-GameState.json"
        = Some (Json.dumps sample_float_repr data 4)
        /\ images_of data = Some images
        /\ Z.of_nat (length images) = 3
        /\ seq_length_of data = Some 3
        /\ (forall k : nat, Z.of_nat k < 3 ->
              exists v, images !! k = Some v /\ frame_descriptor (Z.of_nat k + 1) v)
        /\ Json.get "annotations" data = Some (Json.List [])
        /\ Json.get "categories" data = Some (Json.List []))
  /\ images_of (FormatMp4Dir.labels_data "clip" (PyFloat.of_Z 30) 3 100)
     = Some (map (fun names : string * string =>
                    Json.Dict
                      [("is_labeled", Json.Bool false);
                       ("image_id", Json.Str (fst names));
                       ("file_name", Json.Str (snd names));
                       ("height", Json.Int 1080);
                       ("width", Json.Int 1920)])
               [("000000001", "000001.jpg"); ("000000002", "000002.jpg");
                ("000000003", "000003.jpg")]).
Proof.
  cbv zeta. split; [reflexivity|]. split; [|reflexivity].
  apply (@images_list_matches_frame_count HostSample.externals "clip" (PyFloat.of_Z 30) 3
           "out/Labels-GameState.json" HostSample.prepared).
  - lia.
  - vm_compute. reflexivity.
Defined.

(** Two invocations, in different worlds and to different files, write
    the same text. *)
Lemma create_labels_json_deterministic_witness :
  let run1 :=
    @FormatMp4Dir.create_labels_json HostSample.externals "clip" (PyFloat.of_Z 30) 3
      "out/Labels-GameState.json" HostSample.prepared in
  let run2 :=
    @FormatMp4Dir.create_labels_json HostSample.externals "clip" (PyFloat.of_Z 30) 3
      "copy.json" HostSample.world in
  snd run1 = Ok tt /\ snd run2 = Ok tt
  /\ is_Some (Host.files (fst run1) !! "out/Labels-GameState.json")
  /\ Host.files (fst run1) !! "out/Labels-GameState.json"
     = Host.files (fst run2) !! "copy.json".
Proof.
  intros run1 run2.
  destruct (@create_labels_json_deterministic HostSample.externals "clip"
              (PyFloat.of_Z 30) 3) as (text & Hall).
  destruct (Hall "out/Labels-GameState.json" HostSample.prepared (fst run1) (snd run1)
              (surjective_pairing run1)) as [H1 _].
  destruct (Hall "copy.json" HostSample.world (fst run2) (snd run2)
              (surjective_pairing run2)) as [H2 _].
  assert (Hok1 : snd run1 = Ok tt) by reflexivity.
  assert (Hok2 : snd run2 = Ok tt) by reflexivity.
  split; [exact Hok1|]. split; [exact Hok2|].
  rewrite (H1 Hok1), (H2 Hok2). cbn [Host.files Host.written].
  rewrite !lookup_insert_eq. split; [eauto | reflexivity].
Defined.

(** ** The rate prober on the sample probe *)

Lemma rate_prober_float_division_witness :
  fst (@FormatMp4Dir.get_video_fps HostSample.externals "clips/x.mp4" HostSample.world
       ) = after_process (ffprobe_cmd "clips/x.mp4") 0 ∅ HostSample.world
  /\ snd (@FormatMp4Dir.get_video_fps HostSample.externals "clips/x.mp4" HostSample.world)
     = Ok (S754_finite false 8435813487831848 (-48)).
Proof.
  destruct (@rate_prober_float_division HostSample.externals "clips/x.mp4"
              HostSample.world ∅ ("30000/1001" +:+ Host.newline))
    as (Hratio & _ & _ & _ & Hvalue & _).
  - reflexivity.
  - rewrite (Hratio "30000" "1001" 30000 1001); [|reflexivity|reflexivity|lia|reflexivity].
    cbv zeta in Hvalue. rewrite Hvalue. split; reflexivity.
Defined.

(** ** The converters on the sample batches *)

(** C3, counterexample.  A batch of two clips whose first probe exits with
    status 1: both converters raise, and the second clip is never probed,
    rasterized or described. *)
Lemma batch_abort_counterexample :
  let run_a := @FormatMp4Dir.main HostSample.externals "in" "out" HostSample.world in
  let run_b := @FormatToSoccernet.main HostSample.externals "in" "out" HostSample.world in
  snd run_a = Raise (CalledProcessError 1 (ffprobe_cmd "in/a.mp4"))
  /\ Host.spawned (fst run_a) = [(ffprobe_cmd "in/a.mp4", 1)]
  /\ Host.console (fst run_a) = ["Processing video: in/a.mp4..."]
  /\ Host.files (fst run_a) = ∅
  /\ snd run_b = Raise (CalledProcessError 1 (ffprobe_cmd "in/a.mp4"))
  /\ Host.spawned (fst run_b) = [(ffprobe_cmd "in/a.mp4", 1)]
  /\ Host.console (fst run_b) = ["Processing video: in/a.mp4..."]
  /\ Host.files (fst run_b) = ∅
  /\ @Host.listdir HostSample.externals "in" ∅ = ["a.mp4"; "b.mp4"].
Proof. cbv zeta. repeat split; vm_compute; reflexivity. Qed.

Lemma batch_aborts_at_first_failure_witness :
  snd (@FormatMp4Dir.main HostSample.externals "in" "out" HostSample.world)
  = Raise (CalledProcessError 1 (ffprobe_cmd "in/a.mp4"))
  /\ exists earlier,
       Host.spawned (fst (@FormatMp4Dir.main HostSample.externals "in" "out"
                            HostSample.world))
       = (earlier ++ [(ffprobe_cmd "in/a.mp4", 1)])%list
       /\ Forall (fun p : list string * Z => snd p = 0) earlier.
Proof.
  apply (@batch_aborts_at_first_failure HostSample.externals "in" "out" HostSample.world).
  - constructor.
  - left. now destruct (@FormatMp4Dir.main HostSample.externals "in" "out" HostSample.world).
  - vm_compute. left. reflexivity.
  - discriminate.
Defined.

(** C7, counterexample.  The clip ["My Clip.MP4"] converted at
    2025-01-01 12:00:00 into [out]: the directory named after the clip and
    the time holds [train], and the directory under [train] is [video1]. *)
Lemma policy_a_layout_counterexample :
  let run := @FormatMp4Dir.main HostSample.externals "clips" "out" HostSample.world in
  let img_dir := "out/my-clip-20250101-120000/train/video1/img1" in
  let label := "out/my-clip-20250101-120000/train/video1/Labels-GameState.json" in
  snd run = Ok tt
  /\ Host.spawned (fst run)
     = [(ffprobe_cmd "clips/My Clip.MP4", 0);
        (ffmpeg_cmd "clips/My Clip.MP4" img_dir, 0)]
  /\ dom (Host.files (fst run)) = {[label]}
  /\ elements (Host.dirs (fst run))
     = [img_dir; "out/my-clip-20250101-120000/train"; "out/my-clip-20250101-120000"; "out"]
  /\ ~ slot_under_train "my-clip-20250101-120000" img_dir label.
Proof.
  cbv zeta. repeat split; try (vm_compute; reflexivity).
  intros (root & Himg & _). vm_compute in Himg.
  destruct root as [|a [|b [|c [|d root]]]]; try discriminate Himg.
  destruct root as [|e [|f root]]; discriminate Himg.
Qed.

Lemma policy_a_layout_witness :
  let w' := fst (@FormatMp4Dir.main_body HostSample.externals "clips" "out" "My Clip.MP4"
                   HostSample.world) in
  "out/my-clip-20250101-120000" ∈ Host.dirs w'
  /\ "out/my-clip-20250101-120000/train" ∈ Host.dirs w'
  /\ "out/my-clip-20250101-120000/train/video1/img1" ∈ Host.dirs w'
  /\ In (ffmpeg_cmd "clips/My Clip.MP4" "out/my-clip-20250101-120000/train/video1/img1", 0)
       (Host.spawned w')
  /\ is_Some (Host.files w'
              !! "out/my-clip-20250101-120000/train/video1/Labels-GameState.json").
Proof.
  apply (@policy_a_layout HostSample.externals "clips" "out" "My Clip.MP4" HostSample.world).
  - reflexivity.
  - vm_compute. reflexivity.
Defined.

(** * Further properties of the three programs *)

(** ** The quality gate, clip by clip *)

Section GateVerdicts.
Import RemoveUnwantedScenes.
Context `{Externals}.




Lemma process_video_disk model video_path w w' r :
  process_video model video_path w = (w', r) ->
  disk w' = disk w \/ (video_path ∈ disk w /\ disk w' = disk w ∖ {[video_path]}
                       /\ r = Ok false).
Proof.
  unfold process_video, bind at 1, lift.
  destruct (get_middle_frame video_path) as [[[frame h]|]|e].
  - unfold bind at 1.
    destruct (check_criteria _ _ w) as [w1 [ok|e]] eqn:Hc.
    + apply check_criteria_lines in Hc as (Hd & _).
      destruct ok; cbn [negb].
      * intros [= <- <-]. left. exact Hd.
      * unfold bind, os_remove. destruct (decide _) as [Hin|Hout].
        -- intros [= <- <-]. right. cbn. rewrite Hd in *. auto.
        -- intros [= <- <-]. left. exact Hd.
    + apply check_criteria_lines in Hc as (Hd & _).
      intros [= <- <-]. left. exact Hd.
  - intros [= <- <-]. left. reflexivity.
  - intros [= <- <-]. left. reflexivity.
Qed.
End GateVerdicts.

(** ** The quality gate over a folder *)

Section GateBatch.
Import RemoveUnwantedScenes.
Context `{Externals}.

Lemma main_loop_removes model folder_path filenames :
  forall np nd w w' r,
    main_loop model folder_path filenames np nd w = (w', r) ->
    forall p, p ∈ disk w ->
      p ∈ disk w'
      \/ exists f, In f filenames /\ is_video f = true /\ p = OsPath.join folder_path f.
Proof.
  induction filenames as [|f rest IH]; intros np nd w w' r.
  - intros [= <- <-] p Hp. now left.
  - rewrite main_loop_cons. destruct (is_video f) eqn:Hv; cbn [negb].
    + unfold bind at 1.
      destruct (process_video model (OsPath.join folder_path f) w) as [w1 [b|e]] eqn:Hp1.
      * intros Hrest p Hp.
        destruct (process_video_disk _ _ _ _ _ Hp1) as [Hsame | (_ & Hrem & _)].
        -- rewrite <- Hsame in Hp.
           destruct (IH _ _ _ _ _ Hrest p Hp) as [Hin | (g & Hg & Hgv & ->)].
           ++ now left.
           ++ right. exists g. split; [now right|]. now split.
        -- destruct (decide (p = OsPath.join folder_path f)) as [-> | Hne].
           ++ right. exists f. split; [now left|]. now split.
           ++ assert (Hp' : p ∈ disk w1).
              { rewrite Hrem, elem_of_difference, elem_of_singleton. now split. }
              destruct (IH _ _ _ _ _ Hrest p Hp') as [Hin | (g & Hg & Hgv & ->)].
              ** now left.
              ** right. exists g. split; [now right|]. now split.
      * intros [= <- <-] p Hp.
        destruct (process_video_disk _ _ _ _ _ Hp1) as [Hsame | (_ & _ & Hr)];
          [|discriminate Hr].
        left. now rewrite Hsame.
    + intros Hrest p Hp.
      destruct (IH _ _ _ _ _ Hrest p Hp) as [Hin | (g & Hg & Hgv & ->)].
      * now left.
      * right. exists g. split; [now right|]. now split.
Qed.

(** X3.  Whatever the model answers and however the run ends, a file
    that was on the disk before [main] and is not there after it is one of
    the folder's listed entries with a video suffix, joined to the folder
    path: the gate removes nothing else. *)
Theorem main_only_removes_listed_videos folder_path model w w' r :
  main folder_path model w = (w', r) ->
  forall p, p ∈ disk w ->
    p ∈ disk w'
    \/ exists f, In f (listdir folder_path) /\ is_video f = true
                 /\ p = OsPath.join folder_path f.
Proof.
  unfold main. destruct (isdir folder_path); cbn [negb].
  - unfold bind at 1, lift.
    destruct (load_model model) as [m|e]; [|intros [= <- <-] p Hp; now left].
    unfold bind at 1.
    destruct (os_listdir folder_path) as [filenames|e] eqn:Hls;
      [|intros [= <- <-] p Hp; now left].
    apply gate_listdir_Ok in Hls. subst filenames. unfold bind at 1.
    destruct (main_loop _ _ _ 0 0 w) as [w1 [[np nd]|e]] eqn:Hloop.
    + intros Hrun p Hp.
      destruct (main_loop_removes _ _ _ _ _ _ _ _ Hloop p Hp) as [Hin | Hex]; [|now right].
      left. unfold bind in Hrun. cbn [print] in Hrun.
      destruct (np =? 0); injection Hrun as <- _; exact Hin.
    + intros [= <- <-] p Hp. exact (main_loop_removes _ _ _ _ _ _ _ _ Hloop p Hp).
  - intros [= <- <-] p Hp. now left.
Qed.

Lemma main_loop_no_videos model folder_path filenames :
  forall np nd w,
    (forall f, In f filenames -> is_video f = false) ->
    main_loop model folder_path filenames np nd w = (w, Ok (np, nd)).
Proof.
  induction filenames as [|f rest IH]; intros np nd w Hnone; [reflexivity|].
  rewrite main_loop_cons, (Hnone f (or_introl eq_refl)). cbn [negb].
  apply IH. intros g Hg. apply Hnone. now right.
Qed.

(** X5.  On a directory in which no entry has a video suffix, [main]
    touches no file, whatever the model: when the weights load and the
    directory is listed, it ends well after printing two lines, the
    summary with both counters at zero and then the warning that names
    the folder; otherwise it raises before printing anything. *)
Theorem main_without_videos folder_path model w w' r :
  isdir folder_path = true ->
  (forall f, In f (listdir folder_path) -> is_video f = false) ->
  main folder_path model w = (w', r) ->
  disk w' = disk w
  /\ (r = Ok tt ->
      YOLO_raises model = None /\ listdir_fault folder_path = None
      /\ console w'
         = (console w
            ++ ["[INFO] Processed 0 videos, deleted 0.";
                "[WARN] No video files found in: " +:+ folder_path
                +:+ ", make sure they are in a supported format (.webm, .mp4, .avi, .mov, .mkv)."])%list)
  /\ (r <> Ok tt -> w' = w).
Proof.
  intros Hdir Hnone. unfold main. rewrite Hdir. cbn [negb].
  unfold bind at 1, lift, load_model.
  destruct (YOLO_raises model) as [e|];
    [intros [= <- <-]; split; [reflexivity|];
     split; [intros Hr; discriminate Hr | intros _; reflexivity]|].
  unfold bind at 1, os_listdir.
  destruct (listdir_fault folder_path) as [fault|];
    [intros [= <- <-]; split; [reflexivity|];
     split; [intros Hr; discriminate Hr | intros _; reflexivity]|].
  unfold bind at 1. rewrite (main_loop_no_videos _ _ _ 0 0 w Hnone).
  unfold bind, print. cbn. intros [= <- <-]. cbn [disk console].
  split; [reflexivity|]. split; [|intros Hr; now contradiction Hr].
  intros _. repeat split. now rewrite <- app_assoc.
Qed.
End GateBatch.

(** ** The rate prober on malformed rates *)

Section ProbeFailures.
Import Host FormatMp4Dir.
Context `{Externals}.

Lemma split_length c s : length (PyStr.split c s) = S (count_char c s).
Proof.
  induction s as [|a r IH]; [reflexivity|]. cbn [PyStr.split count_char].
  destruct (Ascii.eqb a c).
  - cbn [length]. now rewrite IH.
  - destruct (PyStr.split c r) as [|h t]; [discriminate IH|]. cbn [length] in *. lia.
Qed.

Lemma contains_count c s : PyStr.contains c s = negb (count_char c s =? 0)%nat.
Proof.
  induction s as [|a r IH]; [reflexivity|]. cbn [PyStr.contains count_char].
  destruct (Ascii.eqb a c); [reflexivity|]. exact IH.
Qed.

(** The parse of the probe's output touches nothing. *)
Lemma get_video_fps_world video_path w :
  exists fs rc out,
    run_process (ffprobe_cmd video_path) (files w) = (fs, (rc, out))
    /\ fst (get_video_fps video_path w) = after_process (ffprobe_cmd video_path) rc fs w.
Proof.
  destruct (run_process (ffprobe_cmd video_path) (files w)) as [fs [rc out]] eqn:Hrun.
  exists fs, rc, out. split; [reflexivity|].
  unfold get_video_fps, bind at 1, subprocess_run_check.
  fold (ffprobe_cmd video_path). rewrite Hrun.
  fold (after_process (ffprobe_cmd video_path) rc fs w).
  destruct (rc =? 0); [|reflexivity]. cbv zeta.
  destruct (PyStr.contains _ _).
  - destruct (PyStr.split _ _) as [|top [|bottom [|x rest]]]; try reflexivity.
    unfold bind, lift. destruct (builtin_float top); [|reflexivity].
    destruct (builtin_float bottom); reflexivity.
  - reflexivity.
Qed.

(** X6.  A rate ["N/0"] reported by a probe that succeeded: the rate
    prober raises [ZeroDivisionError], after the probe and nothing else
    has run. *)
Theorem get_video_fps_zero_denominator video_path w files' stdout top bottom N :
  run_process (ffprobe_cmd video_path) (files w) = (files', (0, stdout)) ->
  digits_value top = Some N -> digits_value bottom = Some 0 ->
  PyStr.strip stdout = top +:+ "/" +:+ bottom ->
  get_video_fps video_path w
  = (after_process (ffprobe_cmd video_path) 0 files' w, Raise ZeroDivisionError).
Proof.
  intros Hrun Htop Hbottom Hstrip.
  rewrite (get_video_fps_probe video_path w files' stdout Hrun). cbv zeta.
  rewrite Hstrip. change (top +:+ "/" +:+ bottom) with (top +:+ String "/" bottom).
  pose proof (digits_no_slash _ (digits_value_digits top N Htop)) as Hst.
  pose proof (digits_no_slash _ (digits_value_digits bottom 0 Hbottom)) as Hsb.
  rewrite contains_app, (split_app _ _ _ Hst), (split_no_sep _ _ Hsb).
  unfold bind, lift. rewrite (builtin_float_digits top N Htop).
  now rewrite (builtin_float_digits bottom 0 Hbottom).
Qed.

(** X7.  A rate with two slashes or more, whatever stands between them:
    the unpacking of the split raises [ValueError], and no conversion to
    float is attempted. *)
Theorem get_video_fps_too_many_slashes video_path w files' stdout :
  run_process (ffprobe_cmd video_path) (files w) = (files', (0, stdout)) ->
  (2 <= count_char "/" (PyStr.strip stdout))%nat ->
  get_video_fps video_path w
  = (after_process (ffprobe_cmd video_path) 0 files' w,
     Raise (ValueError "too many values to unpack (expected 2)")).
Proof.
  intros Hrun Hcount.
  rewrite (get_video_fps_probe video_path w files' stdout Hrun). cbv zeta.
  rewrite contains_count.
  destruct (count_char "/" (PyStr.strip stdout) =? 0)%nat eqn:E;
    [apply Nat.eqb_eq in E; lia|]. cbn [negb].
  pose proof (split_length "/" (PyStr.strip stdout)) as Hlen.
  destruct (PyStr.split "/" (PyStr.strip stdout)) as [|a [|b [|c rest]]];
    cbn [length] in Hlen; try lia; reflexivity.
Qed.
End ProbeFailures.

(** ** The duration in milliseconds *)

Section Durations.
Import Host FormatMp4Dir.

Lemma binary_round_aux_not_nan s m e l :
  0 <= m -> PyFloat.is_nan (binary_round_aux PyFloat.prec PyFloat.emax s m e l) = false.
Proof.
  intros Hm. pose proof (binary_round_aux_sign s m e l Hm) as Hs.
  destruct (binary_round_aux _ _ s m e l); try reflexivity. contradiction.
Qed.

Lemma of_Z_not_nan z : PyFloat.is_nan (PyFloat.of_Z z) = false.
Proof.
  unfold PyFloat.of_Z, binary_normalize, binary_round.
  destruct z as [|p|p]; [reflexivity| |];
    destruct (shl_align p 0 _) as [mz ez]; apply binary_round_aux_not_nan; lia.
Qed.

Lemma div_by_positive_not_nan x y :
  PyFloat.is_finite x = true -> PyFloat.gt y (PyFloat.of_Z 0) = true ->
  PyFloat.is_nan (PyFloat.div x y) = false.
Proof.
  intros Hx Hy.
  destruct y as [sy|sy| |sy my ey]; try discriminate;
    destruct sy; try discriminate;
    destruct x as [sx|sx| |sx mx ex]; try discriminate; try reflexivity.
  unfold PyFloat.div, SFdiv.
  pose proof (SFdiv_core_binary_nonneg mx ex my ey) as Hq.
  destruct (SFdiv_core_binary _ _ (Zpos mx) ex (Zpos my) ey) as [[mz ez] lz].
  simpl in Hq. now apply binary_round_aux_not_nan.
Qed.

Lemma mul_thousand_not_nan x :
  PyFloat.is_nan x = false ->
  PyFloat.is_nan (PyFloat.mul x (PyFloat.of_Z 1000)) = false.
Proof.
  intros Hx. destruct x as [sx|sx| |sx mx ex]; try discriminate; try reflexivity.
  change (PyFloat.of_Z 1000) with (S754_finite false 8796093022208000 (-43)).
  unfold PyFloat.mul, SFmul. apply binary_round_aux_not_nan. lia.
Qed.

Lemma to_int_outcomes x :
  PyFloat.is_nan x = false ->
  (exists d, PyFloat.to_int x = Ok d /\ (PyFloat.nonneg x = true -> 0 <= d))
  \/ PyFloat.to_int x = Raise OverflowError.
Proof.
  intros Hx. destruct x as [s|s| |s m e]; try discriminate.
  - left. exists 0. split; [reflexivity | lia].
  - right. reflexivity.
  - left. eexists. split; [reflexivity|]. destruct s; [discriminate|].
    intros _. apply Z.shiftl_nonneg. lia.
Qed.

Lemma scaled_quotient_outcomes n R F :
  PyFloat.of_Z F = n -> PyFloat.is_finite n = true ->
  PyFloat.gt R (PyFloat.of_Z 0) = true ->
  let x := PyFloat.mul (PyFloat.div n R) (PyFloat.of_Z 1000) in
  (exists d, PyFloat.to_int x = Ok d /\ (0 <= F -> 0 <= d))
  \/ PyFloat.to_int x = Raise OverflowError.
Proof.
  intros HF Hfin HR x.
  assert (Hq : PyFloat.is_nan (PyFloat.div n R) = false)
    by (now apply div_by_positive_not_nan).
  destruct (to_int_outcomes x (mul_thousand_not_nan _ Hq)) as [(d & Hd & Hpos) | Hov];
    [left | now right].
  exists d. split; [exact Hd|]. intros HF0. apply Hpos.
  apply mul_nonneg; try reflexivity. apply div_nonneg; try assumption.
  rewrite <- HF. now apply of_Z_nonneg.
Qed.

(** X8.  For every rate, NaN, infinite, zero and negative rates among
    them, and every frame count, the duration either is an integer, not
    negative when the frame count is not, or raises [OverflowError]:
    never [ZeroDivisionError], never the [ValueError] of [int(nan)]. *)
Theorem duration_ms_outcomes R F :
  (exists d, duration_ms R F = Ok d /\ (0 <= F -> 0 <= d))
  \/ duration_ms R F = Raise OverflowError.
Proof.
  unfold duration_ms. destruct (PyFloat.gt R (PyFloat.of_Z 0)) eqn:HR.
  - unfold PyFloat.of_int, PyFloat.truediv. rewrite (gt_zero_not_zero R HR).
    pose proof (of_Z_not_nan F) as Hnan.
    destruct (PyFloat.of_Z F) as [s|s| |s m e] eqn:HF; cbn [rbind].
    + now apply (scaled_quotient_outcomes _ R F HF).
    + now right.
    + discriminate Hnan.
    + now apply (scaled_quotient_outcomes _ R F HF).
  - left. exists 0. split; [reflexivity | lia].
Qed.
End Durations.

(** ** The sanitized base name *)

Section Naming.

Lemma lower_char_idempotent c : PyStr.lower_char (PyStr.lower_char c) = PyStr.lower_char c.
Proof. destruct c as [[] [] [] [] [] [] [] []]; reflexivity. Qed.

Lemma lower_char_not_space c :
  Ascii.eqb (PyStr.lower_char (if Ascii.eqb c " " then "-"%char else c)) " " = false.
Proof. destruct c as [[] [] [] [] [] [] [] []]; reflexivity. Qed.

(** X9.  The name both converters derive from a file name, its base
    name with every space replaced by a hyphen and then lowered, holds no
    space and is left unchanged by lowering it again. *)
Theorem sanitized_base_name_is_clean file_name :
  PyStr.contains " " (sanitized_base_name file_name) = false
  /\ PyStr.lower (sanitized_base_name file_name) = sanitized_base_name file_name.
Proof.
  unfold sanitized_base_name. generalize (fst (OsPath.splitext file_name)) as s.
  induction s as [|a r [IH1 IH2]]; [split; reflexivity|].
  cbn [PyStr.replace PyStr.lower PyStr.contains]. split.
  - rewrite lower_char_not_space. exact IH1.
  - rewrite lower_char_idempotent. now rewrite IH2.
Qed.
End Naming.

(** ** Relocations *)

Create HintDb keeps_moved.

Section KeepsMoved.
Import Host.
Context `{Externals}.

Lemma keeps_moved_bind {A B} (c : M World A) (k : A -> M World B) :
  keeps_moved c -> (forall a, keeps_moved (k a)) -> keeps_moved (bind c k).
Proof.
  intros Hc Hk w w' r. unfold bind. destruct (c w) as [w1 [a|e]] eqn:Ec.
  - intros Hrun. rewrite (Hk _ _ _ _ Hrun). exact (Hc _ _ _ Ec).
  - intros [= <- <-]. exact (Hc _ _ _ Ec).
Qed.

Lemma keeps_moved_pure {A} (r : result A) : keeps_moved (fun w => (w, r)).
Proof. now intros w w' r' [= <- <-]. Qed.

Lemma keeps_moved_ret {A} (a : A) : keeps_moved (ret a : M World A).
Proof. apply keeps_moved_pure. Qed.

Lemma keeps_moved_lift {A} (r : result A) : keeps_moved (lift r).
Proof. apply keeps_moved_pure. Qed.

Lemma keeps_moved_raise {A} e : keeps_moved (raise e : M World A).
Proof. apply keeps_moved_pure. Qed.

Lemma keeps_moved_print line : keeps_moved (print line).
Proof. now intros w w' r [= <- <-]. Qed.

Lemma keeps_moved_os_call {A} call (effect : M World A) :
  keeps_moved effect -> keeps_moved (os_call call effect).
Proof.
  intros He w w' r Hrun.
  destruct (os_call_run _ _ _ _ _ Hrun) as [(fault & -> & _) | Heff];
    [reflexivity | exact (He _ _ _ Heff)].
Qed.

Lemma keeps_moved_makedirs path : keeps_moved (makedirs path).
Proof. apply keeps_moved_os_call. now intros w w' r [= <- <-]. Qed.

Lemma keeps_moved_write_text path text : keeps_moved (write_text path text).
Proof. apply keeps_moved_os_call. now intros w w' r [= <- <-]. Qed.

Lemma keeps_moved_os_listdir path : keeps_moved (os_listdir path).
Proof. apply keeps_moved_os_call. now intros w w' r [= <- <-]. Qed.

Lemma keeps_moved_tick : keeps_moved tick.
Proof. now intros w w' r [= <- <-]. Qed.

Lemma keeps_moved_subprocess cmd : keeps_moved (subprocess_run_check cmd).
Proof.
  intros w w' r. unfold subprocess_run_check.
  destruct (run_process cmd (files w)) as [fs [rc out]].
  destruct (rc =? 0); now intros [= <- <-].
Qed.

End KeepsMoved.

#[export] Hint Resolve keeps_moved_ret keeps_moved_lift keeps_moved_raise
  keeps_moved_print keeps_moved_makedirs keeps_moved_write_text keeps_moved_os_listdir
  keeps_moved_tick keeps_moved_subprocess : keeps_moved.

Ltac keeps_moved_steps :=
  repeat first
    [ solve [auto with keeps_moved]
    | apply keeps_moved_bind; [|intros ?] ].

Section KeepsMovedPrograms.
Import Host.
Context `{Externals}.

Lemma keeps_moved_get_video_fps video_path :
  keeps_moved (FormatMp4Dir.get_video_fps video_path).
Proof.
  unfold FormatMp4Dir.get_video_fps. apply keeps_moved_bind; [auto with keeps_moved|].
  intros stdout. cbv zeta. destruct (PyStr.contains _ _).
  - destruct (PyStr.split _ _) as [|top [|bottom [|x rest]]]; keeps_moved_steps.
  - keeps_moved_steps.
Qed.

Lemma keeps_moved_extract_frames video_path output_folder :
  keeps_moved (FormatMp4Dir.extract_frames video_path output_folder).
Proof. unfold FormatMp4Dir.extract_frames. keeps_moved_steps. Qed.

Lemma keeps_moved_get_frame_count folder_path :
  keeps_moved (FormatMp4Dir.get_frame_count folder_path).
Proof. now intros w w' r [= <- <-]. Qed.

Lemma keeps_moved_create_labels_json video_name R N output_file :
  keeps_moved (FormatMp4Dir.create_labels_json video_name R N output_file).
Proof. unfold FormatMp4Dir.create_labels_json. keeps_moved_steps. Qed.

Lemma keeps_moved_soccernet_get_video_fps video_path :
  keeps_moved (FormatToSoccernet.get_video_fps video_path).
Proof. exact (keeps_moved_get_video_fps video_path). Qed.

Lemma keeps_moved_soccernet_extract_frames video_path output_folder :
  keeps_moved (FormatToSoccernet.extract_frames video_path output_folder).
Proof. exact (keeps_moved_extract_frames video_path output_folder). Qed.

Lemma keeps_moved_soccernet_get_frame_count folder_path :
  keeps_moved (FormatToSoccernet.get_frame_count folder_path).
Proof. exact (keeps_moved_get_frame_count folder_path). Qed.

Lemma keeps_moved_soccernet_create_labels_json video_name R N output_file :
  keeps_moved (FormatToSoccernet.create_labels_json video_name R N output_file).
Proof. exact (keeps_moved_create_labels_json video_name R N output_file). Qed.
End KeepsMovedPrograms.

#[export] Hint Resolve keeps_moved_get_video_fps keeps_moved_extract_frames
  keeps_moved_get_frame_count keeps_moved_create_labels_json
  keeps_moved_soccernet_get_video_fps keeps_moved_soccernet_extract_frames
  keeps_moved_soccernet_get_frame_count keeps_moved_soccernet_create_labels_json
  : keeps_moved.

(** ** What one successful step of a converter leaves behind *)

Section CoreRuns.
Import Host FormatMp4Dir.
Context `{Externals}.






Lemma get_video_fps_Ok video_path w w' fps :
  get_video_fps video_path w = (w', Ok fps) ->
  exists fs, w' = after_process (ffprobe_cmd video_path) 0 fs w.
Proof.
  intros Hrun.
  destruct (get_video_fps_world video_path w) as (fs & rc & out & Hp & Hw).
  rewrite Hrun in Hw. cbn [fst] in Hw. exists fs. rewrite Hw.
  destruct (rc =? 0) eqn:Erc; [apply Z.eqb_eq in Erc; now subst rc|].
  unfold get_video_fps, bind at 1, subprocess_run_check in Hrun.
  fold (ffprobe_cmd video_path) in Hrun. rewrite Hp, Erc in Hrun. discriminate Hrun.
Qed.

Lemma extract_frames_Ok_world video_path output_folder w w' :
  extract_frames video_path output_folder w = (w', Ok tt) ->
  exists fs,
    w' = after_process (ffmpeg_cmd video_path output_folder) 0 fs
           (made output_folder w).
Proof.
  unfold extract_frames. intros Hrun.
  apply bind_Ok in Hrun as (w1 & [] & ->%makedirs_Ok & Hrun).
  apply bind_Ok in Hrun as (w2 & out & Hsub & Hrun). injection Hrun as <-.
  unfold subprocess_run_check in Hsub. fold (ffmpeg_cmd video_path output_folder) in Hsub.
  destruct (run_process _ _) as [fs [rc out']].
  destruct (rc =? 0) eqn:Erc; [|discriminate]. apply Z.eqb_eq in Erc. subst rc.
  injection Hsub as <- _. exists fs. reflexivity.
Qed.

Lemma create_labels_json_Ok_world video_name R N output_file w w' :
  create_labels_json video_name R N output_file w = (w', Ok tt) ->
  is_Some (files w' !! output_file)
  /\ dirs w' = dirs w /\ spawned w' = spawned w /\ moved w' = moved w
  /\ clock w' = clock w.
Proof.
  intros Hrun. apply create_labels_json_Ok in Hrun as (d & _ & ->).
  cbn. rewrite lookup_insert_eq. repeat split. eauto.
Qed.
End CoreRuns.

(** ** The batch converter *)

Section SoccernetBatch.
Import Host.
Context `{Externals}.


Lemma soccernet_body_skip input_dir train_dir processed file_name details counter w :
  is_clip file_name = false ->
  FormatToSoccernet.main_body input_dir train_dir processed file_name details counter w
  = (w, Ok (details, counter)).
Proof.
  intros Hclip. unfold FormatToSoccernet.main_body. fold (is_clip file_name).
  now rewrite Hclip.
Qed.

Lemma soccernet_body_Ok input_dir train_dir processed file_name details counter w w' vars :
  is_clip file_name = true ->
  FormatToSoccernet.main_body input_dir train_dir processed file_name details counter w
  = (w', Ok vars) ->
  let video_path := OsPath.join input_dir file_name in
  let video_dir := OsPath.join train_dir ("video" +:+ PyStr.str_of_Z counter) in
  (exists fps n,
     vars = ((details ++ [FormatToSoccernet.video_detail file_name
                            (sanitized_base_name file_name) fps n])%list, counter + 1))
  /\ spawned w'
     = (spawned w ++ [(ffprobe_cmd video_path, 0);
                      (ffmpeg_cmd video_path (OsPath.join video_dir "img1"), 0)])%list
  /\ moved w' = (moved w ++ [(video_path, processed)])%list
  /\ clock w' = clock w.
Proof.
  intros Hclip Hrun video_path video_dir.
  unfold FormatToSoccernet.main_body in Hrun. fold (is_clip file_name) in Hrun.
  rewrite Hclip in Hrun. fold (sanitized_base_name file_name) in Hrun.
  cbv zeta in Hrun. fold video_path video_dir in Hrun.
  apply bind_Ok in Hrun as (w1 & [] & ->%makedirs_Ok & Hrun).
  apply bind_Ok in Hrun as (w2 & [] & ->%makedirs_Ok & Hrun).
  apply bind_Ok in Hrun as (w3 & [] & [= <-] & Hrun).
  apply bind_Ok in Hrun as (w4 & fps & Hfps & Hrun).
  apply get_video_fps_Ok in Hfps as (fs1 & ->).
  apply bind_Ok in Hrun as (w5 & [] & [= <-] & Hrun).
  apply bind_Ok in Hrun as (w6 & [] & Hext & Hrun).
  apply extract_frames_Ok_world in Hext as (fs2 & ->).
  apply bind_Ok in Hrun as (w7 & [] & [= <-] & Hrun).
  apply bind_Ok in Hrun as (w8 & total_frames & Hcount & Hrun).
  injection Hcount as <- Hcount.
  apply bind_Ok in Hrun as (w9 & [] & [= <-] & Hrun).
  apply bind_Ok in Hrun as (w10 & [] & Hjson & Hrun).
  apply create_labels_json_Ok_world in Hjson as (_ & Hd & Hs & Hm & Hc).
  apply bind_Ok in Hrun as (w11 & [] & [= <-] & Hrun).
  apply bind_Ok in Hrun as (w12 & [] & ->%shutil_move_Ok & Hrun).
  apply bind_Ok in Hrun as (w13 & [] & [= <-] & Hrun).
  injection Hrun as <- <-.
  cbn [files dirs spawned moved console clock print relocated made after_process] in *.
  split; [eauto|]. rewrite Hs, Hm, Hc, <- app_assoc. repeat split.
Qed.

Lemma soccernet_loop_Ok input_dir train_dir processed file_names :
  forall details counter w w' details',
    FormatToSoccernet.main_loop input_dir train_dir processed file_names details counter w
    = (w', Ok details') ->
    let clips := List.filter is_clip file_names in
    spawned w' = (spawned w ++ slot_commands input_dir train_dir clips counter)%list
    /\ clock w' = clock w
    /\ moved w' = (moved w ++ map (fun f => (OsPath.join input_dir f, processed)) clips)%list
    /\ exists new,
         details' = (details ++ new)%list
         /\ map (Json.get "original_file_name") new
            = map (fun f => Some (Json.Str f)) clips.
Proof.
  induction file_names as [|f rest IH]; intros details counter w w' details' Hrun.
  - injection Hrun as <- <-. cbn. rewrite !app_nil_r. repeat split.
    exists []. now rewrite app_nil_r.
  - cbn [FormatToSoccernet.main_loop] in Hrun.
    apply bind_Ok in Hrun as (w1 & vars & Hbody & Hrun).
    cbn [List.filter]. destruct (is_clip f) eqn:Hclip.
    + destruct (soccernet_body_Ok _ _ _ _ _ _ _ _ _ Hclip Hbody)
        as ((fps & n & ->) & Hs & Hm & Hc).
      cbn [fst snd] in Hrun.
      destruct (IH _ _ _ _ _ Hrun) as (Hs' & Hc' & Hm' & new & -> & Hnew).
      cbn zeta. cbn [slot_commands map]. rewrite Hs', Hs, Hc', Hc, Hm', Hm, <- !app_assoc.
      repeat split. eexists (_ :: new). split; [reflexivity|].
      cbn [map]. now rewrite Hnew.
    + rewrite (soccernet_body_skip _ _ _ _ _ _ _ Hclip) in Hbody.
      injection Hbody as <- <-. exact (IH _ _ _ _ _ Hrun).
Qed.

Lemma soccernet_body_no_process_error input_dir train_dir processed file_name
    details counter w w' rc cmd :
  FormatToSoccernet.main_body input_dir train_dir processed file_name details counter w
  = (w', Raise (CalledProcessError rc cmd)) ->
  is_clip file_name = true.
Proof.
  intros Hrun. destruct (is_clip file_name) eqn:Hclip; [reflexivity|].
  rewrite (soccernet_body_skip _ _ _ _ _ _ _ Hclip) in Hrun. discriminate Hrun.
Qed.



Lemma soccernet_main_Ok input_dir output_dir w w' :
  FormatToSoccernet.main input_dir output_dir w = (w', Ok tt) ->
  let clips := List.filter is_clip (listdir input_dir (files w)) in
  let stamp := strftime (S (clock w)) "%Y-%m-%d-%H_%M_%S" in
  let run_folder := OsPath.join output_dir ("run_" +:+ stamp) in
  spawned w'
  = (spawned w ++ slot_commands input_dir (OsPath.join run_folder "train") clips 1)%list
  /\ moved w'
     = (moved w ++ map (fun f => (OsPath.join input_dir f,
                                  OsPath.join "processed" ("run_" +:+ stamp))) clips)%list
  /\ clock w' = (clock w + 4)%nat
  /\ List.last (console w') ""
     = "Run information written to " +:+ OsPath.join run_folder "data_info.json"
       +:+ newline
  /\ exists details,
       map (Json.get "original_file_name") details = map (fun f => Some (Json.Str f)) clips
       /\ files w' !! OsPath.join run_folder "data_info.json"
          = Some (Json.dumps float_repr
                    (Json.Dict
                       [("start_time", Json.Str (isoformat (S (clock w))));
                        ("end_time", Json.Str (isoformat (S (S (S (clock w))))));
                        ("duration_seconds",
                         Json.Float (round2 (PyFloat.sub (time_time (S (S (clock w))))
                                               (time_time (clock w)))));
                        ("videos_processed", Json.Int (Z.of_nat (length clips)));
                        ("details", Json.List details)]) 4).
Proof.
  intros Hrun clips stamp run_folder.
  apply bind_Ok in Hrun as (w1 & start_time & [= <- <-] & Hrun).
  apply bind_Ok in Hrun as (w2 & start_dt & [= <- <-] & Hrun).
  apply bind_Ok in Hrun as (w3 & [] & ->%makedirs_Ok & Hrun).
  cbn [clock] in Hrun. cbv zeta in Hrun. fold stamp in Hrun. fold run_folder in Hrun.
  apply bind_Ok in Hrun as (w4 & [] & ->%makedirs_Ok & Hrun).
  apply bind_Ok in Hrun as (w5 & [] & ->%makedirs_Ok & Hrun).
  apply bind_Ok in Hrun as (w6 & file_names & Hls & Hrun).
  apply os_listdir_Ok in Hls as [-> ->].
  cbn [files made] in Hrun. fold clips in Hrun.
  apply bind_Ok in Hrun as (w7 & details & Hloop & Hrun).
  apply soccernet_loop_Ok in Hloop as (Hs & Hc & Hm & new & -> & Hnew).
  cbn [spawned clock moved made] in Hs, Hc, Hm.
  apply bind_Ok in Hrun as (w8 & end_time & [= <- <-] & Hrun).
  apply bind_Ok in Hrun as (w9 & end_dt & [= <- <-] & Hrun).
  cbn [clock] in Hrun. rewrite Hc in Hrun.
  apply bind_Ok in Hrun as (w10 & [] & ->%write_text_Ok & Hrun).
  apply bind_Ok in Hrun as (w11 & [] & [= <-] & Hrun).
  injection Hrun as <-. cbn [files spawned moved clock console written].
  split; [exact Hs|]. split; [exact Hm|]. split; [lia|].
  split; [apply last_last|].
  exists new. split; [exact Hnew|]. rewrite lookup_insert_eq. cbn [app].
  do 6 f_equal. rewrite <- (length_map (Json.get "original_file_name")), Hnew.
  now rewrite length_map.
Qed.

(** X11.  A run of [format_to_soccernet.py] that ends without an
    exception has run, for each listed clip in listing order, the probe
    and then the rasterizer into [train/video{k}/img1] of the run folder,
    [k] counting the clips from 1 and skipping the entries that are not
    clips; and the report [data_info.json] it writes in the run folder
    counts exactly those clips, lists them in the same order under their
    original file names, and takes its start and end from the second and
    the fourth clock reading of the run. *)
Theorem soccernet_numbers_slots_in_order input_dir output_dir w w' :
  FormatToSoccernet.main input_dir output_dir w = (w', Ok tt) ->
  let clips := List.filter is_clip (listdir input_dir (files w)) in
  let run_folder :=
    OsPath.join output_dir ("run_" +:+ strftime (S (clock w)) "%Y-%m-%d-%H_%M_%S") in
  spawned w'
  = (spawned w ++ slot_commands input_dir (OsPath.join run_folder "train") clips 1)%list
  /\ exists details,
       map (Json.get "original_file_name") details = map (fun f => Some (Json.Str f)) clips
       /\ files w' !! OsPath.join run_folder "data_info.json"
          = Some (Json.dumps float_repr
                    (Json.Dict
                       [("start_time", Json.Str (isoformat (S (clock w))));
                        ("end_time", Json.Str (isoformat (S (S (S (clock w))))));
                        ("duration_seconds",
                         Json.Float (round2 (PyFloat.sub (time_time (S (S (clock w))))
                                               (time_time (clock w)))));
                        ("videos_processed", Json.Int (Z.of_nat (length clips)));
                        ("details", Json.List details)]) 4).
Proof.
  intros Hrun clips run_folder.
  destruct (soccernet_main_Ok input_dir output_dir w w' Hrun) as (Hs & _ & _ & _ & Hreport).
  split; [exact Hs | exact Hreport].
Qed.
End SoccernetBatch.

(** ** The single-clip converter over a directory *)

Section SingleClipBatch.
Import Host.
Context `{Externals}.

Lemma keeps_moved_mp4dir_body input_dir output_dir file_name :
  keeps_moved (FormatMp4Dir.main_body input_dir output_dir file_name).
Proof.
  unfold FormatMp4Dir.main_body. destruct (PyStr.endswith_any _ _); keeps_moved_steps.
Qed.

Lemma keeps_moved_mp4dir_loop input_dir output_dir file_names :
  keeps_moved (FormatMp4Dir.main_loop input_dir output_dir file_names).
Proof.
  induction file_names as [|f rest IH]; cbn [FormatMp4Dir.main_loop].
  - auto with keeps_moved.
  - apply keeps_moved_bind; [apply keeps_moved_mp4dir_body | intros _; exact IH].
Qed.

Lemma keeps_moved_mp4dir_main input_dir output_dir :
  keeps_moved (FormatMp4Dir.main input_dir output_dir).
Proof.
  unfold FormatMp4Dir.main.
  apply keeps_moved_bind; [auto with keeps_moved | intros _].
  apply keeps_moved_bind; [auto with keeps_moved | intros file_names].
  apply keeps_moved_bind; [apply keeps_moved_mp4dir_loop | intros _].
  auto with keeps_moved.
Qed.

(** X12.  [format_mp4_dir.py] never relocates anything: however its run
    ends, the source clips are where they were. *)
Theorem mp4dir_never_relocates input_dir output_dir w w' r :
  FormatMp4Dir.main input_dir output_dir w = (w', r) -> moved w' = moved w.
Proof. exact (keeps_moved_mp4dir_main input_dir output_dir w w' r). Qed.

Lemma mp4dir_body_skip input_dir output_dir file_name w :
  is_clip file_name = false ->
  FormatMp4Dir.main_body input_dir output_dir file_name w = (w, Ok tt).
Proof.
  intros Hclip. unfold FormatMp4Dir.main_body. fold (is_clip file_name).
  now rewrite Hclip.
Qed.

Lemma mp4dir_body_Ok input_dir output_dir file_name w w' :
  is_clip file_name = true ->
  FormatMp4Dir.main_body input_dir output_dir file_name w = (w', Ok tt) ->
  spawned w'
  = (spawned w ++ stamped_commands input_dir output_dir [file_name] (clock w))%list
  /\ clock w' = S (clock w).
Proof.
  intros Hclip Hrun.
  unfold FormatMp4Dir.main_body in Hrun. fold (is_clip file_name) in Hrun.
  rewrite Hclip in Hrun. fold (sanitized_base_name file_name) in Hrun.
  apply bind_Ok in Hrun as (w1 & now & Htick & Hrun).
  injection Htick as <- <-. cbv zeta in Hrun.
  apply bind_Ok in Hrun as (w2 & [] & ->%makedirs_Ok & Hrun).
  apply bind_Ok in Hrun as (w3 & [] & ->%makedirs_Ok & Hrun).
  apply bind_Ok in Hrun as (w4 & [] & ->%makedirs_Ok & Hrun).
  apply bind_Ok in Hrun as (w5 & [] & [= <-] & Hrun).
  apply bind_Ok in Hrun as (w6 & fps & Hfps & Hrun).
  apply get_video_fps_Ok in Hfps as (fs1 & ->).
  apply bind_Ok in Hrun as (w7 & [] & [= <-] & Hrun).
  apply bind_Ok in Hrun as (w8 & [] & Hext & Hrun).
  apply extract_frames_Ok_world in Hext as (fs2 & ->).
  apply bind_Ok in Hrun as (w9 & [] & [= <-] & Hrun).
  apply bind_Ok in Hrun as (w10 & total_frames & Hcount & Hrun).
  injection Hcount as <- Hcount.
  apply bind_Ok in Hrun as (w11 & [] & [= <-] & Hrun).
  apply bind_Ok in Hrun as (w12 & [] & [= <-] & Hrun).
  apply bind_Ok in Hrun as (w13 & [] & Hjson & Hrun).
  apply create_labels_json_Ok_world in Hjson as (_ & _ & Hs & _ & Hc).
  injection Hrun as <-.
  cbn [files dirs spawned moved console clock print made after_process
       stamped_commands] in *.
  rewrite Hs, Hc, <- app_assoc. split; reflexivity.
Qed.

Lemma mp4dir_loop_Ok input_dir output_dir file_names :
  forall w w',
    FormatMp4Dir.main_loop input_dir output_dir file_names w = (w', Ok tt) ->
    let clips := List.filter is_clip file_names in
    spawned w' = (spawned w ++ stamped_commands input_dir output_dir clips (clock w))%list
    /\ clock w' = (clock w + length clips)%nat.
Proof.
  induction file_names as [|f rest IH]; intros w w' Hrun.
  - injection Hrun as <-. cbn. rewrite app_nil_r. split; [reflexivity | lia].
  - cbn [FormatMp4Dir.main_loop] in Hrun.
    apply bind_Ok in Hrun as (w1 & [] & Hbody & Hrun).
    destruct (IH _ _ Hrun) as (Hs' & Hc').
    cbn [List.filter]. destruct (is_clip f) eqn:Hclip.
    + destruct (mp4dir_body_Ok _ _ _ _ _ Hclip Hbody) as (Hs & Hc).
      cbn zeta. cbn [stamped_commands length] in *.
      rewrite Hs', Hs, Hc', Hc, <- app_assoc. split; [reflexivity | lia].
    + rewrite (mp4dir_body_skip _ _ _ _ Hclip) in Hbody.
      injection Hbody as <-. split; assumption.
Qed.

Lemma mp4dir_main_Ok input_dir output_dir w w' :
  FormatMp4Dir.main input_dir output_dir w = (w', Ok tt) ->
  let clips := List.filter is_clip (listdir input_dir (files w)) in
  spawned w' = (spawned w ++ stamped_commands input_dir output_dir clips (clock w))%list
  /\ clock w' = (clock w + length clips)%nat
  /\ List.last (console w') "" = "Processing completed." +:+ newline.
Proof.
  intros Hrun clips.
  apply bind_Ok in Hrun as (w1 & [] & ->%makedirs_Ok & Hrun).
  apply bind_Ok in Hrun as (w2 & file_names & Hls & Hrun).
  apply os_listdir_Ok in Hls as [-> ->].
  cbn [files made] in Hrun. fold clips in Hrun.
  apply bind_Ok in Hrun as (w3 & [] & Hloop & Hrun).
  apply mp4dir_loop_Ok in Hloop as (Hs & Hc). cbn [spawned clock made] in Hs, Hc.
  injection Hrun as <-. cbn [spawned clock console].
  split; [exact Hs|]. split; [exact Hc|]. apply last_last.
Qed.

(** X13.  A run of [format_mp4_dir.py] that ends without an exception
    has read the clock once per listed clip and has run, for each clip in
    listing order, the probe and then the rasterizer into
    [{sanitized-base-name}-{timestamp}/train/video1/img1] under the output
    directory, the timestamp being that of the clip's own clock reading;
    entries that are not clips cost no clock reading and no process. *)
Theorem mp4dir_stamps_each_clip input_dir output_dir w w' :
  FormatMp4Dir.main input_dir output_dir w = (w', Ok tt) ->
  let clips := List.filter is_clip (listdir input_dir (files w)) in
  spawned w' = (spawned w ++ stamped_commands input_dir output_dir clips (clock w))%list
  /\ clock w' = (clock w + length clips)%nat.
Proof.
  intros Hrun clips.
  destruct (mp4dir_main_Ok input_dir output_dir w w' Hrun) as (Hs & Hc & _).
  now split.
Qed.
End SingleClipBatch.

(** ** The two converters: what they share and where they differ *)

Section Variants.
Import Host.
Context `{Externals}.

End Variants.

(** * Sample runs of the further properties *)

(** ** The quality gate *)


Lemma main_only_removes_listed_videos_witness :
  let w' := fst (@RemoveUnwantedScenes.main GateSample.externals "clips" "yolo11s.pt"
                   GateSample.world) in
  "clips/notes.txt" ∈ RemoveUnwantedScenes.disk w'
  \/ exists f,
       In f (@RemoveUnwantedScenes.listdir GateSample.externals "clips")
       /\ is_video f = true /\ "clips/notes.txt" = OsPath.join "clips" f.
Proof.
  apply (@main_only_removes_listed_videos GateSample.externals "clips" "yolo11s.pt"
           GateSample.world _
           (snd (@RemoveUnwantedScenes.main GateSample.externals "clips" "yolo11s.pt"
                   GateSample.world))).
  - now destruct (@RemoveUnwantedScenes.main GateSample.externals "clips" "yolo11s.pt"
                    GateSample.world).
  - unfold GateSample.world. cbn [RemoveUnwantedScenes.disk]. set_solver.
Defined.

Lemma main_without_videos_witness :
  let run :=
    @RemoveUnwantedScenes.main EmptyFolderSample.externals "docs" "yolo11s.pt"
      GateSample.world in
  snd run = Ok tt
  /\ RemoveUnwantedScenes.disk (fst run) = RemoveUnwantedScenes.disk GateSample.world
  /\ RemoveUnwantedScenes.console (fst run)
     = ["[INFO] Processed 0 videos, deleted 0.";
        "[WARN] No video files found in: docs, make sure they are in a supported format (.webm, .mp4, .avi, .mov, .mkv)."].
Proof.
  intros run.
  destruct (@main_without_videos EmptyFolderSample.externals "docs" "yolo11s.pt"
              GateSample.world (fst run) (snd run)) as (Hdisk & Hok & _).
  - reflexivity.
  - intros f [<- | [<- | []]]; reflexivity.
  - apply surjective_pairing.
  - assert (Hr : snd run = Ok tt) by reflexivity.
    split; [exact Hr|]. split; [exact Hdisk|].
    destruct (Hok Hr) as (_ & _ & Hconsole). exact Hconsole.
Defined.

(** With weights that do not load, the same run raises and prints
    nothing. *)
Example main_needs_weights :
  @RemoveUnwantedScenes.main EmptyFolderSample.externals "docs" "no-such-weights.pt"
    GateSample.world
  = (GateSample.world, Raise (FileNotFoundError "no-such-weights.pt")).
Proof. reflexivity. Qed.

(** ** The rate prober *)

Lemma get_video_fps_zero_denominator_witness :
  @FormatMp4Dir.get_video_fps ProbeSample.externals "in/still.mp4" HostSample.world
  = (after_process (ffprobe_cmd "in/still.mp4") 0 ∅ HostSample.world,
     Raise ZeroDivisionError).
Proof.
  apply (@get_video_fps_zero_denominator ProbeSample.externals "in/still.mp4"
           HostSample.world ∅ ("25/0" +:+ Host.newline) "25" "0" 25);
    reflexivity.
Defined.

Lemma get_video_fps_too_many_slashes_witness :
  @FormatMp4Dir.get_video_fps ProbeSample.externals "in/odd.mp4" HostSample.world
  = (after_process (ffprobe_cmd "in/odd.mp4") 0 ∅ HostSample.world,
     Raise (ValueError "too many values to unpack (expected 2)")).
Proof.
  apply (@get_video_fps_too_many_slashes ProbeSample.externals "in/odd.mp4"
           HostSample.world ∅ ("1/2/3" +:+ Host.newline)).
  - reflexivity.
  - vm_compute. lia.
Defined.

(** ** The converters over the sample directories *)


Lemma soccernet_numbers_slots_in_order_witness :
  let w' := fst (@FormatToSoccernet.main HostSample.externals "clips" "out"
                   HostSample.world) in
  Host.spawned w'
  = [(ffprobe_cmd "clips/My Clip.MP4", 0);
     (ffmpeg_cmd "clips/My Clip.MP4" "out/run_2025-01-01-12_00_00/train/video1/img1", 0)]
  /\ exists details,
       map (Json.get "original_file_name") details = [Some (Json.Str "My Clip.MP4")]
       /\ Host.files w' !! "out/run_2025-01-01-12_00_00/data_info.json"
          = Some (Json.dumps sample_float_repr
                    (Json.Dict
                       [("start_time", Json.Str "2025-01-01T12:00:00");
                        ("end_time", Json.Str "2025-01-01T12:00:00");
                        ("duration_seconds", Json.Float (PyFloat.of_Z 2));
                        ("videos_processed", Json.Int 1);
                        ("details", Json.List details)]) 4).
Proof.
  cbv zeta.
  apply (@soccernet_numbers_slots_in_order HostSample.externals "clips" "out"
           HostSample.world).
  vm_compute. reflexivity.
Defined.

Lemma mp4dir_never_relocates_witness :
  Host.moved (fst (@FormatMp4Dir.main HostSample.externals "clips" "out" HostSample.world))
  = Host.moved HostSample.world.
Proof.
  apply (@mp4dir_never_relocates HostSample.externals "clips" "out" HostSample.world _
           (snd (@FormatMp4Dir.main HostSample.externals "clips" "out"
                   HostSample.world))).
  now destruct (@FormatMp4Dir.main HostSample.externals "clips" "out" HostSample.world).
Defined.

Lemma mp4dir_stamps_each_clip_witness :
  let w' := fst (@FormatMp4Dir.main HostSample.externals "clips" "out" HostSample.world) in
  Host.spawned w'
  = [(ffprobe_cmd "clips/My Clip.MP4", 0);
     (ffmpeg_cmd "clips/My Clip.MP4" "out/my-clip-20250101-120000/train/video1/img1", 0)]
  /\ Host.clock w' = 1%nat.
Proof.
  cbv zeta.
  apply (@mp4dir_stamps_each_clip HostSample.externals "clips" "out" HostSample.world).
  vm_compute. reflexivity.
Defined.

(** A directory that cannot be listed: the batch converter raises
    before any clip is touched, after asking for its three directories. *)
Example listing_a_missing_directory :
  let run :=
    @FormatToSoccernet.main HostSample.externals "missing" "out" HostSample.world in
  snd run = Raise (FileNotFoundError "missing")
  /\ Host.spawned (fst run) = [] /\ Host.moved (fst run) = []
  /\ Host.files (fst run) = ∅.
Proof. cbv zeta. repeat split; vm_compute; reflexivity. Qed.

(** [repr] on the strings [float] rejects. *)
Example repr_samples :
  PyStr.repr "abc" = String "039" ("abc" +:+ String "039" "")
  /\ PyStr.repr (String "a" (String "039" "b"))
     = String "034" (String "a" (String "039" ("b" +:+ String "034" "")))
  /\ PyStr.repr ("1" +:+ Host.newline) = String "039" ("1\n" +:+ String "039" "")
  /\ @Host.builtin_float HostSample.externals "abc"
     = Raise (ValueError ("could not convert string to float: "
                          +:+ String "039" ("abc" +:+ String "039" ""))).
Proof. repeat split; vm_compute; reflexivity. Qed.

(** ** The two converters on the same clip *)


